(** * Disaster Recon UAV: hazard chain, operating state machine and telemetry

    A shallow embedding of the Arduino sketch (main sketch, [config.h],
    [sensors.h], [actuators.h], [motor_control.h]).  Globals of the sketch
    live in one record [World]; every [void] function of the sketch is a
    function [World -> World]; peripheral outputs are appended to a trace
    of [Event]s; peripheral inputs are arguments. *)

From Stdlib Require Import ZArith List String Ascii Bool Lia.
From Stdlib Require Import Floats.SpecFloat.
Import ListNotations.
Local Open Scope string_scope.
Local Open Scope Z_scope.

(** ** config.h *)

Module Config.

Definition DHT_PIN : Z := 12.
Definition TRIG_PIN : Z := 10.
Definition ECHO_PIN : Z := 11.
Definition IR_PIN : Z := 2.

Definition BUZZER_PIN : Z := 9.
Definition RGB_RED : Z := 6.
Definition RGB_GREEN : Z := 7.
Definition RGB_BLUE : Z := 8.

Definition MOTOR_IN1 : Z := 4.
Definition MOTOR_IN2 : Z := 5.
Definition MOTOR_ENABLE : Z := 3.

Definition MQ2_THRESHOLD : Z := 460.
Definition MIN_DISTANCE : Z := 2.
Definition MAX_DISTANCE : Z := 400.

Definition STATE_OFF : Z := 0.
Definition STATE_IDLE : Z := 1.
Definition STATE_ACTIVE : Z := 2.
Definition STATE_ALERT : Z := 3.
Definition STATE_ERROR : Z := 4.

Definition UPDATE_INTERVAL : Z := 15000.

Definition IR_BUTTON_ON : Z := 1206453597.   (* 0x47E9055D *)
Definition IR_BUTTON_OFF : Z := 1004189389.  (* 0x3BDAB6CD *)

Definition TONE_READY : Z := 1000.
Definition TONE_HAZARD : Z := 2000.

Definition THINGSPEAK_MODE : Z := 5.

End Config.
Import Config.

(** ** Machine numbers

    The target is an 8-bit AVR board: [int] has 16 bits, [unsigned long]
    has 32 bits, and both [float] and [double] are IEEE binary32. *)

Module F32.

Definition prec : Z := 24.
Definition emax : Z := 128.

Definition float := spec_float.

Definition fadd : float -> float -> float := SFadd prec emax.
Definition fsub : float -> float -> float := SFsub prec emax.
Definition fmul : float -> float -> float := SFmul prec emax.
Definition fdiv : float -> float -> float := SFdiv prec emax.
Definition fneg : float -> float := SFopp.

(** The four ordered comparisons of C; each is false when an operand is NaN. *)
Definition flt (x y : float) : bool := SFltb x y.
Definition fle (x y : float) : bool := SFleb x y.
Definition fgt (x y : float) : bool := SFltb y x.
Definition fge (x y : float) : bool := SFleb y x.

Definition isnan (x : float) : bool :=
  match x with S754_nan => true | _ => false end.
Definition isinf (x : float) : bool :=
  match x with S754_infinity _ => true | _ => false end.

(** Conversion of an integer to [float] (round to nearest even). *)
Definition of_Z (n : Z) : float := binary_normalize prec emax n 0 false.

(** Conversion of a [float] to an integer: the fraction is discarded. *)
Definition trunc (x : float) : Z :=
  match x with
  | S754_finite s m e =>
      let v := Z.shiftl (Zpos m) e in if s then - v else v
  | _ => 0
  end.

(** The binary32 value nearest to the decimal [m / 10^k], [m] signed by [neg]:
    what a decimal literal of the source denotes. *)
Definition of_decimal (neg : bool) (m : Z) (k : nat) : float :=
  match m with
  | Zpos p => fdiv (S754_finite neg p 0) (S754_finite false (Z.to_pos (10 ^ Z.of_nat k)) 0)
  | _ => S754_zero neg
  end.

(** A value of the format: canonical mantissa and exponent in range. *)
Definition is_binary32 (x : float) : bool := valid_binary prec emax x.

(** The number a finite value stands for, in units of [2^-149] (the least
    positive binary32 number), so that it is an integer. *)
Definition scaled (x : float) : Z :=
  match x with
  | S754_finite s m e =>
      let v := Zpos m * 2 ^ (e + 149) in if s then - v else v
  | _ => 0
  end.

(** The measured quantity [x] is at least, resp. at most, the integer [n]. *)
Definition at_least (x : float) (n : Z) : Prop :=
  match x with
  | S754_nan => False
  | S754_infinity s => s = false
  | _ => n * 2 ^ 149 <= scaled x
  end.

Definition at_most (x : float) (n : Z) : Prop :=
  match x with
  | S754_nan => False
  | S754_infinity s => s = true
  | _ => scaled x <= n * 2 ^ 149
  end.

End F32.
Import F32.

Definition wrap16 (n : Z) : Z := (n + 32768) mod 65536 - 32768.
Definition wrap32u (n : Z) : Z := n mod 4294967296.

(** [(int)value] for a [float]: truncation; a value outside 16 bits has no
    defined result in C++, the model reduces it like the 16-bit store does. *)
Definition float_to_int (x : float) : Z := wrap16 (trunc x).

(** ** Library routines the sketch calls

    The Arduino core ([Print], [String]) and the C library ([atof],
    [strtok], [isDigit]) are not part of the repository. *)

Module Arduino.

(** Modelled from the spec: the digit characters of "decimal ASCII" (spec 6),
    extended to bases up to 36 as the core's number printer has them. *)
Definition digit_char (c : Z) : ascii :=
  if c <? 10 then ascii_of_nat (Z.to_nat c + 48) else ascii_of_nat (Z.to_nat c + 55).

(** Modelled from the spec: integers are rendered as "decimal ASCII"
    (spec 6); the routine that does it, the core's number printer, is
    missing from the repository.  One digit per step, least significant
    first, at least one digit; [fuel] bounds the digits (32 cover an
    [unsigned long] in any base). *)
Fixpoint printNumber_aux (fuel : nat) (n base : Z) (acc : string) : string :=
  match fuel with
  | O => acc
  | S fuel' =>
      let acc' := String (digit_char (n mod base)) acc in
      let n' := n / base in
      if n' =? 0 then acc' else printNumber_aux fuel' n' base acc'
  end.

Definition printNumber (n base : Z) : string := printNumber_aux 32 n base "".

(** Modelled from the spec: [print] of a signed integer, missing from the
    repository like [printNumber]: a minus sign, then the magnitude in
    decimal. *)
Definition printInt (n : Z) : string :=
  if n <? 0 then "-" ++ printNumber (- n) 10 else printNumber n 10.

(** Modelled from the spec: the fraction digits of the float printer
    described under [printFloat] below, missing from the repository. *)
Fixpoint fracDigits (digits : nat) (remainder : float) : string :=
  match digits with
  | O => ""
  | S digits' =>
      let remainder := fmul remainder (of_Z 10) in
      let toPrint := trunc remainder in
      printNumber toPrint 10 ++ fracDigits digits' (fsub remainder (of_Z toPrint))
  end.

(** Modelled from the spec: half a unit of the last printed place, [0.5]
    divided [digits] times by ten, as the float printer computes it. *)
Fixpoint rounding_of (digits : nat) : float :=
  match digits with
  | O => of_decimal false 5 1
  | S digits' => fdiv (rounding_of digits') (of_Z 10)
  end.

(** Modelled from the spec: floats are rendered "at fixed one-decimal
    precision" in "decimal ASCII" (spec 4.5, 6); the routine behind
    [print(x, digits)], the core's float printer, is missing from the
    repository.  It adds half a unit of the last printed place, prints the
    integer part, then extracts [digits] fraction digits one at a time, all
    in binary32 arithmetic. *)
Definition printFloat (number : float) (digits : nat) : string :=
  if isnan number then "nan"
  else if isinf number then "inf"
  else if fgt number (of_Z 4294967040) then "ovf"
  else if flt number (of_Z (-4294967040)) then "ovf"
  else
    let neg := flt number (S754_zero false) in
    let number := if neg then fneg number else number in
    let number := fadd number (rounding_of digits) in
    let int_part := wrap32u (trunc number) in
    let remainder := fsub number (of_Z int_part) in
    (if neg then "-" else "")
      ++ printNumber int_part 10
      ++ (match digits with O => "" | S _ => "." end)
      ++ fracDigits digits remainder.

(** Modelled from the spec: the inbound filter accepts "digits" (spec 4.5);
    [isDigit] belongs to the core, missing from the repository. *)
Definition isDigit (c : ascii) : bool :=
  let n := Z.of_nat (nat_of_ascii c) in (48 <=? n) && (n <=? 57).

Definition digit_value (c : ascii) : Z := Z.of_nat (nat_of_ascii c) - 48.

(** Modelled from the spec: part of [atof] below.  Leading decimal digits of
    [s]: the number read so far, how many digits were read, and what follows
    them. *)
Fixpoint read_digits (s : string) (acc : Z) (n : nat) : Z * nat * string :=
  match s with
  | String c s' =>
      if isDigit c then read_digits s' (10 * acc + digit_value c) (S n)
      else (acc, n, s)
  | EmptyString => (acc, n, s)
  end.

(** Modelled from the spec: inbound fields are "decimal ASCII" numbers
    (spec 6); [atof] belongs to the C library, missing from the repository.
    An optional sign, digits, an optional point and more digits; the longest
    such prefix is converted to the nearest binary32 value, and a text with
    no digit gives zero.  (No exponent part: the receive filter of the
    sketch never lets a letter through.) *)
Definition atof (s : string) : float :=
  let '(neg, s1) :=
    match s with
    | String "-" r => (true, r)
    | String "+" r => (false, r)
    | _ => (false, s)
    end in
  let '(ip, ni, s2) := read_digits s1 0 0 in
  let '(m, nf) :=
    match s2 with
    | String "." r => let '(m, nf, _) := read_digits r ip 0 in (m, nf)
    | _ => (ip, 0%nat)
    end in
  match (ni + nf)%nat with
  | O => S754_zero false
  | _ => of_decimal neg m nf
  end.

(** Modelled from the spec: records are split "on the field separator"
    (spec 4.5); [strtok] belongs to the C library, missing from the
    repository.  [strtok_all delim s cur] lists the tokens the successive
    calls [strtok(s, delim)], [strtok(NULL, delim)], ... return until NULL:
    the maximal runs of characters other than [delim]; runs of delimiters
    yield no empty token.  [cur] holds the token being scanned, reversed. *)
Fixpoint strtok_all (delim : ascii) (s : string) (cur : list ascii) : list string :=
  match s with
  | EmptyString =>
      match cur with
      | [] => []
      | _ => [string_of_list_ascii (rev cur)]
      end
  | String c s' =>
      if Ascii.eqb c delim then
        match cur with
        | [] => strtok_all delim s' []
        | _ => string_of_list_ascii (rev cur) :: strtok_all delim s' []
        end
      else strtok_all delim s' (c :: cur)
  end.

End Arduino.
Import Arduino.

(** ** Data of the sketch *)

(** [struct SensorData] of [sensors.h]. *)
Record SensorData : Type := {
  temperature : float;
  humidity : float;
  gasLevel : Z;
  distance : Z;
  pitch : float;
  roll : float;
  yaw : float;
  valid : bool
}.

Definition set_temperature (v : float) (x : SensorData) : SensorData :=
  {| temperature := v; humidity := humidity x; gasLevel := gasLevel x; distance := distance x; pitch := pitch x; roll := roll x; yaw := yaw x; valid := valid x |}.
Definition set_humidity (v : float) (x : SensorData) : SensorData :=
  {| temperature := temperature x; humidity := v; gasLevel := gasLevel x; distance := distance x; pitch := pitch x; roll := roll x; yaw := yaw x; valid := valid x |}.
Definition set_gasLevel (v : Z) (x : SensorData) : SensorData :=
  {| temperature := temperature x; humidity := humidity x; gasLevel := v; distance := distance x; pitch := pitch x; roll := roll x; yaw := yaw x; valid := valid x |}.
Definition set_distance (v : Z) (x : SensorData) : SensorData :=
  {| temperature := temperature x; humidity := humidity x; gasLevel := gasLevel x; distance := v; pitch := pitch x; roll := roll x; yaw := yaw x; valid := valid x |}.
Definition set_pitch (v : float) (x : SensorData) : SensorData :=
  {| temperature := temperature x; humidity := humidity x; gasLevel := gasLevel x; distance := distance x; pitch := v; roll := roll x; yaw := yaw x; valid := valid x |}.
Definition set_roll (v : float) (x : SensorData) : SensorData :=
  {| temperature := temperature x; humidity := humidity x; gasLevel := gasLevel x; distance := distance x; pitch := pitch x; roll := v; yaw := yaw x; valid := valid x |}.
Definition set_yaw (v : float) (x : SensorData) : SensorData :=
  {| temperature := temperature x; humidity := humidity x; gasLevel := gasLevel x; distance := distance x; pitch := pitch x; roll := roll x; yaw := v; valid := valid x |}.
Definition set_valid (v : bool) (x : SensorData) : SensorData :=
  {| temperature := temperature x; humidity := humidity x; gasLevel := gasLevel x; distance := distance x; pitch := pitch x; roll := roll x; yaw := yaw x; valid := v |}.

(** [struct ThingSpeakData] of the main sketch, the display cache filled
    from inbound records.  Its last three fields are [pitch], [roll] and
    [yaw] in the source; they carry a prefix here because [SensorData]
    has fields of the same names. *)
Record ThingSpeakData : Type := {
  temp : float;
  humid : float;
  gas : Z;
  dist : Z;
  state : Z;
  ts_pitch : float;
  ts_roll : float;
  ts_yaw : float
}.

Definition set_temp (v : float) (x : ThingSpeakData) : ThingSpeakData :=
  {| temp := v; humid := humid x; gas := gas x; dist := dist x; state := state x; ts_pitch := ts_pitch x; ts_roll := ts_roll x; ts_yaw := ts_yaw x |}.
Definition set_humid (v : float) (x : ThingSpeakData) : ThingSpeakData :=
  {| temp := temp x; humid := v; gas := gas x; dist := dist x; state := state x; ts_pitch := ts_pitch x; ts_roll := ts_roll x; ts_yaw := ts_yaw x |}.
Definition set_gas (v : Z) (x : ThingSpeakData) : ThingSpeakData :=
  {| temp := temp x; humid := humid x; gas := v; dist := dist x; state := state x; ts_pitch := ts_pitch x; ts_roll := ts_roll x; ts_yaw := ts_yaw x |}.
Definition set_dist (v : Z) (x : ThingSpeakData) : ThingSpeakData :=
  {| temp := temp x; humid := humid x; gas := gas x; dist := v; state := state x; ts_pitch := ts_pitch x; ts_roll := ts_roll x; ts_yaw := ts_yaw x |}.
Definition set_state (v : Z) (x : ThingSpeakData) : ThingSpeakData :=
  {| temp := temp x; humid := humid x; gas := gas x; dist := dist x; state := v; ts_pitch := ts_pitch x; ts_roll := ts_roll x; ts_yaw := ts_yaw x |}.
Definition set_ts_pitch (v : float) (x : ThingSpeakData) : ThingSpeakData :=
  {| temp := temp x; humid := humid x; gas := gas x; dist := dist x; state := state x; ts_pitch := v; ts_roll := ts_roll x; ts_yaw := ts_yaw x |}.
Definition set_ts_roll (v : float) (x : ThingSpeakData) : ThingSpeakData :=
  {| temp := temp x; humid := humid x; gas := gas x; dist := dist x; state := state x; ts_pitch := ts_pitch x; ts_roll := v; ts_yaw := ts_yaw x |}.
Definition set_ts_yaw (v : float) (x : ThingSpeakData) : ThingSpeakData :=
  {| temp := temp x; humid := humid x; gas := gas x; dist := dist x; state := state x; ts_pitch := ts_pitch x; ts_roll := ts_roll x; ts_yaw := v |}.

(** What the sketch does to its peripherals, in program order. *)
Inductive Event : Type :=
| DigitalWrite (pin : Z) (high : bool)
| AnalogWrite (pin value : Z)
| Tone (pin frequency duration : Z)
| NoTone (pin : Z)
| Delay (ms : Z)
| DelayMicroseconds (us : Z)
| SerialWrite (text : string)
| LcdBacklight
| LcdClear
| LcdSetCursor (col row : Z)
| LcdPrint (text : string)
| IrResume.

(** The globals of the sketch (with the function-local statics
    [receivedString], [newData] and [tsDisplayStep]), and the three pieces of
    the outside world the sketch observes or drives: [clock], the time in
    milliseconds since start; [serialIn], the bytes received on the serial
    line and not yet read; [trace], the peripheral operations so far. *)
Record World : Type := {
  currentState : Z;
  previousState : Z;
  receivedTSData : ThingSpeakData;
  cloudConnected : bool;
  lastUpdateTime : Z;
  lastDisplayUpdate : Z;
  lastDHTUpdate : Z;
  displayMode : Z;
  currentData : SensorData;
  loopCount : Z;
  receivedString : string;
  newData : bool;
  tsDisplayStep : Z;
  clock : Z;
  serialIn : string;
  trace : list Event
}.

Definition set_currentState (v : Z) (x : World) : World :=
  {| currentState := v; previousState := previousState x; receivedTSData := receivedTSData x; cloudConnected := cloudConnected x; lastUpdateTime := lastUpdateTime x; lastDisplayUpdate := lastDisplayUpdate x; lastDHTUpdate := lastDHTUpdate x; displayMode := displayMode x; currentData := currentData x; loopCount := loopCount x; receivedString := receivedString x; newData := newData x; tsDisplayStep := tsDisplayStep x; clock := clock x; serialIn := serialIn x; trace := trace x |}.
Definition set_previousState (v : Z) (x : World) : World :=
  {| currentState := currentState x; previousState := v; receivedTSData := receivedTSData x; cloudConnected := cloudConnected x; lastUpdateTime := lastUpdateTime x; lastDisplayUpdate := lastDisplayUpdate x; lastDHTUpdate := lastDHTUpdate x; displayMode := displayMode x; currentData := currentData x; loopCount := loopCount x; receivedString := receivedString x; newData := newData x; tsDisplayStep := tsDisplayStep x; clock := clock x; serialIn := serialIn x; trace := trace x |}.
Definition set_receivedTSData (v : ThingSpeakData) (x : World) : World :=
  {| currentState := currentState x; previousState := previousState x; receivedTSData := v; cloudConnected := cloudConnected x; lastUpdateTime := lastUpdateTime x; lastDisplayUpdate := lastDisplayUpdate x; lastDHTUpdate := lastDHTUpdate x; displayMode := displayMode x; currentData := currentData x; loopCount := loopCount x; receivedString := receivedString x; newData := newData x; tsDisplayStep := tsDisplayStep x; clock := clock x; serialIn := serialIn x; trace := trace x |}.
Definition set_cloudConnected (v : bool) (x : World) : World :=
  {| currentState := currentState x; previousState := previousState x; receivedTSData := receivedTSData x; cloudConnected := v; lastUpdateTime := lastUpdateTime x; lastDisplayUpdate := lastDisplayUpdate x; lastDHTUpdate := lastDHTUpdate x; displayMode := displayMode x; currentData := currentData x; loopCount := loopCount x; receivedString := receivedString x; newData := newData x; tsDisplayStep := tsDisplayStep x; clock := clock x; serialIn := serialIn x; trace := trace x |}.
Definition set_lastUpdateTime (v : Z) (x : World) : World :=
  {| currentState := currentState x; previousState := previousState x; receivedTSData := receivedTSData x; cloudConnected := cloudConnected x; lastUpdateTime := v; lastDisplayUpdate := lastDisplayUpdate x; lastDHTUpdate := lastDHTUpdate x; displayMode := displayMode x; currentData := currentData x; loopCount := loopCount x; receivedString := receivedString x; newData := newData x; tsDisplayStep := tsDisplayStep x; clock := clock x; serialIn := serialIn x; trace := trace x |}.
Definition set_lastDisplayUpdate (v : Z) (x : World) : World :=
  {| currentState := currentState x; previousState := previousState x; receivedTSData := receivedTSData x; cloudConnected := cloudConnected x; lastUpdateTime := lastUpdateTime x; lastDisplayUpdate := v; lastDHTUpdate := lastDHTUpdate x; displayMode := displayMode x; currentData := currentData x; loopCount := loopCount x; receivedString := receivedString x; newData := newData x; tsDisplayStep := tsDisplayStep x; clock := clock x; serialIn := serialIn x; trace := trace x |}.
Definition set_lastDHTUpdate (v : Z) (x : World) : World :=
  {| currentState := currentState x; previousState := previousState x; receivedTSData := receivedTSData x; cloudConnected := cloudConnected x; lastUpdateTime := lastUpdateTime x; lastDisplayUpdate := lastDisplayUpdate x; lastDHTUpdate := v; displayMode := displayMode x; currentData := currentData x; loopCount := loopCount x; receivedString := receivedString x; newData := newData x; tsDisplayStep := tsDisplayStep x; clock := clock x; serialIn := serialIn x; trace := trace x |}.
Definition set_displayMode (v : Z) (x : World) : World :=
  {| currentState := currentState x; previousState := previousState x; receivedTSData := receivedTSData x; cloudConnected := cloudConnected x; lastUpdateTime := lastUpdateTime x; lastDisplayUpdate := lastDisplayUpdate x; lastDHTUpdate := lastDHTUpdate x; displayMode := v; currentData := currentData x; loopCount := loopCount x; receivedString := receivedString x; newData := newData x; tsDisplayStep := tsDisplayStep x; clock := clock x; serialIn := serialIn x; trace := trace x |}.
Definition set_currentData (v : SensorData) (x : World) : World :=
  {| currentState := currentState x; previousState := previousState x; receivedTSData := receivedTSData x; cloudConnected := cloudConnected x; lastUpdateTime := lastUpdateTime x; lastDisplayUpdate := lastDisplayUpdate x; lastDHTUpdate := lastDHTUpdate x; displayMode := displayMode x; currentData := v; loopCount := loopCount x; receivedString := receivedString x; newData := newData x; tsDisplayStep := tsDisplayStep x; clock := clock x; serialIn := serialIn x; trace := trace x |}.
Definition set_loopCount (v : Z) (x : World) : World :=
  {| currentState := currentState x; previousState := previousState x; receivedTSData := receivedTSData x; cloudConnected := cloudConnected x; lastUpdateTime := lastUpdateTime x; lastDisplayUpdate := lastDisplayUpdate x; lastDHTUpdate := lastDHTUpdate x; displayMode := displayMode x; currentData := currentData x; loopCount := v; receivedString := receivedString x; newData := newData x; tsDisplayStep := tsDisplayStep x; clock := clock x; serialIn := serialIn x; trace := trace x |}.
Definition set_receivedString (v : string) (x : World) : World :=
  {| currentState := currentState x; previousState := previousState x; receivedTSData := receivedTSData x; cloudConnected := cloudConnected x; lastUpdateTime := lastUpdateTime x; lastDisplayUpdate := lastDisplayUpdate x; lastDHTUpdate := lastDHTUpdate x; displayMode := displayMode x; currentData := currentData x; loopCount := loopCount x; receivedString := v; newData := newData x; tsDisplayStep := tsDisplayStep x; clock := clock x; serialIn := serialIn x; trace := trace x |}.
Definition set_newData (v : bool) (x : World) : World :=
  {| currentState := currentState x; previousState := previousState x; receivedTSData := receivedTSData x; cloudConnected := cloudConnected x; lastUpdateTime := lastUpdateTime x; lastDisplayUpdate := lastDisplayUpdate x; lastDHTUpdate := lastDHTUpdate x; displayMode := displayMode x; currentData := currentData x; loopCount := loopCount x; receivedString := receivedString x; newData := v; tsDisplayStep := tsDisplayStep x; clock := clock x; serialIn := serialIn x; trace := trace x |}.
Definition set_tsDisplayStep (v : Z) (x : World) : World :=
  {| currentState := currentState x; previousState := previousState x; receivedTSData := receivedTSData x; cloudConnected := cloudConnected x; lastUpdateTime := lastUpdateTime x; lastDisplayUpdate := lastDisplayUpdate x; lastDHTUpdate := lastDHTUpdate x; displayMode := displayMode x; currentData := currentData x; loopCount := loopCount x; receivedString := receivedString x; newData := newData x; tsDisplayStep := v; clock := clock x; serialIn := serialIn x; trace := trace x |}.
Definition set_clock (v : Z) (x : World) : World :=
  {| currentState := currentState x; previousState := previousState x; receivedTSData := receivedTSData x; cloudConnected := cloudConnected x; lastUpdateTime := lastUpdateTime x; lastDisplayUpdate := lastDisplayUpdate x; lastDHTUpdate := lastDHTUpdate x; displayMode := displayMode x; currentData := currentData x; loopCount := loopCount x; receivedString := receivedString x; newData := newData x; tsDisplayStep := tsDisplayStep x; clock := v; serialIn := serialIn x; trace := trace x |}.
Definition set_serialIn (v : string) (x : World) : World :=
  {| currentState := currentState x; previousState := previousState x; receivedTSData := receivedTSData x; cloudConnected := cloudConnected x; lastUpdateTime := lastUpdateTime x; lastDisplayUpdate := lastDisplayUpdate x; lastDHTUpdate := lastDHTUpdate x; displayMode := displayMode x; currentData := currentData x; loopCount := loopCount x; receivedString := receivedString x; newData := newData x; tsDisplayStep := tsDisplayStep x; clock := clock x; serialIn := v; trace := trace x |}.
Definition set_trace (v : list Event) (x : World) : World :=
  {| currentState := currentState x; previousState := previousState x; receivedTSData := receivedTSData x; cloudConnected := cloudConnected x; lastUpdateTime := lastUpdateTime x; lastDisplayUpdate := lastDisplayUpdate x; lastDHTUpdate := lastDHTUpdate x; displayMode := displayMode x; currentData := currentData x; loopCount := loopCount x; receivedString := receivedString x; newData := newData x; tsDisplayStep := tsDisplayStep x; clock := clock x; serialIn := serialIn x; trace := v |}.

(** Globals as C++ initialises them before [setup]. *)
Definition zeroSensorData : SensorData :=
  {| temperature := S754_zero false; humidity := S754_zero false;
     gasLevel := 0; distance := 0;
     pitch := S754_zero false; roll := S754_zero false; yaw := S754_zero false;
     valid := false |}.

Definition zeroThingSpeakData : ThingSpeakData :=
  {| temp := S754_zero false; humid := S754_zero false;
     gas := 0; dist := 0; state := 0;
     ts_pitch := S754_zero false; ts_roll := S754_zero false;
     ts_yaw := S754_zero false |}.

Definition initialWorld : World :=
  {| currentState := STATE_OFF; previousState := STATE_OFF;
     receivedTSData := zeroThingSpeakData; cloudConnected := false;
     lastUpdateTime := 0; lastDisplayUpdate := 0; lastDHTUpdate := 0;
     displayMode := 0; currentData := zeroSensorData; loopCount := 0;
     receivedString := ""; newData := false; tsDisplayStep := 0;
     clock := 0; serialIn := ""; trace := [] |}.

(** ** Sequencing *)

Definition Action : Type := World -> World.

Definition skip : Action := fun w => w.
Definition seq (a b : Action) : Action := fun w => b (a w).
Notation "a ;; b" := (seq a b) (at level 61, right associativity).

Fixpoint times (n : nat) (a : Action) : Action :=
  match n with
  | O => skip
  | S n' => a ;; times n' a
  end.

Definition emit (e : Event) : Action :=
  fun w => set_trace (trace w ++ [e])%list w.

(** ** Core primitives *)

Definition CRLF : string := String "013" (String "010" EmptyString).

Definition millis (w : World) : Z := wrap32u (clock w).

Definition delay (ms : Z) : Action :=
  fun w => emit (Delay ms) (set_clock (clock w + ms) w).

Definition Serial_print (s : string) : Action := emit (SerialWrite s).
Definition Serial_println (s : string) : Action := emit (SerialWrite (s ++ CRLF)).

Definition lcd_backlight : Action := emit LcdBacklight.
Definition lcd_clear : Action := emit LcdClear.
Definition lcd_setCursor (col row : Z) : Action := emit (LcdSetCursor col row).
Definition lcd_print (s : string) : Action := emit (LcdPrint s).

Definition digitalWrite (pin : Z) (high : bool) : Action := emit (DigitalWrite pin high).
Definition analogWrite (pin value : Z) : Action := emit (AnalogWrite pin value).
Definition tone (pin frequency duration : Z) : Action := emit (Tone pin frequency duration).
Definition noTone (pin : Z) : Action := emit (NoTone pin).

(** ** actuators.h *)

Definition displayReady : Action :=
  lcd_backlight ;; lcd_clear ;; lcd_print "Ready to Fly!" ;;
  lcd_setCursor 0 1 ;; lcd_print "Press IR ON".

Definition displayOff : Action :=
  lcd_backlight ;; lcd_clear ;; lcd_print "UAV OFF" ;;
  lcd_setCursor 0 1 ;; lcd_print "Standby Mode".

Definition displaySensorData (data : SensorData) (displayMode : Z) : Action :=
  lcd_backlight ;; lcd_clear ;;
  match Z.rem displayMode 4 with
  | 0 =>
      lcd_print "T:" ;; lcd_print (printFloat (temperature data) 1) ;;
      lcd_print "C H:" ;; lcd_print (printFloat (humidity data) 0) ;;
      lcd_print "%" ;; lcd_setCursor 0 1 ;;
      lcd_print "Gas:" ;; lcd_print (printInt (gasLevel data))
  | 1 =>
      lcd_print "Gas:" ;; lcd_print (printInt (gasLevel data)) ;;
      lcd_print " (" ;;
      lcd_print (printInt (Z.quot (wrap16 (gasLevel data * 100)) 1023)) ;;
      lcd_print "%)" ;; lcd_setCursor 0 1 ;;
      lcd_print "Dist:" ;; lcd_print (printInt (distance data)) ;;
      lcd_print " cm"
  | 2 =>
      lcd_print "Pitch:" ;; lcd_print (printFloat (pitch data) 1) ;;
      lcd_setCursor 0 1 ;;
      lcd_print "Roll:" ;; lcd_print (printFloat (roll data) 1)
  | 3 =>
      lcd_print "Yaw:" ;; lcd_print (printFloat (yaw data) 1) ;;
      lcd_setCursor 0 1 ;; lcd_print "Heading"
  | _ => skip
  end.

Definition displayAlert : Action :=
  lcd_backlight ;; lcd_clear ;; lcd_print "!!! ALERT !!!" ;;
  lcd_setCursor 0 1 ;; lcd_print "GAS DETECTED!".

Definition displayError : Action :=
  lcd_backlight ;; lcd_clear ;; lcd_print "SENSOR ERROR" ;;
  lcd_setCursor 0 1 ;; lcd_print "Check wiring".

Definition setRGBColor (red green blue : Z) : Action :=
  analogWrite RGB_RED red ;; analogWrite RGB_GREEN green ;;
  analogWrite RGB_BLUE blue.

Definition rgbOff : Action := setRGBColor 0 0 0.
Definition rgbGreen : Action := setRGBColor 0 255 0.
Definition rgbBlue : Action := setRGBColor 0 0 255.
Definition rgbRed : Action := setRGBColor 255 0 0.
Definition rgbYellow : Action := setRGBColor 255 255 0.
Definition rgbPurple : Action := setRGBColor 128 0 128.
Definition rgbOrange : Action := setRGBColor 255 165 0.
Definition rgbCyan : Action := setRGBColor 0 255 255.
Definition rgbDeepBlue : Action := setRGBColor 0 0 139.

Definition beepShort : Action :=
  tone BUZZER_PIN TONE_READY 100 ;; delay 150 ;; noTone BUZZER_PIN.

Definition beepReady : Action := beepShort.
Definition beepIR : Action := beepShort.
Definition beepStateChange : Action := beepShort.

Definition beepObstacle : Action :=
  times 5 (tone BUZZER_PIN TONE_HAZARD 80 ;; delay 100 ;;
           noTone BUZZER_PIN ;; delay 50).

Definition beepEnvironmental : Action :=
  times 3 (tone BUZZER_PIN TONE_HAZARD 300 ;; delay 400 ;;
           noTone BUZZER_PIN ;; delay 200).

Definition beepHazard : Action := beepEnvironmental.

(** ** sensors.h *)

(** [raw] is what the probe library returned, NaN when the read failed. *)
Definition readTemperature (raw : float) (w : World) : float * World :=
  if isnan raw
  then (of_Z (-999), Serial_println "DHT11: Temperature read error" w)
  else (raw, w).

Definition readHumidity (raw : float) (w : World) : float * World :=
  if isnan raw
  then (of_Z (-999), Serial_println "DHT11: Humidity read error" w)
  else (raw, w).

Definition readGasLevel (raw : Z) : Z := raw.

Definition isHazardousGas (gasLevel : Z) : bool := MQ2_THRESHOLD <=? gasLevel.

(** [duration] is the echo pulse width in microseconds, 0 on time-out. *)
Definition readDistance (duration : Z) (w : World) : Z * World :=
  let w := (digitalWrite TRIG_PIN false ;; emit (DelayMicroseconds 2) ;;
            digitalWrite TRIG_PIN true ;; emit (DelayMicroseconds 10) ;;
            digitalWrite TRIG_PIN false) w in
  let distance :=
    float_to_int (fdiv (fmul (of_Z duration) (of_decimal false 34 3)) (of_Z 2)) in
  if (duration =? 0) || (MAX_DISTANCE <? distance)
  then (-1, Serial_println "Ultrasonic: Out of range" w)
  else (distance, w).

(** ** motor_control.h *)

Definition motorOn : Action :=
  digitalWrite MOTOR_IN1 true ;; digitalWrite MOTOR_IN2 false ;;
  analogWrite MOTOR_ENABLE 255 ;; Serial_println "Motor: ON (Full Speed)".

Definition motorOff : Action :=
  analogWrite MOTOR_ENABLE 0 ;; digitalWrite MOTOR_IN1 false ;;
  digitalWrite MOTOR_IN2 false ;; Serial_println "Motor: OFF".

Definition getCurrentState (w : World) : Z := currentState w.

(** The actions bound to the state just entered ([switch] of [setState]). *)
Definition stateActions (s : Z) : Action :=
  match s with
  | 0 => motorOff ;; rgbOff ;; displayOff
  | 1 =>
      motorOn ;; rgbPurple ;; lcd_backlight ;; lcd_clear ;;
      lcd_print "UAV ACTIVE" ;; lcd_setCursor 0 1 ;; lcd_print "Warming up..."
  | 2 => motorOn ;; rgbGreen ;; lcd_backlight
  | 3 => motorOn ;; rgbRed ;; displayAlert ;; beepHazard
  | 4 => motorOff ;; rgbYellow ;; displayError
  | _ => skip
  end.

Definition setState (newState : Z) : Action :=
  fun w =>
    if negb (newState =? currentState w) then
      let w := set_previousState (currentState w) w in
      let w := set_currentState newState w in
      let w := beepStateChange w in
      let w := (Serial_print "State changed: " ;;
                Serial_print (printInt (previousState w)) ;;
                Serial_print " -> " ;;
                Serial_println (printInt (currentState w))) w in
      stateActions (currentState w) w
    else w.

(** The validity test ([if (!data.valid) setState(STATE_ERROR)]) is commented
    out in the source and so has no counterpart here. *)
Definition updateState (data : SensorData) : Action :=
  fun w =>
    if currentState w =? STATE_OFF then w
    else if isHazardousGas (gasLevel data) then setState STATE_ALERT w
    else if (currentState w =? STATE_IDLE) || (currentState w =? STATE_ACTIVE)
            || (currentState w =? STATE_ALERT) then
      if negb (currentState w =? STATE_ACTIVE) then setState STATE_ACTIVE w
      else w
    else w.

(** ** The serial receive side *)

Definition receive (bytes : string) : Action :=
  fun w => set_serialIn (serialIn w ++ bytes) w.

Definition Serial_available (w : World) : bool :=
  match serialIn w with EmptyString => false | _ => true end.

(** The text before the first [t] in [s] and the text after it. *)
Fixpoint split_at (t : ascii) (s : string) : option (string * string) :=
  match s with
  | EmptyString => None
  | String c s' =>
      if Ascii.eqb c t then Some (EmptyString, s')
      else match split_at t s' with
           | Some (line, rest) => Some (String c line, rest)
           | None => None
           end
  end.

Definition STREAM_TIMEOUT : Z := 1000.

(** Modelled from the spec: handshake tokens are "plain lines" of the
    inbound protocol (spec 6); the stream reader [readStringUntil] of the
    core is missing from the repository.  It returns the received text up to
    the terminator, which it consumes; when no terminator has been received
    it gives up after the stream time-out and returns what there is. *)
Definition Serial_readStringUntil (t : ascii) (w : World) : string * World :=
  match split_at t (serialIn w) with
  | Some (line, rest) => (line, set_serialIn rest w)
  | None => (serialIn w, set_clock (clock w + STREAM_TIMEOUT) (set_serialIn "" w))
  end.

(** ** Main sketch *)

(** *** Environmental threshold detection

    In [loop] this is one [if ... else if ...] chain whose branches drive the
    display, buzzer and LED.  [detectHazard] is the chain of guards, in the
    order of the source; [announceHazard] holds the branch bodies. *)

Inductive Hazard : Type :=
| NoHazard | Fire | Blizzard | Hurricane | Gas | Obstacle | Tilt.

(** The [abs] macro of the core: [((x)>0?(x):-(x))]. *)
Definition abs (x : float) : float :=
  if fgt x (of_Z 0) then x else fneg x.

(** The guards of the chain, as written in the source. *)
Definition fireGuard (d : SensorData) : bool :=
  fge (temperature d) (of_Z 30).
Definition blizzardGuard (d : SensorData) : bool :=
  fle (temperature d) (of_Z 20).
Definition hurricaneGuard (d : SensorData) : bool :=
  fge (humidity d) (of_Z 99) && fle (humidity d) (of_Z 120).
Definition gasGuard (d : SensorData) : bool :=
  isHazardousGas (gasLevel d).
Definition obstacleGuard (d : SensorData) : bool :=
  (0 <? distance d) && (distance d <? 5).
Definition tiltGuard (d : SensorData) : bool :=
  fgt (abs (pitch d)) (of_Z 45) || fgt (abs (roll d)) (of_Z 45).

Definition detectHazard (d : SensorData) : Hazard :=
  if fireGuard d then Fire
  else if blizzardGuard d then Blizzard
  else if hurricaneGuard d then Hurricane
  else if gasGuard d then Gas
  else if obstacleGuard d then Obstacle
  else if tiltGuard d then Tilt
  else NoHazard.

Definition announceHazard (h : Hazard) (d : SensorData) : Action :=
  match h with
  | Fire =>
      lcd_clear ;; lcd_print "FIRE DETECTED!" ;; lcd_setCursor 0 1 ;;
      lcd_print "Temp: " ;; lcd_print (printFloat (temperature d) 1) ;;
      lcd_print "C" ;; beepEnvironmental ;; rgbOrange ;; delay 100 ;; rgbOff
  | Blizzard =>
      lcd_clear ;; lcd_print "BLIZZARD!" ;; lcd_setCursor 0 1 ;;
      lcd_print "Temp: " ;; lcd_print (printFloat (temperature d) 1) ;;
      lcd_print "C" ;; beepEnvironmental ;; rgbCyan ;; delay 100 ;; rgbOff
  | Hurricane =>
      lcd_clear ;; lcd_print "HURRICANE!" ;; lcd_setCursor 0 1 ;;
      lcd_print "Humid: " ;; lcd_print (printFloat (humidity d) 0) ;;
      lcd_print "%" ;; beepEnvironmental ;; rgbDeepBlue ;; delay 100 ;; rgbOff
  | Gas =>
      lcd_clear ;; lcd_print "GAS DETECTED!" ;; lcd_setCursor 0 1 ;;
      lcd_print "Level: " ;; lcd_print (printInt (gasLevel d)) ;;
      beepEnvironmental ;; rgbYellow ;; delay 100 ;; rgbOff
  | Obstacle =>
      lcd_clear ;; lcd_print "OBSTACLE!" ;; lcd_setCursor 0 1 ;;
      lcd_print "Pulling up..." ;; beepObstacle ;; rgbRed ;; delay 50 ;; rgbOff
  | Tilt =>
      lcd_clear ;; lcd_print "TILT ALERT!" ;; lcd_setCursor 0 1 ;;
      lcd_print "Leveling..." ;; beepObstacle ;; rgbRed ;; delay 50 ;; rgbOff
  | NoHazard => skip
  end.

Definition environmentalDetection : Action :=
  fun w => announceHazard (detectHazard (currentData w)) (currentData w) w.

(** *** Telemetry out *)

Definition sendDataToSerial (data : SensorData) : Action :=
  fun w =>
    (Serial_print (printFloat (temperature data) 1) ;; Serial_print "," ;;
     Serial_print (printFloat (humidity data) 1) ;; Serial_print "," ;;
     Serial_print (printInt (gasLevel data)) ;; Serial_print "," ;;
     Serial_print (printInt (distance data)) ;; Serial_print "," ;;
     Serial_print (printInt (currentState w)) ;; Serial_print "," ;;
     Serial_print (printFloat (pitch data) 1) ;; Serial_print "," ;;
     Serial_print (printFloat (roll data) 1) ;; Serial_print "," ;;
     Serial_println (printFloat (yaw data) 1)) w.

(** *** Cloud handshake

    [arrive i] is what the serial line delivers before the [i]-th poll of
    the loop.  [fuel] bounds the number of polls. *)

Definition CLOUD_TIMEOUT : Z := 5000.

Fixpoint connectLoop (fuel : nat) (arrive : nat -> string) (i : nat)
    (startTime : Z) (w : World) : option World :=
  if wrap32u (millis w - startTime) <? CLOUD_TIMEOUT then
    match fuel with
    | O => None
    | S fuel' =>
        let w := receive (arrive i) w in
        if Serial_available w then
          let '(response, w) := Serial_readStringUntil "010" w in
          if String.eqb response "CLOUD_OK" then
            Some ((set_cloudConnected true ;;
                   lcd_clear ;; lcd_print "Connected!" ;; beepReady ;;
                   delay 2000) w)
          else if String.eqb response "CLOUD_FAIL" then
            Some ((set_cloudConnected false ;;
                   lcd_clear ;; lcd_print "Connection" ;; lcd_setCursor 0 1 ;;
                   lcd_print "failed!" ;; delay 2000) w)
          else connectLoop fuel' arrive (S i) startTime (delay 100 w)
        else connectLoop fuel' arrive (S i) startTime (delay 100 w)
    end
  else
    Some ((set_cloudConnected false ;;
           lcd_clear ;; lcd_print "Timeout!" ;; delay 2000) w).

Definition connectToCloud (fuel : nat) (arrive : nat -> string) (w : World)
    : option World :=
  let w := (lcd_clear ;; lcd_print "Connecting to" ;; lcd_setCursor 0 1 ;;
            lcd_print "cloud..." ;; Serial_println "CONNECT_CLOUD") w in
  connectLoop fuel arrive 0 (millis w) w.

(** *** Telemetry in *)

Definition accepted (inChar : ascii) : bool :=
  isDigit inChar || Ascii.eqb inChar "." || Ascii.eqb inChar "-"
  || Ascii.eqb inChar "|".

(** The [while (Serial.available())] loop: consumes [buf] up to the first
    line feed; returns the extended [receivedString], whether a line feed was
    met, and the bytes left unread. *)
Fixpoint receiveLine (buf received : string) : string * bool * string :=
  match buf with
  | EmptyString => (received, false, EmptyString)
  | String inChar buf' =>
      if Ascii.eqb inChar "010" then (received, true, buf')
      else if accepted inChar
           then receiveLine buf' (received ++ String inChar EmptyString)
           else receiveLine buf' received
  end.

Definition storeField (fieldIndex : Z) (value : float) (d : ThingSpeakData)
    : ThingSpeakData :=
  match fieldIndex with
  | 0 => set_temp value d
  | 1 => set_humid value d
  | 2 => set_gas (float_to_int value) d
  | 3 => set_dist (float_to_int value) d
  | 4 => set_state (float_to_int value) d
  | 5 => set_ts_pitch value d
  | 6 => set_ts_roll value d
  | 7 => set_ts_yaw value d
  | _ => d
  end.

(** The [while (token != NULL)] loop over the tokens of the line. *)
Fixpoint storeTokens (tokens : list string) (fieldIndex : Z)
    (d : ThingSpeakData) : ThingSpeakData :=
  match tokens with
  | [] => d
  | token :: rest =>
      storeTokens rest (fieldIndex + 1) (storeField fieldIndex (atof token) d)
  end.

Definition readThingSpeakData : Action :=
  fun w =>
    let '(received, found, rest) := receiveLine (serialIn w) (receivedString w) in
    let w := set_serialIn rest w in
    let w := set_receivedString received w in
    let w := if found then set_newData true w else w in
    if newData w then
      let tokens := strtok_all "|" (receivedString w) [] in
      let w := set_receivedTSData (storeTokens tokens 0 (receivedTSData w)) w in
      let w := set_receivedString "" w in
      set_newData false w
    else w.

(** *** Cloud data on the display *)

Definition displayThingSpeakData (mode : Z) : Action :=
  fun w =>
    let d := receivedTSData w in
    let w := (lcd_clear ;; lcd_setCursor 0 0) w in
    let w :=
      if tsDisplayStep w =? 0 then
        (lcd_print "Cloud T/H: " ;; lcd_print (printFloat (temp d) 1) ;;
         lcd_setCursor 0 1 ;; lcd_print (printFloat (humid d) 0) ;;
         lcd_print "%") w
      else if tsDisplayStep w =? 1 then
        (lcd_print "Cloud Gas: " ;; lcd_print (printInt (gas d)) ;;
         lcd_setCursor 0 1 ;; lcd_print "Dist: " ;;
         lcd_print (printInt (dist d)) ;; lcd_print "cm") w
      else if tsDisplayStep w =? 2 then
        (lcd_print "Cloud P/R: " ;; lcd_print (printFloat (ts_pitch d) 0) ;;
         lcd_setCursor 0 1 ;; lcd_print (printFloat (ts_roll d) 0) ;;
         lcd_print " deg") w
      else if tsDisplayStep w =? 3 then
        (lcd_print "Cloud Yaw: " ;; lcd_print (printFloat (ts_yaw d) 0) ;;
         lcd_setCursor 0 1 ;; lcd_print "State: " ;;
         lcd_print (printInt (state d))) w
      else w in
    let w := set_tsDisplayStep (tsDisplayStep w + 1) w in
    if 3 <? tsDisplayStep w then set_tsDisplayStep 0 w else w.

(** *** IR remote handler

    [ir] is [Some code] when the receiver has decoded a frame, with its raw
    32-bit code, and [None] otherwise. *)

Definition handleIRRemote (fuel : nat) (ir : option Z) (arrive : nat -> string)
    (w : World) : option World :=
  match ir with
  | None => Some w
  | Some irCode =>
      let handled :=
        if negb (irCode =? 0) then
          let w := (Serial_println "=== IR SIGNAL DETECTED ===" ;;
                    Serial_print "IR Code received: 0x" ;;
                    Serial_println (printNumber irCode 16) ;;
                    beepIR) w in
          if currentState w =? STATE_OFF then
            connectToCloud fuel arrive
              ((Serial_println "IR: Turning UAV ON" ;;
                setState STATE_IDLE ;;
                delay 1000 ;;
                setState STATE_ACTIVE) w)
          else
            Some ((Serial_println "IR: Turning UAV OFF" ;;
                   set_cloudConnected false ;;
                   setState STATE_OFF) w)
        else Some w in
      match handled with
      | Some w => Some (emit IrResume w)
      | None => None
      end
  end.

(** *** Main loop *)

(** What one pass of [loop] reads from outside. *)
Record Inputs : Type := {
  irDecode : option Z;
  handshake : nat -> string;
  arrived : string;
  dhtTemperature : float;
  dhtHumidity : float;
  echoDuration : Z;
  mpuPitch : float;
  mpuRoll : float;
  mpuYaw : float;
  analogMQ2 : Z
}.

Definition onCurrentData (f : SensorData -> SensorData) : Action :=
  fun w => set_currentData (f (currentData w)) w.

Definition sensorTick (inp : Inputs) (currentTime : Z) : Action :=
  fun w =>
    let w := set_lastDHTUpdate currentTime w in
    let '(t, w) := readTemperature (dhtTemperature inp) w in
    let w := onCurrentData (set_temperature t) w in
    let '(h, w) := readHumidity (dhtHumidity inp) w in
    let w := onCurrentData (set_humidity h) w in
    let '(dist, w) := readDistance (echoDuration inp) w in
    let w := onCurrentData (set_distance dist) w in
    let w := onCurrentData (set_pitch (mpuPitch inp)) w in
    let w := onCurrentData (set_roll (mpuRoll inp)) w in
    let w := onCurrentData (set_yaw (mpuYaw inp)) w in
    environmentalDetection w.

Definition telemetryTick (inp : Inputs) (currentTime : Z) : Action :=
  fun w =>
    let w := set_lastUpdateTime currentTime w in
    let w := onCurrentData (set_gasLevel (readGasLevel (analogMQ2 inp))) w in
    let w := updateState (currentData w) w in
    let w := sendDataToSerial (currentData w) w in
    let w := (rgbBlue ;; delay 200) w in
    if currentState w =? STATE_ACTIVE then rgbGreen w
    else if currentState w =? STATE_ALERT then rgbRed w
    else w.

Definition displayTick (currentTime : Z) : Action :=
  fun w =>
    let w := set_lastDisplayUpdate currentTime w in
    if currentState w =? STATE_ACTIVE then
      let w := set_displayMode (displayMode w + 1) w in
      let w := if THINGSPEAK_MODE <? displayMode w then set_displayMode 0 w else w in
      if (displayMode w =? THINGSPEAK_MODE) && cloudConnected w
      then displayThingSpeakData 0 w
      else displaySensorData (currentData w) (displayMode w) w
    else w.

Definition loop (fuel : nat) (inp : Inputs) (w : World) : option World :=
  let w := set_loopCount (wrap32u (loopCount w + 1)) w in
  let w :=
    if loopCount w mod 100 =? 0 then
      (Serial_print "Loop running... count: " ;;
       Serial_println (printNumber (loopCount w) 10)) w
    else w in
  let w := receive (arrived inp) w in
  match handleIRRemote fuel (irDecode inp) (handshake inp) w with
  | None => None
  | Some w =>
      let w :=
        if negb (currentState w =? STATE_OFF) then
          let currentTime := millis w in
          let w := if cloudConnected w then readThingSpeakData w else w in
          let w :=
            if 2000 <=? wrap32u (currentTime - lastDHTUpdate w)
            then sensorTick inp currentTime w else w in
          let w :=
            if UPDATE_INTERVAL <=? wrap32u (currentTime - lastUpdateTime w)
            then telemetryTick inp currentTime w else w in
          if 10000 <=? wrap32u (currentTime - lastDisplayUpdate w)
          then displayTick currentTime w else w
        else w in
      Some (delay 50 w)
  end.

(** The worlds the sketch can be in at the top of [loop]. *)
Inductive reachable : World -> Prop :=
| reachable_start : reachable initialWorld
| reachable_loop : forall fuel inp w w',
    reachable w -> loop fuel inp w = Some w' -> reachable w'.

(** The text sent on the serial line, from a trace. *)
Fixpoint serialOutput (t : list Event) : string :=
  match t with
  | [] => ""
  | SerialWrite s :: t' => s ++ serialOutput t'
  | _ :: t' => serialOutput t'
  end.

(** ** Vocabulary of the properties *)

(** The peripheral operations of the Blizzard branch: display text with the
    temperature as printed, three long beeps, cyan flash. *)
Definition blizzardEvents (shown : string) : list Event :=
  [ LcdClear; LcdPrint "BLIZZARD!"; LcdSetCursor 0 1; LcdPrint "Temp: ";
    LcdPrint shown; LcdPrint "C";
    Tone BUZZER_PIN TONE_HAZARD 300; Delay 400; NoTone BUZZER_PIN; Delay 200;
    Tone BUZZER_PIN TONE_HAZARD 300; Delay 400; NoTone BUZZER_PIN; Delay 200;
    Tone BUZZER_PIN TONE_HAZARD 300; Delay 400; NoTone BUZZER_PIN; Delay 200;
    AnalogWrite RGB_RED 0; AnalogWrite RGB_GREEN 255; AnalogWrite RGB_BLUE 255;
    Delay 100;
    AnalogWrite RGB_RED 0; AnalogWrite RGB_GREEN 0; AnalogWrite RGB_BLUE 0 ].






(** A line that never delivers anything. *)
Definition silent : nat -> string := fun _ => EmptyString.


(** The peripheral operations of the turn-on sequence, from the first state
    change to the second: entering Idle (beep, notice [0 -> 1], motor on,
    purple, warm-up text), the warm-up pause, entering Active (beep, notice
    [1 -> 2], motor on, green). *)
Definition enterIdleEvents : list Event :=
  [ Tone BUZZER_PIN TONE_READY 100; Delay 150; NoTone BUZZER_PIN;
    SerialWrite "State changed: "; SerialWrite "0"; SerialWrite " -> ";
    SerialWrite ("1" ++ CRLF);
    DigitalWrite MOTOR_IN1 true; DigitalWrite MOTOR_IN2 false;
    AnalogWrite MOTOR_ENABLE 255; SerialWrite ("Motor: ON (Full Speed)" ++ CRLF);
    AnalogWrite RGB_RED 128; AnalogWrite RGB_GREEN 0; AnalogWrite RGB_BLUE 128;
    LcdBacklight; LcdClear; LcdPrint "UAV ACTIVE"; LcdSetCursor 0 1;
    LcdPrint "Warming up..." ].

Definition enterActiveEvents : list Event :=
  [ Tone BUZZER_PIN TONE_READY 100; Delay 150; NoTone BUZZER_PIN;
    SerialWrite "State changed: "; SerialWrite "1"; SerialWrite " -> ";
    SerialWrite ("2" ++ CRLF);
    DigitalWrite MOTOR_IN1 true; DigitalWrite MOTOR_IN2 false;
    AnalogWrite MOTOR_ENABLE 255; SerialWrite ("Motor: ON (Full Speed)" ++ CRLF);
    AnalogWrite RGB_RED 0; AnalogWrite RGB_GREEN 255; AnalogWrite RGB_BLUE 0;
    LcdBacklight ].


(** The operating states other than Error. *)
Definition operating (s : Z) : Prop :=
  In s [STATE_OFF; STATE_IDLE; STATE_ACTIVE; STATE_ALERT].

(** A pass of [loop] in which the ON key is pressed, nothing arrives on the
    serial line, and the sensors read 25 degrees, 50 %, an echo of 1000
    microseconds, a level attitude and a gas level of 120. *)
Definition keyPressOn : Inputs :=
  {| irDecode := Some IR_BUTTON_ON; handshake := silent; arrived := "";
     dhtTemperature := of_Z 25; dhtHumidity := of_Z 50; echoDuration := 1000;
     mpuPitch := of_Z 0; mpuRoll := of_Z 0; mpuYaw := of_Z 0;
     analogMQ2 := 120 |}.

(** The same pass with a cloud side that answers the handshake at once. *)
Definition keyPressOnAnswered : Inputs :=
  {| irDecode := Some IR_BUTTON_ON;
     handshake := fun i => if Nat.eqb i 0 then "CLOUD_OK" ++ String "010" ""
                           else EmptyString;
     arrived := "";
     dhtTemperature := of_Z 25; dhtHumidity := of_Z 50; echoDuration := 1000;
     mpuPitch := of_Z 0; mpuRoll := of_Z 0; mpuYaw := of_Z 0;
     analogMQ2 := 120 |}.

(** A pass of [loop] in which the OFF key is pressed, with the same sensor
    readings. *)
Definition keyPressOff : Inputs :=
  {| irDecode := Some IR_BUTTON_OFF; handshake := silent; arrived := "";
     dhtTemperature := of_Z 25; dhtHumidity := of_Z 50; echoDuration := 1000;
     mpuPitch := of_Z 0; mpuRoll := of_Z 0; mpuYaw := of_Z 0;
     analogMQ2 := 120 |}.

(** The characters of [s] that the receive filter lets through. *)
Fixpoint keepAccepted (s : string) : string :=
  match s with
  | EmptyString => EmptyString
  | String c s' =>
      if accepted c then String c (keepAccepted s') else keepAccepted s'
  end.

Fixpoint noLineFeed (s : string) : bool :=
  match s with
  | EmptyString => true
  | String c s' => negb (Ascii.eqb c "010") && noLineFeed s'
  end.

(** The record of spec 8: temperature 23.5, humidity 55.0, gas 120,
    distance 150, pitch 1.2, roll -0.5, yaw 10.0 (the state, 2, is the
    global [currentState]); its outbound line; the inbound line; and the
    display cache holding the same eight values. *)
Definition sampleRecord : SensorData :=
  {| temperature := of_decimal false 235 1; humidity := of_decimal false 550 1;
     gasLevel := 120; distance := 150;
     pitch := of_decimal false 12 1; roll := of_decimal true 5 1;
     yaw := of_decimal false 100 1; valid := true |}.

Definition sampleLine : string := "23.5,55.0,120,150,2,1.2,-0.5,10.0".

Definition sampleInbound : string := "23.5|55.0|120|150|2|1.2|-0.5|10.0".

Definition sampleCache : ThingSpeakData :=
  {| temp := temperature sampleRecord; humid := humidity sampleRecord;
     gas := gasLevel sampleRecord; dist := distance sampleRecord;
     state := STATE_ACTIVE;
     ts_pitch := pitch sampleRecord; ts_roll := roll sampleRecord;
     ts_yaw := yaw sampleRecord |}.

(** Spec 4.5 on short records, as a definition of its own: token [i] of the
    record, when there is one, is converted into field [i] of the cache; a
    field with no token keeps its cached value. *)
Definition positionalUpdate (tokens : list string) (d : ThingSpeakData)
    : ThingSpeakData :=
  let field {A} (i : nat) (convert : string -> A) (old : A) : A :=
    match nth_error tokens i with
    | Some token => convert token
    | None => old
    end in
  {| temp := field 0%nat atof (temp d);
     humid := field 1%nat atof (humid d);
     gas := field 2%nat (fun t => float_to_int (atof t)) (gas d);
     dist := field 3%nat (fun t => float_to_int (atof t)) (dist d);
     state := field 4%nat (fun t => float_to_int (atof t)) (state d);
     ts_pitch := field 5%nat atof (ts_pitch d);
     ts_roll := field 6%nat atof (ts_roll d);
     ts_yaw := field 7%nat atof (ts_yaw d) |}.

(** Most actions of the sketch write to peripherals and pass time, and touch
    no global: they change [trace] and [clock] only. *)
Definition outputs_only (a : Action) : Prop :=
  forall w, exists c t, a w = set_trace t (set_clock c w).

(** ** Further code and vocabulary *)

(** [x != y] on floats: true also when an operand is NaN. *)
Definition fne (x y : float) : bool := negb (SFeqb x y).

(** [readAllSensors] of [sensors.h].  The attitude angles come out of the
    MPU library through [atan2] and are taken as read, as in [sensorTick]. *)
Definition readAllSensors (inp : Inputs) (w : World) : SensorData * World :=
  let '(t, w) := readTemperature (dhtTemperature inp) w in
  let '(h, w) := readHumidity (dhtHumidity inp) w in
  let g := readGasLevel (analogMQ2 inp) in
  let '(dist, w) := readDistance (echoDuration inp) w in
  ({| temperature := t; humidity := h; gasLevel := g; distance := dist;
      pitch := mpuPitch inp; roll := mpuRoll inp; yaw := mpuYaw inp;
      valid := fne t (of_Z (-999)) && fne h (of_Z (-999)) |}, w).

(** The value of the last [analogWrite] to [pin] in a trace, if there is
    one: what the pin is driven with at the end of the trace. *)
Fixpoint lastWrite (pin : Z) (t : list Event) : option Z :=
  match t with
  | [] => None
  | e :: t' =>
      match lastWrite pin t' with
      | Some v => Some v
      | None =>
          match e with
          | AnalogWrite p v => if p =? pin then Some v else None
          | _ => None
          end
      end
  end.

(** An action that does not write to [pin]. *)
Definition keeps_pin (pin : Z) (a : Action) : Prop :=
  forall w, lastWrite pin (trace (a w)) = lastWrite pin (trace w).

(** The colour the LED shows at the end of a trace. *)
Definition ledColour (t : list Event) : option Z * option Z * option Z :=
  (lastWrite RGB_RED t, lastWrite RGB_GREEN t, lastWrite RGB_BLUE t).

(** The beep and the serial notice of a state change. *)
Definition stateChangeNotice (old new : Z) : list Event :=
  [ Tone BUZZER_PIN TONE_READY 100; Delay 150; NoTone BUZZER_PIN;
    SerialWrite "State changed: "; SerialWrite (printInt old);
    SerialWrite " -> "; SerialWrite (printInt new ++ CRLF) ].

(** The peripheral operations bound to a state. *)
Definition stateEvents (s : Z) : list Event := trace (stateActions s initialWorld).

(** The motor is driven as the state asks: never driven or stopped in Off,
    at full speed in any other state. *)
Definition motorFollowsState (w : World) : Prop :=
  match lastWrite MOTOR_ENABLE (trace w) with
  | None => currentState w = STATE_OFF
  | Some v => v = if currentState w =? STATE_OFF then 0 else 255
  end.

(** [w'] differs from [w] at most in the state machine, the cloud flag, the
    serial buffer, the clock and the trace: what the key handler may touch. *)
Definition handlerStep (w w' : World) : Prop :=
  exists c t si b s p,
    w' = set_trace t (set_clock c (set_serialIn si (set_cloudConnected b
           (set_currentState s (set_previousState p w))))).

(** Bookkeeping the sketch keeps between passes of [loop]. *)
Definition housekeeping (w : World) : Prop :=
  valid (currentData w) = false
  /\ 0 <= displayMode w <= 5
  /\ 0 <= tsDisplayStep w <= 3
  /\ newData w = false
  /\ keepAccepted (receivedString w) = receivedString w.

(** The cloud link is down whenever the UAV is off. *)
Definition offMeansDisconnected (w : World) : Prop :=
  currentState w = STATE_OFF -> cloudConnected w = false.

(** No key was pressed in this pass: nothing decoded, or the repeat code. *)
Definition noKey (inp : Inputs) : Prop :=
  irDecode inp = None \/ irDecode inp = Some 0.

(** The telemetry line for sample [d] and state [s]: eight fields, seven
    commas, the line terminator of [println]. *)
Definition telemetryLine (d : SensorData) (s : Z) : string :=
  printFloat (temperature d) 1 ++ "," ++ printFloat (humidity d) 1 ++ ","
  ++ printInt (gasLevel d) ++ "," ++ printInt (distance d) ++ ","
  ++ printInt s ++ ","
  ++ printFloat (pitch d) 1 ++ "," ++ printFloat (roll d) 1 ++ ","
  ++ printFloat (yaw d) 1 ++ CRLF.

(** * Properties *)

(** ** The library routines on a few inputs *)

Example printFloat_one_decimal :
  map (fun x => printFloat x 1)
    [of_decimal false 235 1; of_decimal false 12 1; of_decimal true 5 1;
     of_decimal false 100 1; of_Z (-999); of_decimal false 995 2]
  = ["23.5"; "1.2"; "-0.5"; "10.0"; "-999.0"; "10.0"].
Proof. vm_compute. reflexivity. Qed.

Example printFloat_no_decimal :
  printFloat (of_decimal false 554 1) 0 = "55"
  /\ printFloat S754_nan 1 = "nan"
  /\ printFloat (S754_infinity false) 1 = "inf".
Proof. vm_compute. auto. Qed.

Example printInt_samples :
  map printInt [0; 7; 120; -1; 1023] = ["0"; "7"; "120"; "-1"; "1023"]
  /\ printNumber IR_BUTTON_ON 16 = "47E9055D".
Proof. vm_compute. auto. Qed.

Example atof_samples :
  map atof ["1.2"; "-0.5"; "120"; "-"; ""; "10.0"]
  = [of_decimal false 12 1; of_decimal true 5 1; of_Z 120;
     S754_zero false; S754_zero false; of_Z 10].
Proof. vm_compute. reflexivity. Qed.

Example strtok_all_samples :
  strtok_all "|" "23.5|55.0||120|" [] = ["23.5"; "55.0"; "120"]
  /\ strtok_all "|" "||" [] = []
  /\ strtok_all "|" "7" [] = ["7"].
Proof. vm_compute. auto. Qed.

Example readDistance_samples :
  fst (readDistance 1000 initialWorld) = 17
  /\ fst (readDistance 200 initialWorld) = 3
  /\ fst (readDistance 0 initialWorld) = -1
  /\ fst (readDistance 30000 initialWorld) = -1.
Proof. vm_compute. auto. Qed.

(** ** Actions that only drive peripherals *)

Lemma outputs_only_skip : outputs_only skip.
Proof. intros [ ]; eexists; eexists; reflexivity. Qed.

Lemma outputs_only_emit : forall e, outputs_only (emit e).
Proof. intros e [ ]; eexists; eexists; reflexivity. Qed.

Lemma outputs_only_delay : forall ms, outputs_only (delay ms).
Proof. intros ms [ ]; eexists; eexists; reflexivity. Qed.

Lemma outputs_only_seq : forall a b,
  outputs_only a -> outputs_only b -> outputs_only (a ;; b).
Proof.
  intros a b Ha Hb w. unfold seq.
  destruct (Ha w) as (c1 & t1 & E1). destruct (Hb (a w)) as (c2 & t2 & E2).
  exists c2, t2. rewrite E2, E1. destruct w; reflexivity.
Qed.

Lemma outputs_only_times : forall n a, outputs_only a -> outputs_only (times n a).
Proof.
  induction n as [|n IH]; intros a Ha; simpl.
  - apply outputs_only_skip.
  - apply outputs_only_seq; auto.
Qed.

Create HintDb outputs.
#[local] Hint Resolve outputs_only_skip outputs_only_emit outputs_only_delay
  outputs_only_seq outputs_only_times : outputs.
#[local] Hint Unfold Serial_print Serial_println lcd_backlight lcd_clear
  lcd_setCursor lcd_print digitalWrite analogWrite tone noTone
  setRGBColor rgbOff rgbGreen rgbBlue rgbRed rgbYellow rgbPurple rgbOrange
  rgbCyan rgbDeepBlue beepShort beepReady beepIR beepStateChange beepObstacle
  beepEnvironmental beepHazard displayReady displayOff displayAlert
  displayError motorOn motorOff : outputs.

Ltac outputs := autounfold with outputs; auto 40 with outputs.

Lemma outputs_only_stateActions : forall s, outputs_only (stateActions s).
Proof.
  intros s. unfold stateActions.
  repeat match goal with
         | |- context [match ?x with _ => _ end] => destruct x
         end; outputs.
Qed.

Lemma outputs_only_announceHazard : forall h d, outputs_only (announceHazard h d).
Proof. intros [ ] d; unfold announceHazard; outputs. Qed.

Lemma outputs_only_displaySensorData : forall d m, outputs_only (displaySensorData d m).
Proof.
  intros d m. unfold displaySensorData.
  repeat match goal with
         | |- context [match ?x with _ => _ end] => destruct x
         end; outputs.
Qed.

Lemma outputs_only_sendDataToSerial : forall d, outputs_only (sendDataToSerial d).
Proof.
  intros d w. unfold sendDataToSerial.
  match goal with |- exists c t, ?a w = _ => assert (H : outputs_only a) by outputs end.
  apply H.
Qed.

#[local] Hint Resolve outputs_only_stateActions outputs_only_announceHazard
  outputs_only_displaySensorData outputs_only_sendDataToSerial : outputs.

(** What an output-only action leaves alone. *)
Lemma outputs_only_currentState : forall a w,
  outputs_only a -> currentState (a w) = currentState w.
Proof. intros a w H. destruct (H w) as (c & t & E). rewrite E. reflexivity. Qed.

Lemma outputs_only_previousState : forall a w,
  outputs_only a -> previousState (a w) = previousState w.
Proof. intros a w H. destruct (H w) as (c & t & E). rewrite E. reflexivity. Qed.

Lemma outputs_only_cloudConnected : forall a w,
  outputs_only a -> cloudConnected (a w) = cloudConnected w.
Proof. intros a w H. destruct (H w) as (c & t & E). rewrite E. reflexivity. Qed.

Lemma outputs_only_serialIn : forall a w,
  outputs_only a -> serialIn (a w) = serialIn w.
Proof. intros a w H. destruct (H w) as (c & t & E). rewrite E. reflexivity. Qed.

(** ** The state machine *)

Lemma setState_same : forall s w, s = currentState w -> setState s w = w.
Proof. intros s w ->. unfold setState. rewrite Z.eqb_refl. reflexivity. Qed.

Lemma setState_changed : forall s w,
  s <> currentState w ->
  exists c t,
    setState s w
    = set_trace t (set_clock c (set_currentState s (set_previousState (currentState w) w))).
Proof.
  intros s w Hne. unfold setState.
  destruct (Z.eqb_spec s (currentState w)) as [E|_]; [contradiction|]. simpl negb. cbv iota.
  set (w1 := set_currentState s (set_previousState (currentState w) w)).
  assert (Hout : outputs_only
            (beepStateChange ;;
             (Serial_print "State changed: " ;;
              Serial_print (printInt (currentState w)) ;;
              Serial_print " -> " ;;
              Serial_println (printInt s)) ;;
             stateActions s)) by outputs.
  destruct (Hout w1) as (c & t & E). exists c, t. rewrite <- E.
  reflexivity.
Qed.

Lemma currentState_setState : forall s w, currentState (setState s w) = s.
Proof.
  intros s w. destruct (Z.eq_dec s (currentState w)) as [E|Hne].
  - rewrite setState_same by assumption. auto.
  - destruct (setState_changed s w Hne) as (c & t & ->). reflexivity.
Qed.

Lemma previousState_setState : forall s w,
  s <> currentState w -> previousState (setState s w) = currentState w.
Proof.
  intros s w Hne. destruct (setState_changed s w Hne) as (c & t & ->). reflexivity.
Qed.

(** C6. A request for the state the machine is already in does nothing: the
    whole world, hence [currentState], [previousState] and the trace of
    motor, LED, display, buzzer and serial operations (where the state-change
    notice would be printed), is left as it was. *)
Theorem setState_self_is_noop : forall w : World,
  setState (currentState w) w = w
  /\ currentState (setState (currentState w) w) = currentState w
  /\ previousState (setState (currentState w) w) = previousState w
  /\ trace (setState (currentState w) w) = trace w.
Proof.
  intros w. rewrite (setState_same (currentState w) w eq_refl). auto.
Qed.

(** C1. From Idle, Active or Alert, [updateState] ends in Alert when the gas
    level is hazardous and in Active otherwise, never in Idle; and the state
    it ends in depends on nothing but the state it starts from and
    [isHazardousGas] of the sample: two runs that agree on these agree on the
    result, whatever the other sample fields and globals are. *)
Theorem updateState_alert_or_active : forall (w : World) (d : SensorData),
  In (currentState w) [STATE_IDLE; STATE_ACTIVE; STATE_ALERT] ->
  currentState (updateState d w)
    = (if isHazardousGas (gasLevel d) then STATE_ALERT else STATE_ACTIVE)
  /\ currentState (updateState d w) <> STATE_IDLE
  /\ forall (w2 : World) (d2 : SensorData),
       currentState w2 = currentState w ->
       isHazardousGas (gasLevel d2) = isHazardousGas (gasLevel d) ->
       currentState (updateState d2 w2) = currentState (updateState d w).
Proof.
  intros w d Hin.
  assert (Hval : forall (w1 : World) (d1 : SensorData),
             In (currentState w1) [STATE_IDLE; STATE_ACTIVE; STATE_ALERT] ->
             currentState (updateState d1 w1)
             = (if isHazardousGas (gasLevel d1) then STATE_ALERT else STATE_ACTIVE)).
  { intros w1 d1 H1. unfold updateState.
    destruct (Z.eqb_spec (currentState w1) STATE_OFF) as [E|_].
    - rewrite E in H1. simpl in H1. unfold STATE_OFF, STATE_IDLE, STATE_ACTIVE, STATE_ALERT in H1. lia.
    - destruct (isHazardousGas (gasLevel d1)).
      + apply currentState_setState.
      + simpl in H1. destruct H1 as [E|[E|[E|[ ]]]]; rewrite <- E; simpl;
          try apply currentState_setState; rewrite <- E; reflexivity. }
  split; [apply Hval; assumption|]. split.
  - rewrite Hval by assumption. destruct (isHazardousGas (gasLevel d)); discriminate.
  - intros w2 d2 Hs Hg. rewrite !Hval; try assumption.
    + rewrite Hg. reflexivity.
    + rewrite Hs. assumption.
Qed.

Lemma updateState_alert_or_active_witness :
  In 1 [STATE_IDLE; STATE_ACTIVE; STATE_ALERT]
  /\ currentState (updateState (set_gasLevel 500 zeroSensorData)
                     (set_currentState 1 initialWorld)) = STATE_ALERT.
Proof.
  split; [simpl; auto|].
  apply (proj1 (updateState_alert_or_active (set_currentState 1 initialWorld)
                  (set_gasLevel 500 zeroSensorData) (or_introl eq_refl))).
Defined.

(** ** Comparison of binary32 values

    On values of the format, the comparison of the hardware agrees with the
    order of the numbers they stand for. *)

Lemma digits2_pos_bounds : forall m : positive,
  2 ^ (Zpos (digits2_pos m) - 1) <= Zpos m < 2 ^ Zpos (digits2_pos m).
Proof.
  induction m as [m IH|m IH|]; simpl digits2_pos.
  - rewrite Pos2Z.inj_succ.
    replace (Z.succ (Zpos (digits2_pos m)) - 1) with (Z.succ (Zpos (digits2_pos m) - 1)) by lia.
    rewrite !Z.pow_succ_r by lia. lia.
  - rewrite Pos2Z.inj_succ.
    replace (Z.succ (Zpos (digits2_pos m)) - 1) with (Z.succ (Zpos (digits2_pos m) - 1)) by lia.
    rewrite !Z.pow_succ_r by lia. lia.
  - simpl. lia.
Qed.

Lemma bounded_inv : forall m e,
  bounded prec emax m e = true ->
  -149 <= e <= 104
  /\ Zpos m < 2 ^ 24
  /\ (-149 < e -> 2 ^ 23 <= Zpos m).
Proof.
  intros m e H. unfold bounded, canonical_mantissa, fexp, SpecFloat.emin, prec, emax in H.
  apply andb_true_iff in H. destruct H as [Hc He].
  apply Z.eqb_eq in Hc. apply Z.leb_le in He.
  pose proof (digits2_pos_bounds m) as [Hlo Hhi].
  assert (Hd : Zpos (digits2_pos m) <= 24) by lia.
  repeat split; try lia.
  - eapply Z.lt_le_trans; [exact Hhi|]. apply Z.pow_le_mono_r; lia.
  - intros Hgt. assert (Hd24 : Zpos (digits2_pos m) = 24) by lia.
    rewrite Hd24 in Hlo. exact Hlo.
Qed.

Lemma scaled_lt_of_exponent : forall m1 e1 m2 e2,
  bounded prec emax m1 e1 = true -> bounded prec emax m2 e2 = true ->
  e1 < e2 ->
  Zpos m1 * 2 ^ (e1 + 149) < Zpos m2 * 2 ^ (e2 + 149).
Proof.
  intros m1 e1 m2 e2 H1 H2 Hlt.
  destruct (bounded_inv _ _ H1) as (Hr1 & Hm1 & _).
  destruct (bounded_inv _ _ H2) as (Hr2 & _ & Hm2).
  specialize (Hm2 ltac:(lia)).
  assert (Hp1 : 0 < 2 ^ (e1 + 149)) by (apply Z.pow_pos_nonneg; lia).
  assert (Hstep : 2 ^ (e2 + 149) = 2 ^ (e2 - e1 - 1) * (2 * 2 ^ (e1 + 149))).
  { rewrite <- Z.pow_succ_r by lia. rewrite <- Z.pow_add_r by lia. f_equal. lia. }
  assert (Hk : 1 <= 2 ^ (e2 - e1 - 1)).
  { change 1 with (2 ^ 0). apply Z.pow_le_mono_r; lia. }
  rewrite Hstep.
  change (2 ^ 24) with (2 * 2 ^ 23) in Hm1.
  nia.
Qed.

Lemma SFcompare_scaled : forall x y,
  is_binary32 x = true -> is_binary32 y = true ->
  isnan x = false -> isinf x = false -> isnan y = false -> isinf y = false ->
  SFcompare x y = Some (scaled x ?= scaled y).
Proof.
  intros x y Hx Hy Nx Ix Ny Iy.
  destruct x as [sx|sx| |sx mx ex]; try discriminate;
  destruct y as [sy|sy| |sy my ey]; try discriminate; simpl in Hx, Hy.
  - reflexivity.
  - destruct (bounded_inv _ _ Hy) as (Hr & _ & _).
    assert (0 < Zpos my * 2 ^ (ey + 149)) by (apply Z.mul_pos_pos; [lia|apply Z.pow_pos_nonneg; lia]).
    unfold SFcompare, scaled. destruct sy; f_equal; symmetry.
    + apply Z.compare_gt_iff. lia.
    + apply Z.compare_lt_iff. lia.
  - destruct (bounded_inv _ _ Hx) as (Hr & _ & _).
    assert (0 < Zpos mx * 2 ^ (ex + 149)) by (apply Z.mul_pos_pos; [lia|apply Z.pow_pos_nonneg; lia]).
    unfold SFcompare, scaled. destruct sx; f_equal; symmetry.
    + apply Z.compare_lt_iff. lia.
    + apply Z.compare_gt_iff. lia.
  - destruct (bounded_inv _ _ Hx) as (Hrx & _ & _).
    destruct (bounded_inv _ _ Hy) as (Hry & _ & _).
    assert (Px : 0 < Zpos mx * 2 ^ (ex + 149)) by (apply Z.mul_pos_pos; [lia|apply Z.pow_pos_nonneg; lia]).
    assert (Py : 0 < Zpos my * 2 ^ (ey + 149)) by (apply Z.mul_pos_pos; [lia|apply Z.pow_pos_nonneg; lia]).
    assert (Heq : ex = ey ->
              (Zpos mx * 2 ^ (ex + 149) ?= Zpos my * 2 ^ (ey + 149)) = Pos.compare_cont Eq mx my).
    { intros ->. rewrite <- Zmult_compare_compat_r
        by (apply Z.lt_gt, Z.pow_pos_nonneg; lia). reflexivity. }
    unfold SFcompare, scaled. f_equal.
    destruct sx, sy.
    + rewrite Z.compare_opp.
      destruct (Z.compare_spec ex ey) as [E|L|G].
      * rewrite Z.compare_antisym. rewrite (Heq E). reflexivity.
      * symmetry. apply Z.compare_gt_iff.
        pose proof (scaled_lt_of_exponent _ _ _ _ Hx Hy L). lia.
      * symmetry. apply Z.compare_lt_iff.
        pose proof (scaled_lt_of_exponent _ _ _ _ Hy Hx G). lia.
    + symmetry. apply Z.compare_lt_iff. lia.
    + symmetry. apply Z.compare_gt_iff. lia.
    + destruct (Z.compare_spec ex ey) as [E|L|G].
      * rewrite (Heq E). reflexivity.
      * symmetry. apply Z.compare_lt_iff. apply scaled_lt_of_exponent; assumption.
      * symmetry. apply Z.compare_gt_iff.
        apply scaled_lt_of_exponent; assumption.
Qed.

Lemma fge_at_least : forall x y n,
  is_binary32 x = true -> is_binary32 y = true ->
  isnan y = false -> isinf y = false -> scaled y = n * 2 ^ 149 ->
  (fge x y = true <-> at_least x n).
Proof.
  intros x y n Hx Hy Ny Iy Sy. unfold fge, SFleb.
  destruct x as [sx|sx| |sx mx ex].
  - rewrite (SFcompare_scaled y (S754_zero sx)) by (assumption || reflexivity).
    unfold at_least. rewrite Sy.
    destruct (Z.compare_spec (n * 2 ^ 149) (scaled (S754_zero sx))); split; intros; try lia; discriminate.
  - destruct y; try discriminate; destruct sx; simpl; split; intros; congruence.
  - destruct y; simpl; split; intros H; try discriminate; destruct H.
  - rewrite (SFcompare_scaled y (S754_finite sx mx ex)) by (assumption || reflexivity).
    unfold at_least. rewrite Sy.
    destruct (Z.compare_spec (n * 2 ^ 149) (scaled (S754_finite sx mx ex))); split; intros; try lia; discriminate.
Qed.

Lemma fle_at_most : forall x y n,
  is_binary32 x = true -> is_binary32 y = true ->
  isnan y = false -> isinf y = false -> scaled y = n * 2 ^ 149 ->
  (fle x y = true <-> at_most x n).
Proof.
  intros x y n Hx Hy Ny Iy Sy. unfold fle, SFleb.
  destruct x as [sx|sx| |sx mx ex].
  - rewrite (SFcompare_scaled (S754_zero sx) y) by (assumption || reflexivity).
    unfold at_most. rewrite Sy.
    destruct (Z.compare_spec (scaled (S754_zero sx)) (n * 2 ^ 149)); split; intros; try lia; discriminate.
  - destruct y; try discriminate; destruct sx; simpl; split; intros; congruence.
  - simpl. split; intros H; try discriminate; destruct H.
  - rewrite (SFcompare_scaled (S754_finite sx mx ex) y) by (assumption || reflexivity).
    unfold at_most. rewrite Sy.
    destruct (Z.compare_spec (scaled (S754_finite sx mx ex)) (n * 2 ^ 149)); split; intros; try lia; discriminate.
Qed.

(** The two temperature guards, read as conditions on the measured value. *)
Lemma fireGuard_value : forall d,
  is_binary32 (temperature d) = true ->
  (fireGuard d = true <-> at_least (temperature d) 30).
Proof.
  intros d H. unfold fireGuard.
  apply fge_at_least; try assumption; reflexivity.
Qed.

Lemma blizzardGuard_value : forall d,
  is_binary32 (temperature d) = true ->
  (blizzardGuard d = true <-> at_most (temperature d) 20).
Proof.
  intros d H. unfold blizzardGuard.
  apply fle_at_most; try assumption; reflexivity.
Qed.

(** ** The hazard chain *)

(** C2. A sample whose temperature is at least 30 degrees is classified
    Fire, whatever its humidity, gas level, distance, pitch, roll and yaw
    are. *)
Theorem fire_dominates : forall d : SensorData,
  is_binary32 (temperature d) = true ->
  at_least (temperature d) 30 ->
  detectHazard d = Fire.
Proof.
  intros d Hv Ht. unfold detectHazard.
  apply (fireGuard_value d Hv) in Ht. rewrite Ht. reflexivity.
Qed.

Lemma fire_dominates_witness :
  detectHazard
    {| temperature := of_Z 35; humidity := of_Z 110; gasLevel := 900;
       distance := 3; pitch := of_Z 80; roll := of_Z (-80); yaw := of_Z 0;
       valid := true |} = Fire.
Proof.
  apply fire_dominates.
  - vm_compute. reflexivity.
  - apply Z.leb_le. vm_compute. reflexivity.
Defined.

(** C5. When none of the fire, blizzard, hurricane and gas conditions holds,
    the sample is classified Obstacle exactly when [0 < distance < 5]: it is
    at distance 4, and it is not at distance 0 nor at the no-reading value
    -1. *)
Theorem obstacle_exactly_between_0_and_5 : forall d : SensorData,
  fireGuard d = false -> blizzardGuard d = false ->
  hurricaneGuard d = false -> gasGuard d = false ->
  (detectHazard d = Obstacle <-> 0 < distance d < 5)
  /\ (distance d = 4 -> detectHazard d = Obstacle)
  /\ (distance d = 0 -> detectHazard d <> Obstacle)
  /\ (distance d = -1 -> detectHazard d <> Obstacle).
Proof.
  intros d Hf Hb Hh Hg.
  assert (Hiff : detectHazard d = Obstacle <-> 0 < distance d < 5).
  { unfold detectHazard. rewrite Hf, Hb, Hh, Hg. unfold obstacleGuard.
    destruct (Z.ltb_spec 0 (distance d)); destruct (Z.ltb_spec (distance d) 5);
      simpl; split; intros H1; try lia; try reflexivity;
      destruct (tiltGuard d); discriminate. }
  split; [exact Hiff|].
  repeat split; intros E; try (apply Hiff; lia); intros H; apply Hiff in H; lia.
Qed.

Lemma obstacle_exactly_between_0_and_5_witness :
  detectHazard
    {| temperature := of_Z 25; humidity := of_Z 50; gasLevel := 120;
       distance := 4; pitch := of_Z 0; roll := of_Z 0; yaw := of_Z 0;
       valid := true |} = Obstacle.
Proof.
  apply (obstacle_exactly_between_0_and_5
           {| temperature := of_Z 25; humidity := of_Z 50; gasLevel := 120;
              distance := 4; pitch := of_Z 0; roll := of_Z 0; yaw := of_Z 0;
              valid := true |});
    vm_compute; reflexivity.
Defined.

(** C10. A failed temperature read is reported as -999 by [readTemperature];
    a sample whose temperature is -999 fails the Fire test, passes the
    Blizzard test ([-999 <= 20]) and is classified Blizzard whatever its
    other fields are, and the chain then performs the Blizzard display (with
    -999 as the temperature shown), beeps and cyan flash. *)
Theorem failed_temperature_read_is_blizzard :
  (forall (raw : float) (w : World),
     isnan raw = true -> fst (readTemperature raw w) = of_Z (-999))
  /\ forall w : World,
       temperature (currentData w) = of_Z (-999) ->
       fireGuard (currentData w) = false
       /\ blizzardGuard (currentData w) = true
       /\ detectHazard (currentData w) = Blizzard
       /\ trace (environmentalDetection w)
          = (trace w ++ blizzardEvents (printFloat (of_Z (-999)) 1))%list.
Proof.
  split.
  - intros raw w H. unfold readTemperature. rewrite H. reflexivity.
  - intros w Ht.
    assert (Hf : fireGuard (currentData w) = false)
      by (unfold fireGuard; rewrite Ht; reflexivity).
    assert (Hb : blizzardGuard (currentData w) = true)
      by (unfold blizzardGuard; rewrite Ht; reflexivity).
    assert (Hd : detectHazard (currentData w) = Blizzard)
      by (unfold detectHazard; rewrite Hf, Hb; reflexivity).
    repeat split; try assumption.
    unfold environmentalDetection. rewrite Hd. unfold announceHazard. rewrite Ht.
    generalize (printFloat (of_Z (-999)) 1). intros shown.
    cbn. repeat rewrite <- app_assoc. reflexivity.
Qed.

Lemma failed_temperature_read_is_blizzard_witness :
  detectHazard
    (currentData
       (set_currentData (set_temperature (of_Z (-999)) zeroSensorData)
          initialWorld)) = Blizzard.
Proof.
  apply (proj2 failed_temperature_read_is_blizzard
           (set_currentData (set_temperature (of_Z (-999)) zeroSensorData)
              initialWorld)).
  reflexivity.
Defined.

(** ** The cloud handshake *)

Lemma wrap32u_elapsed : forall c0 e,
  0 <= e < 4294967296 -> wrap32u (wrap32u (c0 + e) - wrap32u c0) = e.
Proof.
  intros c0 e He. unfold wrap32u.
  rewrite Zminus_mod_idemp_l, Zminus_mod_idemp_r.
  replace (c0 + e - c0) with e by lia. apply Z.mod_small. assumption.
Qed.

Lemma clock_delay : forall ms w, clock (delay ms w) = clock w + ms.
Proof. reflexivity. Qed.


Lemma readStringUntil_frame : forall t w,
  let w' := snd (Serial_readStringUntil t w) in
  (clock w' = clock w \/ clock w' = clock w + STREAM_TIMEOUT)
  /\ currentState w' = currentState w
  /\ previousState w' = previousState w
  /\ cloudConnected w' = cloudConnected w
  /\ trace w' = trace w.
Proof.
  intros t w. unfold Serial_readStringUntil.
  destruct (split_at t (serialIn w)) as [[line rest]|]; simpl; auto 10.
Qed.

Lemma connectLoop_unfold : forall fuel arrive i startTime w,
  connectLoop fuel arrive i startTime w
  = if wrap32u (millis w - startTime) <? CLOUD_TIMEOUT then
      match fuel with
      | O => None
      | S fuel' =>
          let w := receive (arrive i) w in
          if Serial_available w then
            let '(response, w) := Serial_readStringUntil "010" w in
            if String.eqb response "CLOUD_OK" then
              Some ((set_cloudConnected true ;;
                     lcd_clear ;; lcd_print "Connected!" ;; beepReady ;;
                     delay 2000) w)
            else if String.eqb response "CLOUD_FAIL" then
              Some ((set_cloudConnected false ;;
                     lcd_clear ;; lcd_print "Connection" ;; lcd_setCursor 0 1 ;;
                     lcd_print "failed!" ;; delay 2000) w)
            else connectLoop fuel' arrive (S i) startTime (delay 100 w)
          else connectLoop fuel' arrive (S i) startTime (delay 100 w)
      end
    else
      Some ((set_cloudConnected false ;;
             lcd_clear ;; lcd_print "Timeout!" ;; delay 2000) w).
Proof. intros [|fuel] arrive i startTime w; reflexivity. Qed.

(** One more poll allowed changes nothing for a handshake that returned. *)
Lemma connectLoop_more_fuel : forall fuel arrive i startTime w w',
  connectLoop fuel arrive i startTime w = Some w' ->
  connectLoop (S fuel) arrive i startTime w = Some w'.
Proof.
  induction fuel as [|fuel IH]; intros arrive i startTime w w' H;
    rewrite connectLoop_unfold in H; rewrite connectLoop_unfold;
    destruct (wrap32u (millis w - startTime) <? CLOUD_TIMEOUT);
    try discriminate; try assumption.
  cbv zeta in H |- *.
  destruct (Serial_available (receive (arrive i) w)).
  - destruct (Serial_readStringUntil "010" (receive (arrive i) w)) as [response w1].
    destruct (String.eqb response "CLOUD_OK"); [assumption|].
    destruct (String.eqb response "CLOUD_FAIL"); [assumption|].
    apply IH. assumption.
  - apply IH. assumption.
Qed.

Lemma connectLoop_fuel_le : forall fuel fuel' arrive i startTime w w',
  (fuel <= fuel')%nat ->
  connectLoop fuel arrive i startTime w = Some w' ->
  connectLoop fuel' arrive i startTime w = Some w'.
Proof.
  intros fuel fuel' arrive i startTime w w' Hle H.
  induction Hle as [|n Hle IH]; [assumption|].
  apply connectLoop_more_fuel. assumption.
Qed.

(** With [100 * fuel] milliseconds or less to go, the loop returns; it keeps
    the state machine, and returns between 2 and 8.15 seconds after the
    start. *)
Lemma connectLoop_returns : forall fuel arrive i c0 w,
  0 <= clock w - c0 < 6100 ->
  CLOUD_TIMEOUT - (clock w - c0) <= 100 * Z.of_nat fuel ->
  exists w',
    connectLoop fuel arrive i (wrap32u c0) w = Some w'
    /\ 2000 <= clock w' - c0 < 8150
    /\ currentState w' = currentState w
    /\ previousState w' = previousState w.
Proof.
  induction fuel as [|fuel IH]; intros arrive i c0 w He Hfuel;
    rewrite connectLoop_unfold; unfold millis;
    pose proof (wrap32u_elapsed c0 (clock w - c0) ltac:(lia)) as Hel;
    replace (c0 + (clock w - c0)) with (clock w) in Hel by lia; rewrite Hel;
    destruct (Z.ltb_spec (clock w - c0) CLOUD_TIMEOUT) as [L|G];
    unfold CLOUD_TIMEOUT in *;
    try lia;
    try (eexists; split; [reflexivity|]; cbn; repeat split; lia).
  cbv zeta.
  set (w1 := receive (arrive i) w).
  assert (Hc1 : clock w1 = clock w) by reflexivity.
  assert (Hs1 : currentState w1 = currentState w) by reflexivity.
  assert (Hp1 : previousState w1 = previousState w) by reflexivity.
  destruct (Serial_available w1).
  - pose proof (readStringUntil_frame "010" w1) as Hfr.
    destruct (Serial_readStringUntil "010" w1) as [response w2].
    simpl in Hfr. destruct Hfr as (Hc2 & Hs2 & Hp2 & _).
    unfold STREAM_TIMEOUT in Hc2.
    destruct (String.eqb response "CLOUD_OK");
      [|destruct (String.eqb response "CLOUD_FAIL")].
    + eexists. split; [reflexivity|]. cbn. repeat split; try lia; congruence.
    + eexists. split; [reflexivity|]. cbn. repeat split; try lia; congruence.
    + destruct (IH arrive (S i) c0 (delay 100 w2)) as (w' & E & Hb & Hs & Hp).
      * rewrite clock_delay. lia.
      * rewrite clock_delay. lia.
      * exists w'. split; [exact E|]. cbn in Hs, Hp. repeat split; try lia; congruence.
  - destruct (IH arrive (S i) c0 (delay 100 w1)) as (w' & E & Hb & Hs & Hp).
    + rewrite clock_delay. lia.
    + rewrite clock_delay. lia.
    + exists w'. split; [exact E|]. cbn in Hs, Hp. repeat split; try lia; congruence.
Qed.






Lemma connectToCloud_unfold : forall fuel arrive w,
  connectToCloud fuel arrive w
  = connectLoop fuel arrive 0 (wrap32u (clock w))
      ((lcd_clear ;; lcd_print "Connecting to" ;; lcd_setCursor 0 1 ;;
        lcd_print "cloud..." ;; Serial_println "CONNECT_CLOUD") w).
Proof. reflexivity. Qed.

Lemma connecting_notice_frame : forall w,
  let w0 := (lcd_clear ;; lcd_print "Connecting to" ;; lcd_setCursor 0 1 ;;
             lcd_print "cloud..." ;; Serial_println "CONNECT_CLOUD") w in
  clock w0 = clock w /\ currentState w0 = currentState w
  /\ previousState w0 = previousState w /\ serialIn w0 = serialIn w.
Proof. intros w. repeat split. Qed.

Lemma connectToCloud_returns : forall fuel arrive w,
  (50 <= fuel)%nat ->
  exists w',
    connectToCloud fuel arrive w = Some w'
    /\ connectToCloud 50 arrive w = Some w'
    /\ 2000 <= clock w' - clock w < 8150
    /\ currentState w' = currentState w
    /\ previousState w' = previousState w.
Proof.
  intros fuel arrive w Hfuel. rewrite !connectToCloud_unfold.
  destruct (connecting_notice_frame w) as (Hc & Hs & Hp & _).
  set (w0 := (lcd_clear ;; lcd_print "Connecting to" ;; lcd_setCursor 0 1 ;;
              lcd_print "cloud..." ;; Serial_println "CONNECT_CLOUD") w) in *.
  clearbody w0.
  destruct (connectLoop_returns 50 arrive 0 (clock w) w0) as (w' & E & Hb & Hs' & Hp').
  - lia.
  - unfold CLOUD_TIMEOUT. lia.
  - exists w'. split; [|split; [exact E|]].
    + apply (connectLoop_fuel_le 50 fuel); assumption.
    + rewrite <- Hs, <- Hp. auto.
Qed.








(** ** Turning on *)

Lemma trace_setState_idle : forall w,
  currentState w = STATE_OFF ->
  trace (setState STATE_IDLE w) = (trace w ++ enterIdleEvents)%list.
Proof.
  intros w H. unfold setState. rewrite H. cbn.
  rewrite <- !app_assoc. reflexivity.
Qed.

Lemma trace_setState_active : forall w,
  currentState w = STATE_IDLE ->
  trace (setState STATE_ACTIVE w) = (trace w ++ enterActiveEvents)%list.
Proof.
  intros w H. unfold setState. rewrite H. cbn.
  rewrite <- !app_assoc. reflexivity.
Qed.

(** C3. A key press (any code but the repeat code 0) received in Off sets
    the state to Idle, pauses 1000 ms, and only then sets it to Active: after
    the first step the state is Idle, entered from Off; after the second it
    is Active, entered from Idle; the operations between the two state
    changes are those of entering Idle followed by the pause.  The handler
    then runs the cloud handshake, which leaves the machine in Active. *)
Theorem turn_on_goes_through_idle : forall fuel code arrive w,
  currentState w = STATE_OFF -> code <> 0 -> (50 <= fuel)%nat ->
  exists w0 w',
    (exists c t, w0 = set_trace t (set_clock c w))
    /\ currentState (setState STATE_IDLE w0) = STATE_IDLE
    /\ previousState (setState STATE_IDLE w0) = STATE_OFF
    /\ currentState (setState STATE_ACTIVE (delay 1000 (setState STATE_IDLE w0)))
       = STATE_ACTIVE
    /\ previousState (setState STATE_ACTIVE (delay 1000 (setState STATE_IDLE w0)))
       = STATE_IDLE
    /\ trace (setState STATE_ACTIVE (delay 1000 (setState STATE_IDLE w0)))
       = (trace w0 ++ enterIdleEvents ++ [Delay 1000] ++ enterActiveEvents)%list
    /\ (exists w3,
          connectToCloud fuel arrive
            (setState STATE_ACTIVE (delay 1000 (setState STATE_IDLE w0))) = Some w3
          /\ w' = emit IrResume w3)
    /\ handleIRRemote fuel (Some code) arrive w = Some w'
    /\ currentState w' = STATE_ACTIVE
    /\ previousState w' = STATE_IDLE.
Proof.
  intros fuel code arrive w Hoff Hcode Hfuel.
  assert (Hn : outputs_only
            (Serial_println "=== IR SIGNAL DETECTED ===" ;;
             Serial_print "IR Code received: 0x" ;;
             Serial_println (printNumber code 16) ;;
             beepIR ;;
             Serial_println "IR: Turning UAV ON")) by outputs.
  destruct (Hn w) as (c & t & Ew).
  set (w0 := set_trace t (set_clock c w)) in *.
  assert (H0 : currentState w0 = STATE_OFF) by exact Hoff.
  set (w1 := setState STATE_IDLE w0).
  assert (Hc1 : currentState w1 = STATE_IDLE) by apply currentState_setState.
  assert (Hp1 : previousState w1 = STATE_OFF).
  { unfold w1. rewrite previousState_setState; [exact H0|].
    rewrite H0. discriminate. }
  set (w2 := setState STATE_ACTIVE (delay 1000 w1)).
  assert (Hc2 : currentState w2 = STATE_ACTIVE) by apply currentState_setState.
  assert (Hd : currentState (delay 1000 w1) = STATE_IDLE) by exact Hc1.
  assert (Hp2 : previousState w2 = STATE_IDLE).
  { unfold w2. rewrite previousState_setState; [exact Hd|].
    rewrite Hd. discriminate. }
  assert (Ht2 : trace w2
                = (trace w0 ++ enterIdleEvents ++ [Delay 1000] ++ enterActiveEvents)%list).
  { unfold w2. rewrite (trace_setState_active _ Hd).
    change (trace (delay 1000 w1)) with (trace w1 ++ [Delay 1000])%list.
    unfold w1. rewrite (trace_setState_idle _ H0).
    rewrite <- !app_assoc. reflexivity. }
  destruct (connectToCloud_returns fuel arrive w2 Hfuel) as (w3 & E3 & _ & _ & Hc3 & Hp3).
  exists w0, (emit IrResume w3).
  split; [exists c, t; reflexivity|].
  repeat (split; [assumption|]).
  split; [exists w3; split; [exact E3|reflexivity]|].
  split.
  - unfold handleIRRemote.
    destruct (Z.eqb_spec code 0) as [E|_]; [contradiction|]. cbn [negb].
    change (currentState
              ((Serial_println "=== IR SIGNAL DETECTED ===" ;;
                Serial_print "IR Code received: 0x" ;;
                Serial_println (printNumber code 16) ;; beepIR) w))
      with (currentState w).
    rewrite Hoff. cbn [Z.eqb STATE_OFF].
    change ((Serial_println "IR: Turning UAV ON" ;;
             setState STATE_IDLE ;; delay 1000 ;; setState STATE_ACTIVE)
              ((Serial_println "=== IR SIGNAL DETECTED ===" ;;
                Serial_print "IR Code received: 0x" ;;
                Serial_println (printNumber code 16) ;; beepIR) w))
      with (setState STATE_ACTIVE (delay 1000 (setState STATE_IDLE
              ((Serial_println "=== IR SIGNAL DETECTED ===" ;;
                Serial_print "IR Code received: 0x" ;;
                Serial_println (printNumber code 16) ;;
                beepIR ;;
                Serial_println "IR: Turning UAV ON") w)))).
    rewrite Ew. fold w0. fold w1. fold w2. rewrite E3. reflexivity.
  - split.
    + change (currentState (emit IrResume w3)) with (currentState w3). congruence.
    + change (previousState (emit IrResume w3)) with (previousState w3). congruence.
Qed.

Lemma turn_on_goes_through_idle_witness :
  exists w',
    handleIRRemote 50 (Some IR_BUTTON_ON) silent initialWorld = Some w'
    /\ currentState w' = STATE_ACTIVE
    /\ previousState w' = STATE_IDLE.
Proof.
  destruct (turn_on_goes_through_idle 50 IR_BUTTON_ON silent initialWorld)
    as (w0 & w' & _ & _ & _ & _ & _ & _ & _ & E & Hc & Hp).
  - reflexivity.
  - discriminate.
  - apply le_n.
  - exists w'. auto.
Defined.

(** ** Reachable states *)

Lemma currentState_emit : forall e w, currentState (emit e w) = currentState w.
Proof. reflexivity. Qed.

Lemma connectLoop_keeps_machine : forall fuel arrive i startTime w w',
  connectLoop fuel arrive i startTime w = Some w' ->
  currentState w' = currentState w /\ previousState w' = previousState w.
Proof.
  induction fuel as [|fuel IH]; intros arrive i startTime w w' H;
    rewrite connectLoop_unfold in H;
    destruct (wrap32u (millis w - startTime) <? CLOUD_TIMEOUT);
    try discriminate;
    try (injection H as <-; split; reflexivity).
  cbv zeta in H.
  set (w1 := receive (arrive i) w) in *.
  destruct (Serial_available w1).
  - pose proof (readStringUntil_frame "010" w1) as Hfr.
    destruct (Serial_readStringUntil "010" w1) as [response w2].
    cbv zeta in Hfr. cbn [snd] in Hfr. destruct Hfr as (_ & Hs2 & Hp2 & _).
    destruct (String.eqb response "CLOUD_OK");
      [|destruct (String.eqb response "CLOUD_FAIL")].
    + injection H as <-. split; [exact Hs2|exact Hp2].
    + injection H as <-. split; [exact Hs2|exact Hp2].
    + apply IH in H. destruct H as [Hs Hp].
      split; [rewrite Hs; exact Hs2|rewrite Hp; exact Hp2].
  - apply IH in H. exact H.
Qed.

Lemma connectToCloud_keeps_machine : forall fuel arrive w w',
  connectToCloud fuel arrive w = Some w' ->
  currentState w' = currentState w /\ previousState w' = previousState w.
Proof.
  intros fuel arrive w w' H. rewrite connectToCloud_unfold in H.
  apply connectLoop_keeps_machine in H. exact H.
Qed.

Lemma handleIRRemote_currentState : forall fuel ir arrive w w',
  handleIRRemote fuel ir arrive w = Some w' ->
  currentState w' = currentState w
  \/ currentState w' = STATE_ACTIVE
  \/ currentState w' = STATE_OFF.
Proof.
  intros fuel [code|] arrive w w' H; unfold handleIRRemote in H.
  - destruct (negb (code =? 0)).
    + match type of H with
      | context [if ?b then _ else _] => destruct b
      end.
      * match type of H with
        | context [connectToCloud fuel arrive ?x] =>
            destruct (connectToCloud fuel arrive x) as [w3|] eqn:E; [|discriminate]
        end.
        injection H as <-. apply connectToCloud_keeps_machine in E.
        destruct E as [E _]. right; left.
        rewrite currentState_emit, E. unfold seq. apply currentState_setState.
      * injection H as <-. right; right.
        rewrite currentState_emit. unfold seq. apply currentState_setState.
    + injection H as <-. left. reflexivity.
  - injection H as <-. left. reflexivity.
Qed.

Lemma readThingSpeakData_currentState : forall w,
  currentState (readThingSpeakData w) = currentState w.
Proof.
  intros w. unfold readThingSpeakData.
  destruct (receiveLine (serialIn w) (receivedString w)) as [[received found] rest].
  destruct found; cbn [newData set_newData set_receivedString set_serialIn].
  - reflexivity.
  - destruct (newData w); reflexivity.
Qed.

Lemma readTemperature_currentState : forall raw w,
  currentState (snd (readTemperature raw w)) = currentState w.
Proof. intros raw w. unfold readTemperature. destruct (isnan raw); reflexivity. Qed.

Lemma readHumidity_currentState : forall raw w,
  currentState (snd (readHumidity raw w)) = currentState w.
Proof. intros raw w. unfold readHumidity. destruct (isnan raw); reflexivity. Qed.

Lemma readDistance_currentState : forall duration w,
  currentState (snd (readDistance duration w)) = currentState w.
Proof.
  intros duration w. unfold readDistance.
  match goal with |- context [if ?b then _ else _] => destruct b end; reflexivity.
Qed.

Lemma sensorTick_currentState : forall inp currentTime w,
  currentState (sensorTick inp currentTime w) = currentState w.
Proof.
  intros inp currentTime w. unfold sensorTick.
  pose proof (readTemperature_currentState (dhtTemperature inp)
                (set_lastDHTUpdate currentTime w)) as Ht.
  destruct (readTemperature (dhtTemperature inp) (set_lastDHTUpdate currentTime w))
    as [t w1]. cbn [snd] in Ht.
  pose proof (readHumidity_currentState (dhtHumidity inp)
                (onCurrentData (set_temperature t) w1)) as Hh.
  destruct (readHumidity (dhtHumidity inp) (onCurrentData (set_temperature t) w1))
    as [h w2]. cbn [snd] in Hh.
  pose proof (readDistance_currentState (echoDuration inp)
                (onCurrentData (set_humidity h) w2)) as Hd.
  destruct (readDistance (echoDuration inp) (onCurrentData (set_humidity h) w2))
    as [dist w3]. cbn [snd] in Hd.
  unfold environmentalDetection.
  rewrite outputs_only_currentState by apply outputs_only_announceHazard.
  change (currentState w3 = currentState w).
  rewrite Hd. change (currentState w2 = currentState w).
  rewrite Hh. change (currentState w1 = currentState w).
  rewrite Ht. reflexivity.
Qed.

Lemma updateState_operating : forall d w,
  operating (currentState w) -> operating (currentState (updateState d w)).
Proof.
  intros d w H. unfold updateState.
  destruct (currentState w =? STATE_OFF); [exact H|].
  destruct (isHazardousGas (gasLevel d)).
  - rewrite currentState_setState. unfold operating; simpl; auto.
  - destruct ((currentState w =? STATE_IDLE) || (currentState w =? STATE_ACTIVE)
              || (currentState w =? STATE_ALERT)); [|exact H].
    destruct (negb (currentState w =? STATE_ACTIVE)); [|exact H].
    rewrite currentState_setState. unfold operating; simpl; auto.
Qed.

Lemma telemetryTick_operating : forall inp currentTime w,
  operating (currentState w) ->
  operating (currentState (telemetryTick inp currentTime w)).
Proof.
  intros inp currentTime w H. unfold telemetryTick.
  set (w1 := onCurrentData (set_gasLevel (readGasLevel (analogMQ2 inp)))
               (set_lastUpdateTime currentTime w)).
  assert (H1 : operating (currentState w1)) by exact H.
  set (w2 := updateState (currentData w1) w1).
  assert (H2 : operating (currentState w2)) by (apply updateState_operating; exact H1).
  clearbody w2.
  set (w3 := (rgbBlue ;; delay 200) (sendDataToSerial (currentData w2) w2)).
  assert (E3 : currentState w3 = currentState w2).
  { unfold w3. rewrite outputs_only_currentState by outputs.
    apply outputs_only_currentState. apply outputs_only_sendDataToSerial. }
  clearbody w3.
  destruct (currentState w3 =? STATE_ACTIVE).
  - rewrite outputs_only_currentState by outputs. rewrite E3. exact H2.
  - destruct (currentState w3 =? STATE_ALERT).
    + rewrite outputs_only_currentState by outputs. rewrite E3. exact H2.
    + rewrite E3. exact H2.
Qed.

Lemma displayThingSpeakData_currentState : forall mode w,
  currentState (displayThingSpeakData mode w) = currentState w.
Proof.
  intros mode w. unfold displayThingSpeakData.
  repeat match goal with
         | |- context [if ?b then _ else _] => destruct b
         end; reflexivity.
Qed.

Lemma displayTick_currentState : forall currentTime w,
  currentState (displayTick currentTime w) = currentState w.
Proof.
  intros currentTime w. unfold displayTick.
  destruct (currentState (set_lastDisplayUpdate currentTime w) =? STATE_ACTIVE);
    [|reflexivity].
  match goal with
  | |- context [if ?b then set_displayMode 0 ?x else ?y] =>
      set (w1 := if b then set_displayMode 0 x else y);
      assert (E1 : currentState w1 = currentState w)
        by (unfold w1; destruct b; reflexivity);
      clearbody w1
  end.
  cbv zeta.
  destruct ((displayMode w1 =? THINGSPEAK_MODE) && cloudConnected w1).
  - rewrite displayThingSpeakData_currentState. exact E1.
  - rewrite outputs_only_currentState by apply outputs_only_displaySensorData.
    exact E1.
Qed.

Lemma loop_operating : forall fuel inp w w',
  loop fuel inp w = Some w' ->
  operating (currentState w) -> operating (currentState w').
Proof.
  intros fuel inp w w' H Hop. unfold loop in H.
  match type of H with
  | context [handleIRRemote fuel (irDecode inp) (handshake inp) ?x] =>
      set (w0 := x) in H;
      assert (H0 : currentState w0 = currentState w)
        by (unfold w0;
            match goal with
            | |- context [if ?b then _ else _] => destruct b
            end; reflexivity);
      clearbody w0
  end.
  destruct (handleIRRemote fuel (irDecode inp) (handshake inp) w0) as [w1|] eqn:Eir;
    [|discriminate].
  assert (H1 : operating (currentState w1)).
  { destruct (handleIRRemote_currentState _ _ _ _ _ Eir) as [E|[E|E]]; rewrite E.
    - rewrite H0. exact Hop.
    - unfold operating; simpl; auto.
    - unfold operating; simpl; auto. }
  clear Eir H0 w0 Hop. injection H as <-.
  rewrite (outputs_only_currentState (delay 50)) by outputs.
  destruct (negb (currentState w1 =? STATE_OFF)); [|exact H1].
  set (currentTime := millis w1).
  set (w2 := if cloudConnected w1 then readThingSpeakData w1 else w1).
  assert (H2 : operating (currentState w2)).
  { unfold w2. destruct (cloudConnected w1); [|exact H1].
    rewrite readThingSpeakData_currentState. exact H1. }
  clearbody w2 currentTime.
  set (w3 := if 2000 <=? wrap32u (currentTime - lastDHTUpdate w2)
             then sensorTick inp currentTime w2 else w2).
  assert (H3 : operating (currentState w3)).
  { unfold w3. destruct (2000 <=? wrap32u (currentTime - lastDHTUpdate w2)); [|exact H2].
    rewrite sensorTick_currentState. exact H2. }
  clearbody w3.
  set (w4 := if UPDATE_INTERVAL <=? wrap32u (currentTime - lastUpdateTime w3)
             then telemetryTick inp currentTime w3 else w3).
  assert (H4 : operating (currentState w4)).
  { unfold w4. destruct (UPDATE_INTERVAL <=? wrap32u (currentTime - lastUpdateTime w3));
      [|exact H3].
    apply telemetryTick_operating. exact H3. }
  clearbody w4.
  destruct (10000 <=? wrap32u (currentTime - lastDisplayUpdate w4)); [|exact H4].
  rewrite displayTick_currentState. exact H4.
Qed.

(** Every pass of [loop] completes: 50 handshake polls are always enough. *)
Lemma handleIRRemote_returns : forall fuel ir arrive w,
  (50 <= fuel)%nat -> exists w', handleIRRemote fuel ir arrive w = Some w'.
Proof.
  intros fuel [code|] arrive w Hfuel; unfold handleIRRemote; [|eexists; reflexivity].
  destruct (negb (code =? 0)); [|eexists; reflexivity].
  match goal with
  | |- context [if ?b then _ else _] => destruct b
  end; [|eexists; reflexivity].
  match goal with
  | |- context [connectToCloud fuel arrive ?x] =>
      destruct (connectToCloud_returns fuel arrive x Hfuel) as (w3 & E & _)
  end.
  rewrite E. eexists; reflexivity.
Qed.

Lemma loop_returns : forall fuel inp w,
  (50 <= fuel)%nat -> exists w', loop fuel inp w = Some w'.
Proof.
  intros fuel inp w Hfuel. unfold loop.
  match goal with
  | |- context [handleIRRemote fuel (irDecode inp) (handshake inp) ?x] =>
      destruct (handleIRRemote_returns fuel (irDecode inp) (handshake inp) x Hfuel)
        as (w1 & E)
  end.
  rewrite E. eexists; reflexivity.
Qed.

(** C4. No run of the sketch reaches the Error state: whatever the key
    presses, serial input and sensor readings of each pass of [loop], the
    current state stays among Off, Idle, Active and Alert.  (The only
    statement that would enter Error, the validity check of [updateState],
    is disabled in the source.) *)
Theorem error_state_unreachable : forall w : World,
  reachable w ->
  operating (currentState w) /\ currentState w <> STATE_ERROR.
Proof.
  intros w Hr.
  assert (Hop : operating (currentState w)).
  { induction Hr as [|fuel inp w w' Hr IH Hstep].
    - unfold operating; simpl; auto.
    - apply (loop_operating fuel inp w w' Hstep IH). }
  split; [exact Hop|].
  unfold operating, STATE_OFF, STATE_IDLE, STATE_ACTIVE, STATE_ALERT in Hop.
  unfold STATE_ERROR. simpl in Hop. lia.
Qed.

Lemma error_state_unreachable_witness :
  exists w',
    loop 50 keyPressOn initialWorld = Some w'
    /\ currentState w' <> STATE_ERROR.
Proof.
  destruct (loop 50 keyPressOn initialWorld) as [w'|] eqn:E.
  - exists w'. split; [reflexivity|].
    apply (error_state_unreachable w').
    apply (reachable_loop 50 keyPressOn initialWorld w' reachable_start E).
  - vm_compute in E. discriminate.
Defined.

(** ** Telemetry *)

Lemma append_String_assoc : forall (a : string) (c : ascii) (b : string),
  (a ++ String c EmptyString) ++ b = a ++ String c b.
Proof.
  induction a as [|x a IH]; intros c b; simpl.
  - reflexivity.
  - rewrite IH. reflexivity.
Qed.

Lemma append_empty_r : forall a : string, a ++ "" = a.
Proof.
  induction a as [|x a IH]; simpl; [reflexivity|]. rewrite IH. reflexivity.
Qed.

(** The receive loop on a buffer that holds a whole line. *)
Lemma receiveLine_line : forall line rest received,
  noLineFeed line = true ->
  receiveLine (line ++ String "010" rest) received
  = (received ++ keepAccepted line, true, rest).
Proof.
  induction line as [|c line IH]; intros rest received Hnl.
  - simpl. rewrite append_empty_r. reflexivity.
  - simpl in Hnl. apply andb_true_iff in Hnl. destruct Hnl as [Hc Hnl].
    apply negb_true_iff in Hc.
    change ((String c line ++ String "010" rest))
      with (String c (line ++ String "010" rest)).
    cbn [receiveLine keepAccepted]. rewrite Hc.
    destruct (accepted c).
    + rewrite IH by assumption. rewrite append_String_assoc. reflexivity.
    + apply IH. assumption.
Qed.

Lemma readThingSpeakData_line : forall w line rest,
  noLineFeed line = true ->
  serialIn w = line ++ String "010" rest ->
  receivedTSData (readThingSpeakData w)
  = storeTokens (strtok_all "|" (receivedString w ++ keepAccepted line) []) 0
      (receivedTSData w)
  /\ serialIn (readThingSpeakData w) = rest
  /\ receivedString (readThingSpeakData w) = ""
  /\ newData (readThingSpeakData w) = false.
Proof.
  intros w line rest Hnl Hin. unfold readThingSpeakData.
  rewrite Hin, receiveLine_line by assumption.
  repeat split.
Qed.

Lemma storeField_beyond : forall k v d, 8 <= k -> storeField k v d = d.
Proof.
  intros k v d Hk. unfold storeField.
  repeat match goal with
         | |- context [match ?p with _ => _ end] => destruct p
         end; try reflexivity; lia.
Qed.

Lemma storeTokens_beyond : forall tokens k d, 8 <= k -> storeTokens tokens k d = d.
Proof.
  induction tokens as [|t tokens IH]; intros k d Hk; simpl.
  - reflexivity.
  - rewrite storeField_beyond by assumption. apply IH. lia.
Qed.

(** The token loop does what spec 4.5 says, on records of any length. *)
Lemma storeTokens_positional : forall tokens d,
  storeTokens tokens 0 d = positionalUpdate tokens d.
Proof.
  intros tokens [a b c e f g h i].
  destruct tokens as [|t0 [|t1 [|t2 [|t3 [|t4 [|t5 [|t6 [|t7 more]]]]]]]];
    try reflexivity.
  cbn [storeTokens Z.add Pos.add Pos.succ]. rewrite storeTokens_beyond by lia.
  reflexivity.
Qed.

Lemma trace_sendDataToSerial : forall d w,
  trace (sendDataToSerial d w)
  = (trace w ++
     [ SerialWrite (printFloat (temperature d) 1); SerialWrite ",";
       SerialWrite (printFloat (humidity d) 1); SerialWrite ",";
       SerialWrite (printInt (gasLevel d)); SerialWrite ",";
       SerialWrite (printInt (distance d)); SerialWrite ",";
       SerialWrite (printInt (currentState w)); SerialWrite ",";
       SerialWrite (printFloat (pitch d) 1); SerialWrite ",";
       SerialWrite (printFloat (roll d) 1); SerialWrite ",";
       SerialWrite (printFloat (yaw d) 1 ++ CRLF) ])%list.
Proof.
  intros d w. unfold sendDataToSerial, seq, Serial_print, Serial_println, emit.
  cbn [trace set_trace]. rewrite <- !app_assoc. reflexivity.
Qed.

(** C7. With the machine in state 2, [sendDataToSerial] on the record
    {23.5, 55.0, 120, 150, 1.2, -0.5, 10.0} writes exactly the line
    [23.5,55.0,120,150,2,1.2,-0.5,10.0] followed by the line terminator of
    [println]; and [readThingSpeakData], given the inbound line
    [23.5|55.0|120|150|2|1.2|-0.5|10.0] and a line feed, fills the display
    cache with the same eight values, whatever it held before. *)
Theorem telemetry_round_trip :
  (forall w : World,
     currentState w = STATE_ACTIVE ->
     exists out,
       trace (sendDataToSerial sampleRecord w) = (trace w ++ out)%list
       /\ serialOutput out = sampleLine ++ CRLF)
  /\ (forall (w : World) (rest : string),
        receivedString w = "" ->
        serialIn w = sampleInbound ++ String "010" rest ->
        receivedTSData (readThingSpeakData w) = sampleCache
        /\ serialIn (readThingSpeakData w) = rest).
Proof.
  split.
  - intros w Hs. eexists. split; [apply trace_sendDataToSerial|].
    rewrite Hs. vm_compute. reflexivity.
  - intros w rest Hr Hin.
    destruct (readThingSpeakData_line w sampleInbound rest eq_refl Hin)
      as (Hd & Hrest & _).
    split; [|exact Hrest].
    rewrite Hd, Hr. rewrite storeTokens_positional.
    vm_compute. reflexivity.
Qed.

Lemma telemetry_round_trip_witness :
  receivedTSData
    (readThingSpeakData
       (set_serialIn (sampleInbound ++ String "010" "") initialWorld))
  = sampleCache.
Proof.
  apply (proj2 telemetry_round_trip
           (set_serialIn (sampleInbound ++ String "010" "") initialWorld) "");
    reflexivity.
Defined.

(** C8. A line with fewer than 8 tokens is not rejected and the cache is not
    cleared: the tokens present are converted into the leading fields, in
    order, and every field past the last token keeps its cached value. *)
Theorem short_record_updates_leading_fields : forall (w : World) (line rest : string),
  noLineFeed line = true ->
  serialIn w = line ++ String "010" rest ->
  (List.length (strtok_all "|" (receivedString w ++ keepAccepted line) []) < 8)%nat ->
  let tokens := strtok_all "|" (receivedString w ++ keepAccepted line) [] in
  let old := receivedTSData w in
  let new := receivedTSData (readThingSpeakData w) in
  new = positionalUpdate tokens old
  /\ ((List.length tokens <= 0)%nat -> temp new = temp old)
  /\ ((List.length tokens <= 1)%nat -> humid new = humid old)
  /\ ((List.length tokens <= 2)%nat -> gas new = gas old)
  /\ ((List.length tokens <= 3)%nat -> dist new = dist old)
  /\ ((List.length tokens <= 4)%nat -> state new = state old)
  /\ ((List.length tokens <= 5)%nat -> ts_pitch new = ts_pitch old)
  /\ ((List.length tokens <= 6)%nat -> ts_roll new = ts_roll old)
  /\ ts_yaw new = ts_yaw old.
Proof.
  intros w line rest Hnl Hin Hlen tokens old new.
  assert (Hnew : new = positionalUpdate tokens old).
  { unfold new, tokens, old.
    destruct (readThingSpeakData_line w line rest Hnl Hin) as (Hd & _).
    rewrite Hd. apply storeTokens_positional. }
  fold tokens in Hlen. clearbody tokens old new. subst new.
  split; [reflexivity|].
  assert (Hnone : forall i, (List.length tokens <= i)%nat -> nth_error tokens i = None)
    by (intros i Hi; apply nth_error_None; exact Hi).
  unfold positionalUpdate. cbn [temp humid gas dist state ts_pitch ts_roll ts_yaw].
  repeat split; try (intros Hi; rewrite (Hnone _ Hi); reflexivity).
  rewrite (Hnone 7%nat) by lia. reflexivity.
Qed.

Lemma short_record_updates_leading_fields_witness :
  receivedTSData
    (readThingSpeakData (set_serialIn ("23.5|55.0|120" ++ String "010" "") initialWorld))
  = {| temp := of_decimal false 235 1; humid := of_decimal false 550 1;
       gas := 120; dist := 0; state := 0;
       ts_pitch := S754_zero false; ts_roll := S754_zero false;
       ts_yaw := S754_zero false |}.
Proof.
  rewrite (proj1 (short_record_updates_leading_fields
                    (set_serialIn ("23.5|55.0|120" ++ String "010" "") initialWorld)
                    "23.5|55.0|120" "" eq_refl eq_refl
                    ltac:(vm_compute; lia))).
  vm_compute. reflexivity.
Defined.

(** * Further properties of the code *)

(** ** Pins *)

Lemma lastWrite_app : forall pin t1 t2,
  lastWrite pin (t1 ++ t2)%list
  = match lastWrite pin t2 with
    | Some v => Some v
    | None => lastWrite pin t1
    end.
Proof.
  intros pin t1 t2. induction t1 as [|e t1 IH]; simpl.
  - destruct (lastWrite pin t2); reflexivity.
  - rewrite IH. destruct (lastWrite pin t2); reflexivity.
Qed.

Lemma keeps_pin_skip : forall pin, keeps_pin pin skip.
Proof. intros pin w. reflexivity. Qed.

Lemma keeps_pin_seq : forall pin a b,
  keeps_pin pin a -> keeps_pin pin b -> keeps_pin pin (a ;; b).
Proof. intros pin a b Ha Hb w. unfold seq. rewrite Hb, Ha. reflexivity. Qed.

Lemma keeps_pin_times : forall pin n a, keeps_pin pin a -> keeps_pin pin (times n a).
Proof.
  induction n as [|n IH]; intros a Ha; simpl.
  - apply keeps_pin_skip.
  - apply keeps_pin_seq; auto.
Qed.

Lemma keeps_pin_emit : forall pin e,
  lastWrite pin [e] = None -> keeps_pin pin (emit e).
Proof.
  intros pin e H w. unfold emit. cbn [trace set_trace].
  rewrite lastWrite_app, H. reflexivity.
Qed.

Lemma keeps_pin_delay : forall pin ms, keeps_pin pin (delay ms).
Proof.
  intros pin ms w. unfold delay, emit. cbn [trace set_trace set_clock].
  rewrite lastWrite_app. reflexivity.
Qed.

Create HintDb pins.
#[local] Hint Resolve keeps_pin_skip keeps_pin_seq keeps_pin_times
  keeps_pin_delay : pins.
#[local] Hint Extern 1 (keeps_pin _ (emit _)) =>
  apply keeps_pin_emit; reflexivity : pins.

Ltac pins := autounfold with outputs; auto 60 with pins.

Lemma keeps_pin_announceHazard : forall h d,
  keeps_pin MOTOR_ENABLE (announceHazard h d).
Proof. intros [ ] d; unfold announceHazard; pins. Qed.

Lemma keeps_pin_displaySensorData : forall d m,
  keeps_pin MOTOR_ENABLE (displaySensorData d m).
Proof.
  intros d m. unfold displaySensorData.
  repeat match goal with
         | |- context [match ?x with _ => _ end] => destruct x
         end; pins.
Qed.

Lemma keeps_pin_sendDataToSerial : forall d,
  keeps_pin MOTOR_ENABLE (sendDataToSerial d).
Proof.
  intros d w. unfold sendDataToSerial.
  match goal with
  | |- lastWrite _ (trace (?a w)) = _ =>
      assert (H : keeps_pin MOTOR_ENABLE a) by pins
  end.
  apply H.
Qed.

(** ** State changes *)

Lemma trace_stateActions : forall s w,
  trace (stateActions s w) = (trace w ++ stateEvents s)%list.
Proof.
  intros s w. unfold stateEvents, stateActions.
  repeat match goal with
         | |- context [match ?x with _ => _ end] => destruct x
         end; cbn; rewrite <- ?app_assoc; try reflexivity;
    rewrite app_nil_r; reflexivity.
Qed.

(** X1. A transition to a state other than the current one stores the state
    left in [previousState], and produces one beep, one notice
    [State changed: old -> new] on the serial line, and then the actions
    bound to the new state -- nothing else. *)
Theorem setState_transition : forall (s : Z) (w : World),
  s <> currentState w ->
  currentState (setState s w) = s
  /\ previousState (setState s w) = currentState w
  /\ trace (setState s w)
     = (trace w ++ stateChangeNotice (currentState w) s ++ stateEvents s)%list.
Proof.
  intros s w Hne.
  split; [apply currentState_setState|].
  split; [apply previousState_setState; exact Hne|].
  unfold setState.
  destruct (Z.eqb_spec s (currentState w)) as [E|_]; [contradiction|].
  cbn [negb]. cbv zeta.
  rewrite trace_stateActions.
  unfold stateChangeNotice. cbn. rewrite <- !app_assoc. reflexivity.
Qed.

Lemma setState_transition_witness :
  previousState (setState STATE_ALERT (set_currentState STATE_ACTIVE initialWorld))
  = STATE_ACTIVE.
Proof.
  apply (setState_transition STATE_ALERT (set_currentState STATE_ACTIVE initialWorld)).
  discriminate.
Defined.

(** ** The motor *)

Lemma lastWrite_motor_setState : forall s w,
  s <> currentState w -> In s [STATE_OFF; STATE_IDLE; STATE_ACTIVE; STATE_ALERT] ->
  lastWrite MOTOR_ENABLE (trace (setState s w))
  = Some (if s =? STATE_OFF then 0 else 255).
Proof.
  intros s w Hne Hin.
  destruct (setState_transition s w Hne) as (_ & _ & Ht). rewrite Ht.
  rewrite !lastWrite_app.
  simpl in Hin. destruct Hin as [E|[E|[E|[E|[ ]]]]]; subst s; reflexivity.
Qed.

Lemma motorFollowsState_setState : forall s w,
  In s [STATE_OFF; STATE_IDLE; STATE_ACTIVE; STATE_ALERT] ->
  motorFollowsState w -> motorFollowsState (setState s w).
Proof.
  intros s w Hin Hw.
  destruct (Z.eq_dec s (currentState w)) as [E|Hne].
  - rewrite setState_same by exact E. exact Hw.
  - unfold motorFollowsState.
    rewrite lastWrite_motor_setState by assumption.
    rewrite currentState_setState. reflexivity.
Qed.

Lemma motorFollowsState_frame : forall w w',
  currentState w' = currentState w ->
  lastWrite MOTOR_ENABLE (trace w') = lastWrite MOTOR_ENABLE (trace w) ->
  motorFollowsState w -> motorFollowsState w'.
Proof.
  intros w w' Hs Ht H. unfold motorFollowsState in *. rewrite Hs, Ht. exact H.
Qed.

Lemma motorFollowsState_outputs : forall a w,
  outputs_only a -> keeps_pin MOTOR_ENABLE a ->
  motorFollowsState w -> motorFollowsState (a w).
Proof.
  intros a w Ho Hk H. apply (motorFollowsState_frame w).
  - apply outputs_only_currentState. exact Ho.
  - apply Hk.
  - exact H.
Qed.

Lemma motorFollowsState_updateState : forall d w,
  motorFollowsState w -> motorFollowsState (updateState d w).
Proof.
  intros d w H. unfold updateState.
  destruct (currentState w =? STATE_OFF); [exact H|].
  destruct (isHazardousGas (gasLevel d)).
  - apply motorFollowsState_setState; [simpl; auto|exact H].
  - destruct ((currentState w =? STATE_IDLE) || (currentState w =? STATE_ACTIVE)
              || (currentState w =? STATE_ALERT)); [|exact H].
    destruct (negb (currentState w =? STATE_ACTIVE)); [|exact H].
    apply motorFollowsState_setState; [simpl; auto|exact H].
Qed.

Lemma connectLoop_keeps_trace_pin : forall pin, pin <> RGB_RED ->
  forall fuel arrive i startTime w w',
  connectLoop fuel arrive i startTime w = Some w' ->
  lastWrite pin (trace w') = lastWrite pin (trace w).
Proof.
  intros pin _. induction fuel as [|fuel IH]; intros arrive i startTime w w' H;
    rewrite connectLoop_unfold in H;
    destruct (wrap32u (millis w - startTime) <? CLOUD_TIMEOUT);
    try discriminate;
    try (injection H as <-; cbn; rewrite !lastWrite_app; reflexivity).
  cbv zeta in H.
  set (w1 := receive (arrive i) w) in *.
  assert (Ht1 : trace w1 = trace w) by reflexivity.
  destruct (Serial_available w1).
  - pose proof (readStringUntil_frame "010" w1) as Hfr.
    destruct (Serial_readStringUntil "010" w1) as [response w2].
    cbv zeta in Hfr. cbn [snd] in Hfr. destruct Hfr as (_ & _ & _ & _ & Ht2).
    destruct (String.eqb response "CLOUD_OK");
      [|destruct (String.eqb response "CLOUD_FAIL")].
    + injection H as <-. cbn. rewrite !lastWrite_app. cbn. rewrite Ht2, Ht1. reflexivity.
    + injection H as <-. cbn. rewrite !lastWrite_app. cbn. rewrite Ht2, Ht1. reflexivity.
    + apply IH in H. rewrite H. cbn. rewrite lastWrite_app. cbn.
      rewrite Ht2, Ht1. reflexivity.
  - apply IH in H. rewrite H. cbn. rewrite lastWrite_app. reflexivity.
Qed.

Lemma connectToCloud_keeps_motor : forall fuel arrive w w',
  connectToCloud fuel arrive w = Some w' ->
  lastWrite MOTOR_ENABLE (trace w') = lastWrite MOTOR_ENABLE (trace w).
Proof.
  intros fuel arrive w w' H. rewrite connectToCloud_unfold in H.
  apply (connectLoop_keeps_trace_pin MOTOR_ENABLE) in H; [|discriminate].
  rewrite H. cbn. rewrite !lastWrite_app. reflexivity.
Qed.

Lemma motorFollowsState_handleIRRemote : forall fuel ir arrive w w',
  handleIRRemote fuel ir arrive w = Some w' ->
  motorFollowsState w -> motorFollowsState w'.
Proof.
  intros fuel [code|] arrive w w' H Hw; unfold handleIRRemote in H;
    [|injection H as <-; exact Hw].
  destruct (negb (code =? 0)).
  - match type of H with
    | context [if currentState ?x =? STATE_OFF then _ else _] =>
        assert (Hx : motorFollowsState x)
          by (apply motorFollowsState_outputs; [outputs|pins|exact Hw]);
        set (w0 := x) in *; clearbody w0
    end.
    destruct (currentState w0 =? STATE_OFF).
    + match type of H with
      | context [connectToCloud fuel arrive ?x] =>
          assert (Hy : motorFollowsState x);
          [|destruct (connectToCloud fuel arrive x) as [w3|] eqn:E; [|discriminate]]
      end.
      * unfold seq.
        apply motorFollowsState_setState; [simpl; auto|].
        apply (motorFollowsState_outputs (delay 1000)); [outputs|pins|].
        apply motorFollowsState_setState; [simpl; auto|].
        apply (motorFollowsState_outputs (Serial_println "IR: Turning UAV ON"));
          [outputs|pins|exact Hx].
      * injection H as <-.
        apply (motorFollowsState_outputs (emit IrResume)); [outputs|pins|].
        eapply motorFollowsState_frame; [| |exact Hy].
        -- apply (connectToCloud_keeps_machine _ _ _ _ E).
        -- apply (connectToCloud_keeps_motor _ _ _ _ E).
    + injection H as <-.
      apply (motorFollowsState_outputs (emit IrResume)); [outputs|pins|].
      unfold seq. apply motorFollowsState_setState; [simpl; auto|].
      apply (motorFollowsState_frame
               (Serial_println "IR: Turning UAV OFF" w0)); [reflexivity|reflexivity|].
      apply (motorFollowsState_outputs (Serial_println "IR: Turning UAV OFF"));
        [outputs|pins|exact Hx].
  - injection H as <-.
    apply (motorFollowsState_outputs (emit IrResume)); [outputs|pins|exact Hw].
Qed.

Lemma readTemperature_lastWrite : forall pin raw w,
  lastWrite pin (trace (snd (readTemperature raw w))) = lastWrite pin (trace w).
Proof.
  intros pin raw w. unfold readTemperature. destruct (isnan raw); [|reflexivity].
  cbn. rewrite lastWrite_app. reflexivity.
Qed.

Lemma readHumidity_lastWrite : forall pin raw w,
  lastWrite pin (trace (snd (readHumidity raw w))) = lastWrite pin (trace w).
Proof.
  intros pin raw w. unfold readHumidity. destruct (isnan raw); [|reflexivity].
  cbn. rewrite lastWrite_app. reflexivity.
Qed.

Lemma readDistance_lastWrite : forall pin duration w,
  lastWrite pin (trace (snd (readDistance duration w))) = lastWrite pin (trace w).
Proof.
  intros pin duration w. unfold readDistance.
  match goal with |- context [if ?b then _ else _] => destruct b end;
    cbn [snd]; unfold seq, Serial_println, digitalWrite, emit;
    cbn [trace set_trace]; rewrite !lastWrite_app; reflexivity.
Qed.

Lemma sensorTick_keeps_motor : forall inp currentTime w,
  lastWrite MOTOR_ENABLE (trace (sensorTick inp currentTime w))
  = lastWrite MOTOR_ENABLE (trace w).
Proof.
  intros inp currentTime w. unfold sensorTick.
  pose proof (readTemperature_lastWrite MOTOR_ENABLE (dhtTemperature inp)
                (set_lastDHTUpdate currentTime w)) as Ht.
  destruct (readTemperature (dhtTemperature inp) (set_lastDHTUpdate currentTime w))
    as [t w1]. cbn [snd] in Ht.
  pose proof (readHumidity_lastWrite MOTOR_ENABLE (dhtHumidity inp)
                (onCurrentData (set_temperature t) w1)) as Hh.
  destruct (readHumidity (dhtHumidity inp) (onCurrentData (set_temperature t) w1))
    as [h w2]. cbn [snd] in Hh.
  pose proof (readDistance_lastWrite MOTOR_ENABLE (echoDuration inp)
                (onCurrentData (set_humidity h) w2)) as Hd.
  destruct (readDistance (echoDuration inp) (onCurrentData (set_humidity h) w2))
    as [dist w3]. cbn [snd] in Hd.
  unfold environmentalDetection. rewrite keeps_pin_announceHazard.
  change (lastWrite MOTOR_ENABLE (trace w3) = lastWrite MOTOR_ENABLE (trace w)).
  rewrite Hd. change (lastWrite MOTOR_ENABLE (trace w2) = lastWrite MOTOR_ENABLE (trace w)).
  rewrite Hh. change (lastWrite MOTOR_ENABLE (trace w1) = lastWrite MOTOR_ENABLE (trace w)).
  rewrite Ht. reflexivity.
Qed.

Lemma motorFollowsState_telemetryTick : forall inp currentTime w,
  motorFollowsState w -> motorFollowsState (telemetryTick inp currentTime w).
Proof.
  intros inp currentTime w H. unfold telemetryTick.
  set (w1 := onCurrentData (set_gasLevel (readGasLevel (analogMQ2 inp)))
               (set_lastUpdateTime currentTime w)).
  assert (H1 : motorFollowsState w1) by exact H.
  set (w2 := updateState (currentData w1) w1).
  assert (H2 : motorFollowsState w2)
    by (apply motorFollowsState_updateState; exact H1).
  clearbody w2.
  set (w3 := (rgbBlue ;; delay 200) (sendDataToSerial (currentData w2) w2)).
  assert (H3 : motorFollowsState w3).
  { unfold w3. apply motorFollowsState_outputs; [outputs|pins|].
    apply motorFollowsState_outputs;
      [apply outputs_only_sendDataToSerial|apply keeps_pin_sendDataToSerial|exact H2]. }
  clearbody w3.
  destruct (currentState w3 =? STATE_ACTIVE).
  - apply motorFollowsState_outputs; [outputs|pins|exact H3].
  - destruct (currentState w3 =? STATE_ALERT); [|exact H3].
    apply motorFollowsState_outputs; [outputs|pins|exact H3].
Qed.

Lemma readThingSpeakData_trace : forall w,
  trace (readThingSpeakData w) = trace w.
Proof.
  intros w. unfold readThingSpeakData.
  destruct (receiveLine (serialIn w) (receivedString w)) as [[received found] rest].
  destruct found; cbn [newData set_newData set_receivedString set_serialIn].
  - reflexivity.
  - destruct (newData w); reflexivity.
Qed.

Lemma displayThingSpeakData_keeps_motor : forall mode w,
  lastWrite MOTOR_ENABLE (trace (displayThingSpeakData mode w))
  = lastWrite MOTOR_ENABLE (trace w).
Proof.
  intros mode w. unfold displayThingSpeakData. cbv zeta.
  set (d := receivedTSData w). clearbody d.
  set (w0 := (lcd_clear ;; lcd_setCursor 0 0) w).
  assert (K0 : lastWrite MOTOR_ENABLE (trace w0) = lastWrite MOTOR_ENABLE (trace w)).
  { unfold w0. assert (K : keeps_pin MOTOR_ENABLE (lcd_clear ;; lcd_setCursor 0 0)) by pins.
    apply K. }
  clearbody w0.
  match goal with
  | |- context [set_tsDisplayStep (tsDisplayStep ?x + 1) ?x] => set (w1 := x)
  end.
  assert (K1 : lastWrite MOTOR_ENABLE (trace w1) = lastWrite MOTOR_ENABLE (trace w0)).
  { unfold w1.
    repeat match goal with
           | |- context [if ?b then _ else _] => destruct b
           end;
      try reflexivity;
      match goal with
      | |- lastWrite _ (trace (?a w0)) = _ =>
          assert (K : keeps_pin MOTOR_ENABLE a) by pins; apply K
      end. }
  clearbody w1.
  match goal with
  | |- context [if ?b then _ else _] => destruct b
  end; cbn [trace set_tsDisplayStep]; rewrite K1, K0; reflexivity.
Qed.

Lemma displayTick_keeps_motor : forall currentTime w,
  lastWrite MOTOR_ENABLE (trace (displayTick currentTime w))
  = lastWrite MOTOR_ENABLE (trace w).
Proof.
  intros currentTime w. unfold displayTick.
  destruct (currentState (set_lastDisplayUpdate currentTime w) =? STATE_ACTIVE);
    [|reflexivity].
  match goal with
  | |- context [if ?b then set_displayMode 0 ?x else ?y] =>
      set (w1 := if b then set_displayMode 0 x else y);
      assert (E1 : trace w1 = trace w)
        by (unfold w1; destruct b; reflexivity);
      clearbody w1
  end.
  cbv zeta.
  destruct ((displayMode w1 =? THINGSPEAK_MODE) && cloudConnected w1).
  - rewrite displayThingSpeakData_keeps_motor, E1. reflexivity.
  - rewrite keeps_pin_displaySensorData, E1. reflexivity.
Qed.

Lemma motorFollowsState_loop : forall fuel inp w w',
  loop fuel inp w = Some w' ->
  motorFollowsState w -> motorFollowsState w'.
Proof.
  intros fuel inp w w' H Hw. unfold loop in H.
  match type of H with
  | context [handleIRRemote fuel (irDecode inp) (handshake inp) ?x] =>
      set (w0 := x) in H;
      assert (H0 : motorFollowsState w0);
      [|clearbody w0]
  end.
  { unfold w0.
    match goal with
    | |- context [if ?b then _ else _] => destruct b
    end.
    - apply (motorFollowsState_frame
               ((Serial_print "Loop running... count: " ;;
                 Serial_println (printNumber (loopCount (set_loopCount (wrap32u (loopCount w + 1)) w)) 10))
                  (set_loopCount (wrap32u (loopCount w + 1)) w)));
        [reflexivity|reflexivity|].
      apply motorFollowsState_outputs; [outputs|pins|exact Hw].
    - exact Hw. }
  destruct (handleIRRemote fuel (irDecode inp) (handshake inp) w0) as [w1|] eqn:Eir;
    [|discriminate].
  assert (H1 : motorFollowsState w1)
    by (apply (motorFollowsState_handleIRRemote _ _ _ _ _ Eir H0)).
  clear Eir H0 w0 Hw. injection H as <-.
  apply (motorFollowsState_outputs (delay 50)); [outputs|pins|].
  destruct (negb (currentState w1 =? STATE_OFF)); [|exact H1].
  set (currentTime := millis w1).
  set (w2 := if cloudConnected w1 then readThingSpeakData w1 else w1).
  assert (H2 : motorFollowsState w2).
  { unfold w2. destruct (cloudConnected w1); [|exact H1].
    apply (motorFollowsState_frame w1);
      [apply readThingSpeakData_currentState
      |rewrite readThingSpeakData_trace; reflexivity|exact H1]. }
  clearbody w2 currentTime.
  set (w3 := if 2000 <=? wrap32u (currentTime - lastDHTUpdate w2)
             then sensorTick inp currentTime w2 else w2).
  assert (H3 : motorFollowsState w3).
  { unfold w3. destruct (2000 <=? wrap32u (currentTime - lastDHTUpdate w2)); [|exact H2].
    apply (motorFollowsState_frame w2);
      [apply sensorTick_currentState|apply sensorTick_keeps_motor|exact H2]. }
  clearbody w3.
  set (w4 := if UPDATE_INTERVAL <=? wrap32u (currentTime - lastUpdateTime w3)
             then telemetryTick inp currentTime w3 else w3).
  assert (H4 : motorFollowsState w4).
  { unfold w4. destruct (UPDATE_INTERVAL <=? wrap32u (currentTime - lastUpdateTime w3));
      [|exact H3].
    apply motorFollowsState_telemetryTick. exact H3. }
  clearbody w4.
  destruct (10000 <=? wrap32u (currentTime - lastDisplayUpdate w4)); [|exact H4].
  apply (motorFollowsState_frame w4);
    [apply displayTick_currentState|apply displayTick_keeps_motor|exact H4].
Qed.

(** X2. In every world the sketch can reach, the motor is driven as the
    state asks: when the state is Off the motor has never been driven or was
    last stopped (enable 0), and in every other state it was last set to full
    speed (enable 255).  Nothing but a state change writes the enable pin. *)
Theorem motor_follows_state : forall w : World,
  reachable w ->
  (currentState w = STATE_OFF ->
   lastWrite MOTOR_ENABLE (trace w) = None
   \/ lastWrite MOTOR_ENABLE (trace w) = Some 0)
  /\ (currentState w <> STATE_OFF ->
      lastWrite MOTOR_ENABLE (trace w) = Some 255).
Proof.
  intros w Hr.
  assert (H : motorFollowsState w).
  { induction Hr as [|fuel inp w w' Hr IH Hstep].
    - reflexivity.
    - apply (motorFollowsState_loop fuel inp w w' Hstep IH). }
  unfold motorFollowsState in H.
  destruct (lastWrite MOTOR_ENABLE (trace w)) as [v|]; split; intros Hs.
  - right. rewrite Hs in H. subst v. reflexivity.
  - destruct (Z.eqb_spec (currentState w) STATE_OFF) as [E|_]; [contradiction|].
    subst v. reflexivity.
  - left. reflexivity.
  - contradiction.
Qed.

Lemma motor_follows_state_witness :
  exists w',
    loop 50 keyPressOn initialWorld = Some w'
    /\ lastWrite MOTOR_ENABLE (trace w') = Some 255.
Proof.
  destruct (loop 50 keyPressOn initialWorld) as [w'|] eqn:E.
  - exists w'. split; [reflexivity|].
    apply (motor_follows_state w'
             (reachable_loop 50 keyPressOn initialWorld w' reachable_start E)).
    assert (Hs : option_map currentState (loop 50 keyPressOn initialWorld)
                 = Some STATE_ACTIVE) by (vm_compute; reflexivity).
    rewrite E in Hs. injection Hs as Hs. rewrite Hs. discriminate.
  - vm_compute in E. discriminate.
Defined.

(** ** Keys *)

Lemma cloudConnected_setState : forall s w,
  cloudConnected (setState s w) = cloudConnected w.
Proof.
  intros s w. destruct (Z.eq_dec s (currentState w)) as [E|Hne].
  - rewrite setState_same by exact E. reflexivity.
  - destruct (setState_changed s w Hne) as (c & t & ->). reflexivity.
Qed.

Lemma clock_setState_off : forall w,
  currentState w <> STATE_OFF -> clock (setState STATE_OFF w) = clock w + 150.
Proof.
  intros w Hne. unfold setState.
  destruct (Z.eqb_spec STATE_OFF (currentState w)) as [E|_];
    [symmetry in E; contradiction|].
  reflexivity.
Qed.

(** X3. While the UAV is on, any key other than the repeat code -- the ON
    key included -- turns it off: the handler needs no handshake (it returns
    whatever the poll budget), the state becomes Off with the state left in
    [previousState], the cloud connection is dropped, and the bytes waiting
    on the serial line are left unread.  The two beeps make it last 300 ms. *)
Theorem any_key_turns_off : forall fuel code arrive w,
  currentState w <> STATE_OFF -> code <> 0 ->
  exists w',
    handleIRRemote fuel (Some code) arrive w = Some w'
    /\ currentState w' = STATE_OFF
    /\ previousState w' = currentState w
    /\ cloudConnected w' = false
    /\ serialIn w' = serialIn w
    /\ clock w' = clock w + 300.
Proof.
  intros fuel code arrive w Hon Hcode. unfold handleIRRemote.
  destruct (Z.eqb_spec code 0) as [E|_]; [contradiction|]. cbn [negb].
  assert (Hn : outputs_only
            (Serial_println "=== IR SIGNAL DETECTED ===" ;;
             Serial_print "IR Code received: 0x" ;;
             Serial_println (printNumber code 16) ;; beepIR)) by outputs.
  assert (Hc : forall w, clock
            ((Serial_println "=== IR SIGNAL DETECTED ===" ;;
              Serial_print "IR Code received: 0x" ;;
              Serial_println (printNumber code 16) ;; beepIR) w) = clock w + 150)
    by reflexivity.
  specialize (Hc w).
  pose proof (outputs_only_currentState _ w Hn) as Hs.
  pose proof (outputs_only_cloudConnected _ w Hn) as Hcc.
  pose proof (outputs_only_serialIn _ w Hn) as Hsi.
  set (w0 := (Serial_println "=== IR SIGNAL DETECTED ===" ;;
              Serial_print "IR Code received: 0x" ;;
              Serial_println (printNumber code 16) ;; beepIR) w) in *.
  clearbody w0.
  destruct (Z.eqb_spec (currentState w0) STATE_OFF) as [E|Hne0];
    [rewrite Hs in E; contradiction|].
  eexists. split; [reflexivity|].
  unfold seq.
  set (w1 := set_cloudConnected false (Serial_println "IR: Turning UAV OFF" w0)).
  assert (H1s : currentState w1 = currentState w0) by reflexivity.
  assert (H1c : clock w1 = clock w0) by reflexivity.
  assert (H1cc : cloudConnected w1 = false) by reflexivity.
  assert (H1si : serialIn w1 = serialIn w0) by reflexivity.
  clearbody w1.
  assert (Hne1 : STATE_OFF <> currentState w1) by (rewrite H1s; auto).
  rewrite currentState_emit.
  change (previousState (emit IrResume (setState STATE_OFF w1)))
    with (previousState (setState STATE_OFF w1)).
  change (cloudConnected (emit IrResume (setState STATE_OFF w1)))
    with (cloudConnected (setState STATE_OFF w1)).
  change (serialIn (emit IrResume (setState STATE_OFF w1)))
    with (serialIn (setState STATE_OFF w1)).
  change (clock (emit IrResume (setState STATE_OFF w1)))
    with (clock (setState STATE_OFF w1)).
  rewrite currentState_setState, previousState_setState by exact Hne1.
  rewrite cloudConnected_setState, clock_setState_off by auto.
  destruct (setState_changed STATE_OFF w1 Hne1) as (c & t & Ew). rewrite Ew.
  cbn [serialIn set_trace set_clock set_currentState set_previousState].
  repeat split; try congruence. lia.
Qed.

Lemma any_key_turns_off_witness :
  exists w',
    handleIRRemote 0 (Some IR_BUTTON_ON) silent
      (set_cloudConnected true (set_currentState STATE_ACTIVE initialWorld)) = Some w'
    /\ currentState w' = STATE_OFF
    /\ cloudConnected w' = false.
Proof.
  destruct (any_key_turns_off 0 IR_BUTTON_ON silent
              (set_cloudConnected true (set_currentState STATE_ACTIVE initialWorld)))
    as (w' & E & Hs & _ & Hc & _).
  - discriminate.
  - discriminate.
  - exists w'. auto.
Defined.

(** ** The sensor-driven update at the edges *)

(** X4. [updateState] does nothing at all in Off, whatever the sample -- a
    hazardous gas level included.  In a state outside Off, Idle, Active and
    Alert (Error is one) it does nothing either unless the gas level is
    hazardous, and then it enters Alert: the sensor update has no way back
    from Error to Active, but a gas hazard overrides Error. *)
Theorem updateState_off_and_error : forall (d : SensorData) (w : World),
  (currentState w = STATE_OFF -> updateState d w = w)
  /\ (~ In (currentState w) [STATE_OFF; STATE_IDLE; STATE_ACTIVE; STATE_ALERT] ->
      (isHazardousGas (gasLevel d) = false -> updateState d w = w)
      /\ (isHazardousGas (gasLevel d) = true ->
          currentState (updateState d w) = STATE_ALERT
          /\ previousState (updateState d w) = currentState w)).
Proof.
  intros d w. split.
  - intros E. unfold updateState. rewrite E. reflexivity.
  - intros Hout.
    assert (H0 : currentState w <> STATE_OFF)
      by (intros E; apply Hout; rewrite E; simpl; auto).
    assert (H1 : currentState w <> STATE_IDLE)
      by (intros E; apply Hout; rewrite E; simpl; auto).
    assert (H2 : currentState w <> STATE_ACTIVE)
      by (intros E; apply Hout; rewrite E; simpl; auto).
    assert (H3 : currentState w <> STATE_ALERT)
      by (intros E; apply Hout; rewrite E; simpl; auto 6).
    unfold updateState.
    destruct (Z.eqb_spec (currentState w) STATE_OFF); [contradiction|].
    destruct (Z.eqb_spec (currentState w) STATE_IDLE); [contradiction|].
    destruct (Z.eqb_spec (currentState w) STATE_ACTIVE); [contradiction|].
    destruct (Z.eqb_spec (currentState w) STATE_ALERT); [contradiction|].
    split; intros Hg; rewrite Hg.
    + reflexivity.
    + split; [apply currentState_setState|].
      apply previousState_setState. auto.
Qed.

Lemma updateState_off_and_error_witness :
  updateState (set_gasLevel 900 zeroSensorData) initialWorld = initialWorld
  /\ currentState
       (updateState (set_gasLevel 900 zeroSensorData)
          (set_currentState STATE_ERROR initialWorld)) = STATE_ALERT.
Proof.
  split.
  - apply (proj1 (updateState_off_and_error (set_gasLevel 900 zeroSensorData)
                    initialWorld)).
    reflexivity.
  - apply (proj2 (updateState_off_and_error (set_gasLevel 900 zeroSensorData)
                    (set_currentState STATE_ERROR initialWorld))).
    + simpl. unfold STATE_ERROR, STATE_OFF, STATE_IDLE, STATE_ACTIVE, STATE_ALERT.
      intros [H|[H|[H|[H|[ ]]]]]; discriminate.
    + reflexivity.
Defined.

(** ** What each part of [loop] may change

    Each part of the loop body is an update of a few globals; the lemmas
    below name them, so that every other global is seen to be kept. *)


Ltac norm_world :=
  cbv beta iota zeta delta
    [seq skip times emit delay receive
     Serial_print Serial_println lcd_backlight lcd_clear lcd_setCursor lcd_print
     digitalWrite analogWrite tone noTone
     setRGBColor rgbOff rgbGreen rgbBlue rgbRed rgbYellow rgbPurple rgbOrange
     rgbCyan rgbDeepBlue beepShort beepReady beepIR beepStateChange beepObstacle
     beepEnvironmental beepHazard displayReady displayOff displayAlert
     displayError motorOn motorOff onCurrentData
     set_currentState set_previousState set_receivedTSData set_cloudConnected
     set_lastUpdateTime set_lastDisplayUpdate set_lastDHTUpdate set_displayMode
     set_currentData set_loopCount set_receivedString set_newData
     set_tsDisplayStep set_clock set_serialIn set_trace
     currentState previousState receivedTSData cloudConnected lastUpdateTime
     lastDisplayUpdate lastDHTUpdate displayMode currentData loopCount
     receivedString newData tsDisplayStep clock serialIn trace].

Tactic Notation "shape" integer(n) := norm_world; do n eexists; reflexivity.

Lemma setState_shape : forall s w,
  exists c t s' p',
    setState s w
    = set_trace t (set_clock c (set_currentState s' (set_previousState p' w))).
Proof.
  intros s w. destruct (Z.eq_dec s (currentState w)) as [E|Hne].
  - rewrite setState_same by exact E.
    exists (clock w), (trace w), (currentState w), (previousState w).
    destruct w; reflexivity.
  - destruct (setState_changed s w Hne) as (c & t & ->). eauto.
Qed.

Lemma updateState_shape : forall d w,
  exists c t s' p',
    updateState d w
    = set_trace t (set_clock c (set_currentState s' (set_previousState p' w))).
Proof.
  intros d w. unfold updateState.
  assert (Hid : exists c t s' p',
             w = set_trace t (set_clock c (set_currentState s' (set_previousState p' w)))).
  { exists (clock w), (trace w), (currentState w), (previousState w).
    destruct w; reflexivity. }
  repeat match goal with
         | |- context [if ?b then _ else _] => destruct b
         end; try exact Hid; apply setState_shape.
Qed.

Lemma connectLoop_shape : forall fuel arrive i startTime w w',
  connectLoop fuel arrive i startTime w = Some w' ->
  exists c t si b,
    w' = set_trace t (set_clock c (set_serialIn si (set_cloudConnected b w))).
Proof.
  induction fuel as [|fuel IH]; intros arrive i startTime w w' H;
    rewrite connectLoop_unfold in H;
    destruct (wrap32u (millis w - startTime) <? CLOUD_TIMEOUT);
    try discriminate;
    try (injection H as <-; destruct w; shape 4).
  cbv zeta in H.
  assert (Hread : forall x, exists c si,
             snd (Serial_readStringUntil "010" x) = set_clock c (set_serialIn si x)).
  { intros x. unfold Serial_readStringUntil.
    destruct (split_at "010" (serialIn x)) as [[line rest]|]; cbn [snd].
    - exists (clock x), rest. destruct x; reflexivity.
    - exists (clock x + STREAM_TIMEOUT), "". destruct x; reflexivity. }
  destruct (Serial_available (receive (arrive i) w)).
  - specialize (Hread (receive (arrive i) w)).
    destruct (Serial_readStringUntil "010" (receive (arrive i) w)) as [response w2].
    cbn [snd] in Hread. destruct Hread as (c2 & si2 & ->).
    destruct (String.eqb response "CLOUD_OK");
      [|destruct (String.eqb response "CLOUD_FAIL")].
    + injection H as <-. destruct w; shape 4.
    + injection H as <-. destruct w; shape 4.
    + apply IH in H. destruct H as (c & t & si & b & ->).
      destruct w; shape 4.
  - apply IH in H. destruct H as (c & t & si & b & ->).
    destruct w; shape 4.
Qed.

Lemma handlerStep_refl : forall w, handlerStep w w.
Proof.
  intros w. exists (clock w), (trace w), (serialIn w), (cloudConnected w),
    (currentState w), (previousState w). destruct w; reflexivity.
Qed.

Lemma handlerStep_trans : forall w1 w2 w3,
  handlerStep w1 w2 -> handlerStep w2 w3 -> handlerStep w1 w3.
Proof.
  intros w1 w2 w3 (c & t & si & b & s & p & ->) (c' & t' & si' & b' & s' & p' & ->).
  exists c', t', si', b', s', p'. destruct w1; reflexivity.
Qed.

Lemma handlerStep_outputs : forall a w, outputs_only a -> handlerStep w (a w).
Proof.
  intros a w H. destruct (H w) as (c & t & ->).
  exists c, t, (serialIn w), (cloudConnected w), (currentState w), (previousState w).
  destruct w; reflexivity.
Qed.

Lemma handlerStep_setState : forall s w, handlerStep w (setState s w).
Proof.
  intros s w. destruct (setState_shape s w) as (c & t & s' & p' & ->).
  exists c, t, (serialIn w), (cloudConnected w), s', p'.
  destruct w; reflexivity.
Qed.

Lemma handlerStep_cloudConnected : forall b w, handlerStep w (set_cloudConnected b w).
Proof.
  intros b w.
  exists (clock w), (trace w), (serialIn w), b, (currentState w), (previousState w).
  destruct w; reflexivity.
Qed.

Lemma handlerStep_connectToCloud : forall fuel arrive w w',
  connectToCloud fuel arrive w = Some w' -> handlerStep w w'.
Proof.
  intros fuel arrive w w' H. rewrite connectToCloud_unfold in H.
  apply connectLoop_shape in H. destruct H as (c & t & si & b & ->).
  eapply handlerStep_trans.
  - apply (handlerStep_outputs
             (lcd_clear ;; lcd_print "Connecting to" ;; lcd_setCursor 0 1 ;;
              lcd_print "cloud..." ;; Serial_println "CONNECT_CLOUD")). outputs.
  - match goal with
    | |- handlerStep ?x _ =>
        exists c, t, si, b, (currentState x), (previousState x);
        generalize x; intros y; destruct y; reflexivity
    end.
Qed.

Lemma handleIRRemote_shape : forall fuel ir arrive w w',
  handleIRRemote fuel ir arrive w = Some w' -> handlerStep w w'.
Proof.
  intros fuel [code|] arrive w w' H; unfold handleIRRemote in H;
    [|injection H as <-; apply handlerStep_refl].
  destruct (negb (code =? 0));
    [|injection H as <-; apply (handlerStep_outputs (emit IrResume)); outputs].
  assert (H0 : handlerStep w
            ((Serial_println "=== IR SIGNAL DETECTED ===" ;;
              Serial_print "IR Code received: 0x" ;;
              Serial_println (printNumber code 16) ;; beepIR) w))
    by (apply handlerStep_outputs; outputs).
  match type of H0 with
  | handlerStep w ?x => set (w0 := x) in *; clearbody w0
  end.
  destruct (currentState w0 =? STATE_OFF).
  - match type of H with
    | context [connectToCloud fuel arrive ?x] =>
        assert (H1 : handlerStep w0 x);
        [|destruct (connectToCloud fuel arrive x) as [w3|] eqn:E3; [|discriminate]]
    end.
    + unfold seq.
      eapply handlerStep_trans;
        [apply (handlerStep_outputs (Serial_println "IR: Turning UAV ON")); outputs|].
      eapply handlerStep_trans; [apply handlerStep_setState|].
      eapply handlerStep_trans;
        [apply (handlerStep_outputs (delay 1000)); outputs|].
      apply handlerStep_setState.
    + injection H as <-.
      eapply handlerStep_trans; [exact H0|].
      eapply handlerStep_trans; [exact H1|].
      eapply handlerStep_trans; [apply (handlerStep_connectToCloud _ _ _ _ E3)|].
      apply (handlerStep_outputs (emit IrResume)); outputs.
  - injection H as <-.
    eapply handlerStep_trans; [exact H0|]. unfold seq.
    eapply handlerStep_trans;
      [apply (handlerStep_outputs (Serial_println "IR: Turning UAV OFF")); outputs|].
    eapply handlerStep_trans; [apply handlerStep_cloudConnected|].
    eapply handlerStep_trans; [apply handlerStep_setState|].
    apply (handlerStep_outputs (emit IrResume)); outputs.
Qed.

Lemma readThingSpeakData_shape : forall w,
  exists si rs nd ts,
    readThingSpeakData w
    = set_newData nd (set_receivedString rs (set_receivedTSData ts (set_serialIn si w))).
Proof.
  intros w. unfold readThingSpeakData.
  destruct (receiveLine (serialIn w) (receivedString w)) as [[received found] rest].
  destruct found; cbn [newData set_newData set_receivedString set_serialIn].
  - destruct w; shape 4.
  - destruct (newData w) eqn:En.
    + destruct w; shape 4.
    + exists rest, received, false, (receivedTSData w).
      destruct w; cbn in En |- *; rewrite En; reflexivity.
Qed.

Lemma reader_shapes : forall raw duration w,
  (exists t, snd (readTemperature raw w) = set_trace t w)
  /\ (exists t, snd (readHumidity raw w) = set_trace t w)
  /\ (exists t, snd (readDistance duration w) = set_trace t w).
Proof.
  intros raw duration w. unfold readTemperature, readHumidity, readDistance.
  repeat split;
    match goal with |- context [if ?b then _ else _] => destruct b end;
    cbn [snd]; destruct w; eexists; reflexivity.
Qed.

Lemma sensorTick_shape : forall inp currentTime w,
  exists c t D,
    sensorTick inp currentTime w
    = set_trace t (set_clock c (set_currentData D (set_lastDHTUpdate currentTime w)))
    /\ gasLevel D = gasLevel (currentData w)
    /\ valid D = valid (currentData w)
    /\ temperature D = fst (readTemperature (dhtTemperature inp) w)
    /\ humidity D = fst (readHumidity (dhtHumidity inp) w).
Proof.
  intros inp currentTime w. unfold sensorTick.
  destruct (reader_shapes (dhtTemperature inp) 0 (set_lastDHTUpdate currentTime w))
    as ((t1 & E1) & _ & _).
  assert (Ft : fst (readTemperature (dhtTemperature inp) (set_lastDHTUpdate currentTime w))
               = fst (readTemperature (dhtTemperature inp) w))
    by (unfold readTemperature; destruct (isnan (dhtTemperature inp)); reflexivity).
  destruct (readTemperature (dhtTemperature inp) (set_lastDHTUpdate currentTime w))
    as [tv w1]. cbn [snd] in E1. cbn [fst] in Ft. subst w1.
  match goal with
  | |- context [readHumidity (dhtHumidity inp) ?x] =>
      destruct (reader_shapes (dhtHumidity inp) 0 x) as (_ & (t2 & E2) & _);
      assert (Fh : fst (readHumidity (dhtHumidity inp) x)
                   = fst (readHumidity (dhtHumidity inp) w))
        by (unfold readHumidity; destruct (isnan (dhtHumidity inp)); reflexivity);
      destruct (readHumidity (dhtHumidity inp) x) as [hv w2]
  end.
  cbn [snd] in E2. cbn [fst] in Fh. subst w2.
  match goal with
  | |- context [readDistance (echoDuration inp) ?x] =>
      destruct (reader_shapes (dhtHumidity inp) (echoDuration inp) x) as (_ & _ & (t3 & E3));
      destruct (readDistance (echoDuration inp) x) as [dv w3]
  end.
  cbn [snd] in E3. subst w3.
  unfold environmentalDetection.
  match goal with
  | |- context [announceHazard ?h ?d ?x] =>
      destruct (outputs_only_announceHazard h d x) as (c4 & t4 & E4); rewrite E4
  end.
  subst tv hv.
  destruct w; norm_world; do 3 eexists; split; [reflexivity|repeat split].
Qed.

Lemma telemetryTick_shape : forall inp currentTime w,
  exists c t s p,
    telemetryTick inp currentTime w
    = set_trace t (set_clock c (set_currentState s (set_previousState p
        (set_currentData (set_gasLevel (analogMQ2 inp) (currentData w))
           (set_lastUpdateTime currentTime w))))).
Proof.
  intros inp currentTime w. unfold telemetryTick, readGasLevel.
  set (w1 := onCurrentData (set_gasLevel (analogMQ2 inp))
               (set_lastUpdateTime currentTime w)).
  assert (E1 : w1 = set_currentData (set_gasLevel (analogMQ2 inp) (currentData w))
                      (set_lastUpdateTime currentTime w)) by reflexivity.
  destruct (updateState_shape (currentData w1) w1) as (c2 & t2 & s2 & p2 & E2).
  rewrite E2. clear E2.
  match goal with
  | |- context [sendDataToSerial ?d ?x] =>
      destruct (outputs_only_sendDataToSerial d x) as (c3 & t3 & E3); rewrite E3; clear E3
  end.
  assert (Hb : outputs_only (rgbBlue ;; delay 200)) by outputs.
  match goal with
  | |- context [(rgbBlue ;; delay 200) ?x] =>
      destruct (Hb x) as (c4 & t4 & E4); rewrite E4; clear E4
  end.
  assert (Hg : outputs_only rgbGreen) by outputs.
  assert (Hr : outputs_only rgbRed) by outputs.
  repeat match goal with
         | |- context [if ?b then _ else _] => destruct b
         end;
    try match goal with
        | |- context [rgbGreen ?x] =>
            destruct (Hg x) as (c5 & t5 & E5); rewrite E5; clear E5
        | |- context [rgbRed ?x] =>
            destruct (Hr x) as (c5 & t5 & E5); rewrite E5; clear E5
        end;
    rewrite E1; clear; destruct w; norm_world; do 4 eexists; reflexivity.
Qed.

Lemma displaySensorData_shape : forall d m w,
  exists t, displaySensorData d m w = set_trace t w.
Proof.
  intros d m w. unfold displaySensorData.
  repeat match goal with
         | |- context [match ?x with _ => _ end] => destruct x
         end; destruct w; norm_world; eexists; reflexivity.
Qed.

Lemma displayThingSpeakData_shape : forall mode w,
  exists t ts,
    displayThingSpeakData mode w = set_trace t (set_tsDisplayStep ts w)
    /\ (0 <= tsDisplayStep w <= 3 -> 0 <= ts <= 3).
Proof.
  intros mode w. unfold displayThingSpeakData. cbv zeta.
  set (d := receivedTSData w). clearbody d.
  assert (H1 : exists t1,
    (if tsDisplayStep ((lcd_clear ;; lcd_setCursor 0 0) w) =? 0
     then
      (lcd_print "Cloud T/H: " ;; lcd_print (printFloat (temp d) 1) ;;
       lcd_setCursor 0 1 ;; lcd_print (printFloat (humid d) 0) ;; lcd_print "%")
        ((lcd_clear ;; lcd_setCursor 0 0) w)
     else
      if tsDisplayStep ((lcd_clear ;; lcd_setCursor 0 0) w) =? 1
      then
       (lcd_print "Cloud Gas: " ;; lcd_print (printInt (gas d)) ;;
        lcd_setCursor 0 1 ;; lcd_print "Dist: " ;;
        lcd_print (printInt (dist d)) ;; lcd_print "cm")
         ((lcd_clear ;; lcd_setCursor 0 0) w)
      else
       if tsDisplayStep ((lcd_clear ;; lcd_setCursor 0 0) w) =? 2
       then
        (lcd_print "Cloud P/R: " ;; lcd_print (printFloat (ts_pitch d) 0) ;;
         lcd_setCursor 0 1 ;; lcd_print (printFloat (ts_roll d) 0) ;;
         lcd_print " deg") ((lcd_clear ;; lcd_setCursor 0 0) w)
       else
        if tsDisplayStep ((lcd_clear ;; lcd_setCursor 0 0) w) =? 3
        then
         (lcd_print "Cloud Yaw: " ;; lcd_print (printFloat (ts_yaw d) 0) ;;
          lcd_setCursor 0 1 ;; lcd_print "State: " ;;
          lcd_print (printInt (state d))) ((lcd_clear ;; lcd_setCursor 0 0) w)
        else (lcd_clear ;; lcd_setCursor 0 0) w) = set_trace t1 w).
  { repeat match goal with
           | |- context [if ?b then _ else _] => destruct b
           end; destruct w; norm_world; eexists; reflexivity. }
  destruct H1 as (t1 & ->).
  change (tsDisplayStep (set_trace t1 w)) with (tsDisplayStep w).
  change (tsDisplayStep (set_tsDisplayStep (tsDisplayStep w + 1) (set_trace t1 w)))
    with (tsDisplayStep w + 1).
  destruct (Z.ltb_spec 3 (tsDisplayStep w + 1)).
  - exists t1, 0. split; [destruct w; reflexivity|lia].
  - exists t1, (tsDisplayStep w + 1). split; [destruct w; reflexivity|lia].
Qed.

Lemma displayTick_shape : forall currentTime w,
  exists t dm ts,
    displayTick currentTime w
    = set_trace t (set_tsDisplayStep ts (set_displayMode dm
        (set_lastDisplayUpdate currentTime w)))
    /\ (0 <= displayMode w <= 5 -> 0 <= dm <= 5)
    /\ (0 <= tsDisplayStep w <= 3 -> 0 <= ts <= 3).
Proof.
  intros currentTime w. unfold displayTick.
  destruct (currentState (set_lastDisplayUpdate currentTime w) =? STATE_ACTIVE).
  - cbv zeta.
    change (displayMode (set_displayMode (displayMode (set_lastDisplayUpdate currentTime w) + 1)
                           (set_lastDisplayUpdate currentTime w)))
      with (displayMode w + 1).
    change (displayMode (set_lastDisplayUpdate currentTime w)) with (displayMode w).
    set (dm := if THINGSPEAK_MODE <? displayMode w + 1 then 0 else displayMode w + 1).
    assert (Hdm : 0 <= displayMode w <= 5 -> 0 <= dm <= 5).
    { unfold dm, THINGSPEAK_MODE.
      destruct (Z.ltb_spec 5 (displayMode w + 1)); lia. }
    match goal with
    | |- context [if THINGSPEAK_MODE <? displayMode w + 1 then ?a else ?b] =>
        assert (E1 : (if THINGSPEAK_MODE <? displayMode w + 1 then a else b)
                     = set_displayMode dm (set_lastDisplayUpdate currentTime w))
          by (unfold dm; destruct (THINGSPEAK_MODE <? displayMode w + 1);
              destruct w; reflexivity);
        rewrite E1; clear E1
    end.
    clearbody dm.
    match goal with
    | |- context [if ?b then _ else _] => destruct b
    end.
    + match goal with
      | |- context [displayThingSpeakData 0 ?x] =>
          destruct (displayThingSpeakData_shape 0 x) as (t & ts & E & Hts); rewrite E
      end.
      exists t, dm, ts. split; [reflexivity|]. split; [exact Hdm|exact Hts].
    + match goal with
      | |- context [displaySensorData ?d ?m ?x] =>
          destruct (displaySensorData_shape d m x) as (t & E); rewrite E
      end.
      exists t, dm, (tsDisplayStep w).
      split; [destruct w; reflexivity|]. split; [exact Hdm|tauto].
  - exists (trace w), (displayMode w), (tsDisplayStep w).
    split; [destruct w; reflexivity|]. tauto.
Qed.

(** ** Passes of [loop] *)

(** A property kept by each part of the loop body is kept by [loop]. *)
Lemma loop_preserves : forall (P : World -> Prop) (fuel : nat) (inp : Inputs),
  (forall w v, P w -> P (set_loopCount v w)) ->
  (forall a w, outputs_only a -> P w -> P (a w)) ->
  (forall s w, P w -> P (receive s w)) ->
  (forall w w',
     handleIRRemote fuel (irDecode inp) (handshake inp) w = Some w' -> P w -> P w') ->
  (forall w, P w -> P (readThingSpeakData w)) ->
  (forall t w, P w -> P (sensorTick inp t w)) ->
  (forall t w, P w -> P (telemetryTick inp t w)) ->
  (forall t w, P w -> P (displayTick t w)) ->
  forall w w', loop fuel inp w = Some w' -> P w -> P w'.
Proof.
  intros P fuel inp Hcount Hout Hrecv Hir Hts Hsens Htel Hdisp w w' H Hw.
  unfold loop in H.
  match type of H with
  | context [handleIRRemote fuel (irDecode inp) (handshake inp) ?x] =>
      set (w0 := x) in H; assert (H0 : P w0); [|clearbody w0]
  end.
  { unfold w0. apply Hrecv.
    match goal with
    | |- context [if ?b then _ else _] => destruct b
    end.
    - apply Hout; [outputs|]. apply Hcount. exact Hw.
    - apply Hcount. exact Hw. }
  destruct (handleIRRemote fuel (irDecode inp) (handshake inp) w0) as [w1|] eqn:Eir;
    [|discriminate].
  assert (H1 : P w1) by (apply (Hir _ _ Eir H0)).
  clear Eir H0 w0 Hw. injection H as <-.
  apply (Hout (delay 50)); [outputs|].
  destruct (negb (currentState w1 =? STATE_OFF)); [|exact H1].
  set (currentTime := millis w1).
  set (w2 := if cloudConnected w1 then readThingSpeakData w1 else w1).
  assert (H2 : P w2) by (unfold w2; destruct (cloudConnected w1); auto).
  clearbody w2 currentTime.
  set (w3 := if 2000 <=? wrap32u (currentTime - lastDHTUpdate w2)
             then sensorTick inp currentTime w2 else w2).
  assert (H3 : P w3)
    by (unfold w3; destruct (2000 <=? wrap32u (currentTime - lastDHTUpdate w2)); auto).
  clearbody w3.
  set (w4 := if UPDATE_INTERVAL <=? wrap32u (currentTime - lastUpdateTime w3)
             then telemetryTick inp currentTime w3 else w3).
  assert (H4 : P w4)
    by (unfold w4;
        destruct (UPDATE_INTERVAL <=? wrap32u (currentTime - lastUpdateTime w3)); auto).
  clearbody w4.
  destruct (10000 <=? wrap32u (currentTime - lastDisplayUpdate w4)); auto.
Qed.

Lemma keepAccepted_snoc : forall s c,
  keepAccepted s = s -> accepted c = true ->
  keepAccepted (s ++ String c EmptyString) = s ++ String c EmptyString.
Proof.
  induction s as [|x s IH]; intros c Hs Hc; simpl.
  - rewrite Hc. reflexivity.
  - simpl in Hs. destruct (accepted x) eqn:Ex.
    + injection Hs as Hs. rewrite (IH c Hs Hc). reflexivity.
    + exfalso.
      assert (Hlen : forall t, (String.length (keepAccepted t) <= String.length t)%nat).
      { induction t as [|y t IHt]; simpl; [lia|].
        destruct (accepted y); simpl; lia. }
      specialize (Hlen s). rewrite Hs in Hlen. simpl in Hlen. lia.
Qed.

Lemma receiveLine_accepted : forall buf received,
  keepAccepted received = received ->
  keepAccepted (fst (fst (receiveLine buf received))) = fst (fst (receiveLine buf received)).
Proof.
  induction buf as [|c buf IH]; intros received Hr; simpl.
  - exact Hr.
  - destruct (Ascii.eqb c "010"); [exact Hr|].
    destruct (accepted c) eqn:Ec.
    + apply IH. apply keepAccepted_snoc; assumption.
    + apply IH. exact Hr.
Qed.

Lemma housekeeping_readThingSpeakData : forall w,
  housekeeping w -> housekeeping (readThingSpeakData w).
Proof.
  intros w (Hv & Hd & Ht & Hn & Hr). unfold housekeeping, readThingSpeakData.
  pose proof (receiveLine_accepted (serialIn w) (receivedString w) Hr) as Ha.
  destruct (receiveLine (serialIn w) (receivedString w)) as [[received found] rest].
  cbn [fst] in Ha.
  destruct found; cbn [newData set_newData set_receivedString set_serialIn].
  - repeat split; assumption || apply Hd || apply Ht.
  - rewrite Hn. repeat split; assumption || apply Hd || apply Ht.
Qed.

Lemma housekeeping_loop : forall fuel inp w w',
  loop fuel inp w = Some w' -> housekeeping w -> housekeeping w'.
Proof.
  intros fuel inp. apply loop_preserves.
  - intros w v H. exact H.
  - intros a w Ha H. destruct (Ha w) as (c & t & ->). exact H.
  - intros s w H. exact H.
  - intros w w' E H. apply handleIRRemote_shape in E.
    destruct E as (c & t & si & b & s & p & ->). exact H.
  - apply housekeeping_readThingSpeakData.
  - intros t w (Hv & Hd & Ht & Hn & Hr).
    destruct (sensorTick_shape inp t w) as (c & tr & D & -> & _ & HD & _).
    repeat split; try assumption; try apply Hd; try apply Ht.
    cbn. rewrite HD. exact Hv.
  - intros t w H. destruct (telemetryTick_shape inp t w) as (c & tr & s & p & ->).
    exact H.
  - intros t w (Hv & Hd & Ht & Hn & Hr).
    destruct (displayTick_shape t w) as (tr & dm & ts & -> & Hdm & Hts).
    repeat split; try assumption; cbn; try apply (Hdm Hd); apply (Hts Ht).
Qed.

Lemma housekeeping_reachable : forall w, reachable w -> housekeeping w.
Proof.
  intros w Hr. induction Hr as [|fuel inp w w' Hr IH Hstep].
  - repeat split; cbn; try reflexivity; lia.
  - apply (housekeeping_loop fuel inp w w' Hstep IH).
Qed.

(** X5. The [valid] flag of the current sample is false in every world the
    sketch can reach: [loop] fills [currentData] field by field and never
    through [readAllSensors], the only code that computes the flag. *)
Theorem valid_flag_never_set : forall w : World,
  reachable w -> valid (currentData w) = false.
Proof. intros w Hr. apply (housekeeping_reachable w Hr). Qed.

Lemma valid_flag_never_set_witness :
  exists w',
    loop 50 keyPressOn initialWorld = Some w'
    /\ valid (currentData w') = false.
Proof.
  destruct (loop 50 keyPressOn initialWorld) as [w'|] eqn:E.
  - exists w'. split; [reflexivity|].
    apply (valid_flag_never_set w'
             (reachable_loop 50 keyPressOn initialWorld w' reachable_start E)).
  - vm_compute in E. discriminate.
Defined.

(** X6. The page counters stay in range in every reachable world:
    [displayMode] between 0 and 5 (so that [displayMode % 4] is a page
    number) and the cloud page step [tsDisplayStep] between 0 and 3. *)
Theorem display_counters_in_range : forall w : World,
  reachable w ->
  0 <= displayMode w <= 5 /\ 0 <= tsDisplayStep w <= 3.
Proof.
  intros w Hr. destruct (housekeeping_reachable w Hr) as (_ & Hd & Ht & _).
  split; assumption.
Qed.

Lemma display_counters_in_range_witness :
  exists w',
    loop 50 keyPressOn initialWorld = Some w'
    /\ 0 <= displayMode w' <= 5.
Proof.
  destruct (loop 50 keyPressOn initialWorld) as [w'|] eqn:E.
  - exists w'. split; [reflexivity|].
    apply (display_counters_in_range w'
             (reachable_loop 50 keyPressOn initialWorld w' reachable_start E)).
  - vm_compute in E. discriminate.
Defined.

(** X7. Between passes of [loop] the receive side is at rest: [newData] is
    false (a completed line is parsed in the pass that completes it), and
    the pending text [receivedString] holds only digits, points, minus signs
    and field separators. *)
Theorem receive_state_between_passes : forall w : World,
  reachable w ->
  newData w = false /\ keepAccepted (receivedString w) = receivedString w.
Proof.
  intros w Hr. destruct (housekeeping_reachable w Hr) as (_ & _ & _ & Hn & Hs).
  split; assumption.
Qed.

Lemma receive_state_between_passes_witness :
  exists w',
    loop 50 keyPressOn initialWorld = Some w'
    /\ newData w' = false.
Proof.
  destruct (loop 50 keyPressOn initialWorld) as [w'|] eqn:E.
  - exists w'. split; [reflexivity|].
    apply (receive_state_between_passes w'
             (reachable_loop 50 keyPressOn initialWorld w' reachable_start E)).
  - vm_compute in E. discriminate.
Defined.

(** ** Off and the cloud link *)

Lemma updateState_not_off : forall d w,
  currentState (updateState d w) = STATE_OFF -> currentState w = STATE_OFF.
Proof.
  intros d w. unfold updateState.
  destruct (Z.eqb_spec (currentState w) STATE_OFF) as [E|Hne]; [auto|].
  destruct (isHazardousGas (gasLevel d)).
  - rewrite currentState_setState. discriminate.
  - destruct ((currentState w =? STATE_IDLE) || (currentState w =? STATE_ACTIVE)
              || (currentState w =? STATE_ALERT)); [|auto].
    destruct (negb (currentState w =? STATE_ACTIVE)); [|auto].
    rewrite currentState_setState. discriminate.
Qed.

Lemma updateState_state_only : forall d w d' w',
  currentState w' = currentState w ->
  isHazardousGas (gasLevel d') = isHazardousGas (gasLevel d) ->
  currentState (updateState d' w') = currentState (updateState d w).
Proof.
  intros d w d' w' Hs Hg. unfold updateState. rewrite Hs, Hg.
  destruct (currentState w =? STATE_OFF); [exact Hs|].
  destruct (isHazardousGas (gasLevel d)).
  - rewrite !currentState_setState. reflexivity.
  - destruct ((currentState w =? STATE_IDLE) || (currentState w =? STATE_ACTIVE)
              || (currentState w =? STATE_ALERT)); [|exact Hs].
    destruct (negb (currentState w =? STATE_ACTIVE)); [|exact Hs].
    rewrite !currentState_setState. reflexivity.
Qed.

Lemma telemetryTick_state : forall inp currentTime w,
  currentState (telemetryTick inp currentTime w)
  = currentState (updateState (set_gasLevel (analogMQ2 inp) (currentData w)) w).
Proof.
  intros inp currentTime w. unfold telemetryTick, readGasLevel.
  set (w1 := onCurrentData (set_gasLevel (analogMQ2 inp))
               (set_lastUpdateTime currentTime w)).
  assert (E : currentState (updateState (currentData w1) w1)
              = currentState (updateState (set_gasLevel (analogMQ2 inp) (currentData w)) w)).
  { apply updateState_state_only; reflexivity. }
  rewrite <- E. clear E.
  set (w2 := updateState (currentData w1) w1). clearbody w2.
  set (w3 := (rgbBlue ;; delay 200) (sendDataToSerial (currentData w2) w2)).
  assert (E3 : currentState w3 = currentState w2).
  { unfold w3. rewrite outputs_only_currentState by outputs.
    apply outputs_only_currentState. apply outputs_only_sendDataToSerial. }
  clearbody w3.
  repeat match goal with
         | |- context [if ?b then _ else _] => destruct b
         end; try rewrite outputs_only_currentState by outputs; exact E3.
Qed.

Lemma cloudConnected_emit : forall e w, cloudConnected (emit e w) = cloudConnected w.
Proof. reflexivity. Qed.

Lemma offMeansDisconnected_handleIRRemote : forall fuel ir arrive w w',
  handleIRRemote fuel ir arrive w = Some w' ->
  offMeansDisconnected w -> offMeansDisconnected w'.
Proof.
  intros fuel [code|] arrive w w' H Hw; unfold handleIRRemote in H;
    [|injection H as <-; exact Hw].
  destruct (negb (code =? 0)); [|injection H as <-; exact Hw].
  match type of H with
  | context [if currentState ?x =? STATE_OFF then _ else _] =>
      set (w0 := x) in *; clearbody w0
  end.
  destruct (currentState w0 =? STATE_OFF).
  - match type of H with
    | context [connectToCloud fuel arrive ?x] =>
        assert (Hx : currentState x = STATE_ACTIVE)
          by (unfold seq; apply currentState_setState);
        set (w2 := x) in *; clearbody w2;
        destruct (connectToCloud fuel arrive w2) as [w3|] eqn:E; [|discriminate]
    end.
    injection H as <-. apply connectToCloud_keeps_machine in E. destruct E as [E _].
    intros Hoff. exfalso. rewrite currentState_emit, E, Hx in Hoff. discriminate.
  - match type of H with
    | context [emit IrResume ?x] =>
        assert (Hx : cloudConnected x = false)
          by (unfold seq; rewrite cloudConnected_setState; reflexivity);
        set (w2 := x) in *; clearbody w2
    end.
    injection H as <-. intros _. rewrite cloudConnected_emit. exact Hx.
Qed.

Lemma offMeansDisconnected_loop : forall fuel inp w w',
  loop fuel inp w = Some w' -> offMeansDisconnected w -> offMeansDisconnected w'.
Proof.
  intros fuel inp. apply loop_preserves.
  - intros w v H. exact H.
  - intros a w Ha H. destruct (Ha w) as (c & t & ->). exact H.
  - intros s w H. exact H.
  - intros w w'. apply offMeansDisconnected_handleIRRemote.
  - intros w H. destruct (readThingSpeakData_shape w) as (si & rs & nd & ts & ->).
    exact H.
  - intros t w H. destruct (sensorTick_shape inp t w) as (c & tr & D & -> & _).
    exact H.
  - intros t w H Hoff. rewrite telemetryTick_state in Hoff.
    apply updateState_not_off in Hoff.
    destruct (telemetryTick_shape inp t w) as (c & tr & s & p & ->).
    apply H. exact Hoff.
  - intros t w H. destruct (displayTick_shape t w) as (tr & dm & ts & -> & _).
    exact H.
Qed.

(** X8. In every reachable world in which the UAV is off, the cloud link is
    marked down: [cloudConnected] can be true only while the state is not
    Off, so inbound cloud records are neither read nor shown in Off. *)
Theorem off_means_disconnected : forall w : World,
  reachable w -> currentState w = STATE_OFF -> cloudConnected w = false.
Proof.
  intros w Hr. induction Hr as [|fuel inp w w' Hr IH Hstep].
  - reflexivity.
  - apply (offMeansDisconnected_loop fuel inp w w' Hstep IH).
Qed.

Lemma off_means_disconnected_witness :
  exists w1 w2,
    loop 50 keyPressOnAnswered initialWorld = Some w1
    /\ cloudConnected w1 = true
    /\ loop 50 keyPressOff w1 = Some w2
    /\ currentState w2 = STATE_OFF
    /\ cloudConnected w2 = false.
Proof.
  assert (H : option_map
                (fun w1 => (cloudConnected w1,
                            option_map currentState (loop 50 keyPressOff w1)))
                (loop 50 keyPressOnAnswered initialWorld)
              = Some (true, Some STATE_OFF)) by (vm_compute; reflexivity).
  destruct (loop 50 keyPressOnAnswered initialWorld) as [w1|] eqn:E1;
    [|discriminate H].
  cbn [option_map] in H. injection H as Hc Hs.
  destruct (loop 50 keyPressOff w1) as [w2|] eqn:E2; [|discriminate Hs].
  cbn [option_map] in Hs. injection Hs as Hs.
  exists w1, w2. repeat split; try assumption.
  apply (off_means_disconnected w2
           (reachable_loop 50 keyPressOff w1 w2
              (reachable_loop 50 keyPressOnAnswered initialWorld w1 reachable_start E1)
              E2)).
  exact Hs.
Defined.

Lemma handleIRRemote_noKey : forall fuel inp w,
  noKey inp ->
  exists t,
    handleIRRemote fuel (irDecode inp) (handshake inp) w = Some (set_trace (trace w ++ t)%list w)
    /\ (t = [] \/ t = [IrResume]).
Proof.
  intros fuel inp w [E|E]; rewrite E; unfold handleIRRemote.
  - exists []. split; [|auto]. rewrite app_nil_r. destruct w; reflexivity.
  - exists [IrResume]. split; [|auto]. reflexivity.
Qed.

(** X9. A pass of [loop] in which no key is pressed always completes, and
    neither leaves Off nor enters it: sensor readings and serial input alone
    never switch the UAV on or off. *)
Theorem no_key_keeps_off_and_on : forall fuel inp w,
  noKey inp ->
  exists w',
    loop fuel inp w = Some w'
    /\ (currentState w' = STATE_OFF <-> currentState w = STATE_OFF).
Proof.
  intros fuel inp w Hk.
  assert (Hret : exists w', loop fuel inp w = Some w').
  { unfold loop.
    match goal with
    | |- context [handleIRRemote fuel (irDecode inp) (handshake inp) ?x] =>
        destruct (handleIRRemote_noKey fuel inp x Hk) as (t & E & _); rewrite E
    end.
    eexists; reflexivity. }
  destruct Hret as (w' & E). exists w'. split; [exact E|].
  refine (loop_preserves
            (fun x => currentState x = STATE_OFF <-> currentState w = STATE_OFF)
            fuel inp _ _ _ _ _ _ _ _ w w' E _); cbv beta; try tauto.
  - intros a x Ha H. rewrite (outputs_only_currentState a x Ha). exact H.
  - intros x x' Ex H.
    destruct (handleIRRemote_noKey fuel inp x Hk) as (t & Et & _).
    rewrite Et in Ex. injection Ex as <-. exact H.
  - intros x H. rewrite readThingSpeakData_currentState. exact H.
  - intros t x H. rewrite sensorTick_currentState. exact H.
  - intros t x H. rewrite telemetryTick_state. split.
    + intros Hoff. apply updateState_not_off in Hoff. tauto.
    + intros Hoff. apply H in Hoff.
      unfold updateState. rewrite Hoff. cbn. exact Hoff.
  - intros t x H. rewrite displayTick_currentState. exact H.
Qed.

Lemma no_key_keeps_off_and_on_witness :
  exists w',
    loop 0 (Build_Inputs None silent "" S754_nan S754_nan 0 S754_nan S754_nan S754_nan 1023)
      initialWorld = Some w'
    /\ currentState w' = STATE_OFF.
Proof.
  destruct (no_key_keeps_off_and_on 0
              (Build_Inputs None silent "" S754_nan S754_nan 0 S754_nan S754_nan S754_nan 1023)
              initialWorld) as (w' & E & H).
  - left. reflexivity.
  - exists w'. split; [exact E|]. apply H. reflexivity.
Defined.

(** X10. While the UAV is off, a pass of [loop] without a key press only
    counts, polls the remote and sleeps: it lasts 50 ms, keeps the sample,
    the display cache, the timers and the cloud flag as they are, drives no
    pin, and sends nothing on the serial line except the loop-count notice
    every hundredth pass -- no telemetry.  Bytes that arrive on the serial
    line pile up unread. *)
Theorem off_pass_is_idle : forall fuel inp w,
  noKey inp -> currentState w = STATE_OFF ->
  exists w',
    loop fuel inp w = Some w'
    /\ currentState w' = STATE_OFF
    /\ clock w' = clock w + 50
    /\ currentData w' = currentData w
    /\ receivedTSData w' = receivedTSData w
    /\ cloudConnected w' = cloudConnected w
    /\ (lastDHTUpdate w', lastUpdateTime w', lastDisplayUpdate w')
       = (lastDHTUpdate w, lastUpdateTime w, lastDisplayUpdate w)
    /\ serialIn w' = serialIn w ++ arrived inp
    /\ (forall pin, lastWrite pin (trace w') = lastWrite pin (trace w))
    /\ exists out,
         trace w' = (trace w ++ out)%list
         /\ (serialOutput out = ""
             \/ serialOutput out
                = "Loop running... count: " ++ printNumber (loopCount w') 10 ++ CRLF).
Proof.
  intros fuel inp w Hk Hoff. unfold loop.
  set (n := wrap32u (loopCount w + 1)).
  change (loopCount (set_loopCount n w)) with n.
  assert (H0 : exists msg,
    receive (arrived inp)
      (if n mod 100 =? 0
       then (Serial_print "Loop running... count: " ;;
             Serial_println (printNumber n 10)) (set_loopCount n w)
       else set_loopCount n w)
    = set_trace (trace w ++ msg)%list
        (set_serialIn (serialIn w ++ arrived inp) (set_loopCount n w))
    /\ (msg = [] \/ msg = [SerialWrite "Loop running... count: ";
                           SerialWrite (printNumber n 10 ++ CRLF)])).
  { destruct (n mod 100 =? 0).
    - exists [SerialWrite "Loop running... count: ";
              SerialWrite (printNumber n 10 ++ CRLF)].
      split; [|right; reflexivity].
      clearbody n. destruct w; norm_world. rewrite <- app_assoc. reflexivity.
    - exists []. split; [|left; reflexivity].
      rewrite app_nil_r. destruct w; reflexivity. }
  destruct H0 as (msg & E0 & Hmsg). rewrite E0. clear E0.
  match goal with
  | |- context [handleIRRemote fuel (irDecode inp) (handshake inp) ?x] =>
      destruct (handleIRRemote_noKey fuel inp x Hk) as (t & E & Ht); rewrite E; clear E
  end.
  cbn [trace set_trace].
  match goal with
  | |- context [negb (currentState ?x =? STATE_OFF)] =>
      change (currentState x) with (currentState w)
  end.
  rewrite Hoff. cbn [Z.eqb STATE_OFF negb].
  eexists. split; [reflexivity|].
  repeat (split; [first [exact Hoff | reflexivity]|]).
  split.
  - intros pin. cbn. rewrite !lastWrite_app. cbn.
    destruct Ht as [-> | ->]; destruct Hmsg as [-> | ->]; reflexivity.
  - exists (msg ++ t ++ [Delay 50])%list. split.
    + cbn. rewrite <- !app_assoc. reflexivity.
    + destruct Ht as [-> | ->]; destruct Hmsg as [-> | ->]; cbn;
        rewrite ?append_empty_r; auto.
Qed.

Lemma off_pass_is_idle_witness :
  exists w',
    loop 0 (Build_Inputs None silent "7|" S754_nan S754_nan 0 S754_nan S754_nan S754_nan 1023)
      initialWorld = Some w'
    /\ serialIn w' = "7|"
    /\ clock w' = 50.
Proof.
  destruct (off_pass_is_idle 0
              (Build_Inputs None silent "7|" S754_nan S754_nan 0 S754_nan S754_nan S754_nan 1023)
              initialWorld) as (w' & E & _ & Hc & _ & _ & _ & _ & Hs & _).
  - left. reflexivity.
  - reflexivity.
  - exists w'. split; [exact E|]. split; [exact Hs|exact Hc].
Defined.

(** ** More of the hazard chain *)

Lemma at_least_at_most_exclusive : forall x a b,
  a < b -> at_most x a -> ~ at_least x b.
Proof.
  intros x a b Hab Hm Hl.
  assert (Hp : 0 < 2 ^ 149) by (apply Z.pow_pos_nonneg; lia).
  destruct x as [s|s| |s m e]; unfold at_most, at_least in *;
    try contradiction; try congruence; nia.
Qed.

Lemma hurricaneGuard_value : forall d,
  is_binary32 (humidity d) = true ->
  (hurricaneGuard d = true
   <-> at_least (humidity d) 99 /\ at_most (humidity d) 120).
Proof.
  intros d H. unfold hurricaneGuard. rewrite andb_true_iff.
  rewrite (fge_at_least (humidity d) (of_Z 99) 99) by (assumption || reflexivity).
  rewrite (fle_at_most (humidity d) (of_Z 120) 120) by (assumption || reflexivity).
  tauto.
Qed.

(** X11. A sample whose temperature is at most 20 degrees is classified
    Blizzard, whatever its other fields are: only Fire comes before it in
    the chain, and the two temperature tests exclude each other. *)
Theorem cold_is_blizzard : forall d : SensorData,
  is_binary32 (temperature d) = true ->
  at_most (temperature d) 20 ->
  detectHazard d = Blizzard.
Proof.
  intros d Hv Ht. unfold detectHazard.
  assert (Hf : fireGuard d = false).
  { destruct (fireGuard d) eqn:E; [|reflexivity].
    apply (fireGuard_value d Hv) in E.
    exfalso. apply (at_least_at_most_exclusive (temperature d) 20 30); [lia|assumption|assumption]. }
  apply (blizzardGuard_value d Hv) in Ht. rewrite Hf, Ht. reflexivity.
Qed.

Lemma cold_is_blizzard_witness :
  detectHazard
    {| temperature := of_Z 20; humidity := of_Z 110; gasLevel := 900;
       distance := 3; pitch := of_Z 80; roll := of_Z 0; yaw := of_Z 0;
       valid := true |} = Blizzard.
Proof.
  apply cold_is_blizzard.
  - vm_compute. reflexivity.
  - apply Z.leb_le. vm_compute. reflexivity.
Defined.

(** X12. For a sample whose temperature is neither at least 30 nor at most
    20 degrees: it is classified Hurricane exactly when the humidity lies
    between 99 and 120 %, both bounds included; and when the humidity lies
    outside, it is classified Gas exactly when the gas level is at least
    460. *)
Theorem temperate_sample_hurricane_or_gas : forall d : SensorData,
  is_binary32 (temperature d) = true ->
  is_binary32 (humidity d) = true ->
  ~ at_least (temperature d) 30 ->
  ~ at_most (temperature d) 20 ->
  (detectHazard d = Hurricane
   <-> at_least (humidity d) 99 /\ at_most (humidity d) 120)
  /\ (~ (at_least (humidity d) 99 /\ at_most (humidity d) 120) ->
      (detectHazard d = Gas <-> MQ2_THRESHOLD <= gasLevel d)).
Proof.
  intros d Hvt Hvh Hnf Hnb.
  assert (Hf : fireGuard d = false).
  { destruct (fireGuard d) eqn:E; [|reflexivity].
    apply (fireGuard_value d Hvt) in E. contradiction. }
  assert (Hb : blizzardGuard d = false).
  { destruct (blizzardGuard d) eqn:E; [|reflexivity].
    apply (blizzardGuard_value d Hvt) in E. contradiction. }
  pose proof (hurricaneGuard_value d Hvh) as Hh.
  unfold detectHazard. rewrite Hf, Hb. split.
  - destruct (hurricaneGuard d).
    + split; [intros _; apply Hh; reflexivity|reflexivity].
    + split.
      * intros E. exfalso.
        destruct (gasGuard d); [discriminate|].
        destruct (obstacleGuard d); [discriminate|].
        destruct (tiltGuard d); discriminate.
      * intros E. apply Hh in E. discriminate.
  - intros Hout.
    destruct (hurricaneGuard d); [exfalso; apply Hout, Hh; reflexivity|].
    unfold gasGuard, isHazardousGas.
    destruct (Z.leb_spec MQ2_THRESHOLD (gasLevel d)).
    + split; [intros _; assumption|reflexivity].
    + split; [|intros; lia].
      intros E. exfalso.
      destruct (obstacleGuard d); [discriminate|].
      destruct (tiltGuard d); discriminate.
Qed.

Lemma temperate_sample_hurricane_or_gas_witness :
  detectHazard
    {| temperature := of_Z 25; humidity := of_Z 50; gasLevel := 460;
       distance := 3; pitch := of_Z 80; roll := of_Z 0; yaw := of_Z 0;
       valid := true |} = Gas.
Proof.
  apply (proj2 (temperate_sample_hurricane_or_gas
                  {| temperature := of_Z 25; humidity := of_Z 50; gasLevel := 460;
                     distance := 3; pitch := of_Z 80; roll := of_Z 0; yaw := of_Z 0;
                     valid := true |}
                  eq_refl eq_refl
                  ltac:(intros H; apply Z.leb_le in H; vm_compute in H; discriminate)
                  ltac:(intros H; apply Z.leb_le in H; vm_compute in H; discriminate))).
  - intros [H _]. apply Z.leb_le in H. vm_compute in H. discriminate.
  - unfold MQ2_THRESHOLD. simpl. lia.
Defined.

(** The [abs] macro in the tilt test: [abs x > 45] holds exactly when
    [x > 45] or [x < -45]; in particular it fails for NaN. *)
Lemma abs_gt_45 : forall x : float,
  fgt (abs x) (of_Z 45) = fgt x (of_Z 45) || flt x (of_Z (-45)).
Proof.
  intros x. unfold abs.
  destruct x as [s|s| |s m e].
  - destruct s; reflexivity.
  - destruct s; reflexivity.
  - reflexivity.
  - destruct s.
    + change (fgt (S754_finite true m e) (of_Z 0)) with false. cbv iota.
      change (fgt (S754_finite true m e) (of_Z 45)) with false.
      rewrite orb_false_l.
      change (of_Z 45) with (S754_finite false 11796480 (-18)).
      change (of_Z (-45)) with (S754_finite true 11796480 (-18)).
      unfold fgt, flt, SFltb, fneg, SFopp, SFcompare. cbn [negb].
      rewrite (Z.compare_antisym e (-18)).
      destruct (e ?= -18); cbn [CompOpp]; try reflexivity.
      rewrite (Pos.compare_cont_antisym m 11796480 Eq). cbn [CompOpp].
      destruct (Pos.compare_cont Eq m 11796480); reflexivity.
    + change (fgt (S754_finite false m e) (of_Z 0)) with true. cbv iota.
      change (flt (S754_finite false m e) (of_Z (-45))) with false.
      rewrite orb_false_r. reflexivity.
Qed.

(** X13. The tilt test is symmetric: it holds exactly when the pitch or the
    roll is above 45 degrees or below -45 degrees -- the integer-style [abs]
    macro does take the magnitude of a float -- and an attitude that is not
    a number never raises it. *)
Theorem tilt_guard_both_directions : forall d : SensorData,
  (tiltGuard d
   = (fgt (pitch d) (of_Z 45) || flt (pitch d) (of_Z (-45)))
     || (fgt (roll d) (of_Z 45) || flt (roll d) (of_Z (-45))))
  /\ (isnan (pitch d) = true -> isnan (roll d) = true -> tiltGuard d = false).
Proof.
  intros d. split.
  - unfold tiltGuard. rewrite !abs_gt_45. reflexivity.
  - intros Hp Hr. unfold tiltGuard. rewrite !abs_gt_45.
    destruct (pitch d); try discriminate. destruct (roll d); try discriminate.
    reflexivity.
Qed.

(** ** The LED *)

(** X14. Every hazard announcement ends with the LED switched off -- it does
    not put back the colour of the operating state -- and holds up the loop
    for its beeps and flash: 1900 ms for fire, blizzard, hurricane and gas,
    800 ms for obstacle and tilt. *)
Theorem hazard_announcement_ends_dark : forall (h : Hazard) (d : SensorData) (w : World),
  h <> NoHazard ->
  ledColour (trace (announceHazard h d w)) = (Some 0, Some 0, Some 0)
  /\ clock (announceHazard h d w)
     = clock w + match h with Obstacle | Tilt => 800 | _ => 1900 end.
Proof.
  intros h d w Hh. destruct h; try contradiction;
    (split;
     [unfold ledColour, announceHazard; norm_world;
      rewrite !lastWrite_app; reflexivity
     |unfold announceHazard; norm_world; lia]).
Qed.

Lemma hazard_announcement_ends_dark_witness :
  ledColour (trace (announceHazard Fire zeroSensorData
                      (rgbGreen initialWorld))) = (Some 0, Some 0, Some 0).
Proof.
  apply (hazard_announcement_ends_dark Fire zeroSensorData (rgbGreen initialWorld)).
  discriminate.
Defined.

Lemma ledColour_after : forall t r g b,
  ledColour (t ++ [AnalogWrite RGB_RED r; AnalogWrite RGB_GREEN g;
                   AnalogWrite RGB_BLUE b])%list
  = (Some r, Some g, Some b).
Proof. intros t r g b. unfold ledColour. rewrite !lastWrite_app. reflexivity. Qed.

Lemma trace_setRGBColor : forall r g b w,
  trace (setRGBColor r g b w)
  = (trace w ++ [AnalogWrite RGB_RED r; AnalogWrite RGB_GREEN g;
                 AnalogWrite RGB_BLUE b])%list.
Proof.
  intros r g b w. unfold setRGBColor. norm_world. rewrite <- !app_assoc. reflexivity.
Qed.

Lemma updateState_state_value : forall d w,
  In (currentState w) [STATE_IDLE; STATE_ACTIVE; STATE_ALERT] ->
  currentState (updateState d w)
  = if isHazardousGas (gasLevel d) then STATE_ALERT else STATE_ACTIVE.
Proof.
  intros d w H. unfold updateState.
  destruct (Z.eqb_spec (currentState w) STATE_OFF) as [E|_].
  - rewrite E in H. simpl in H.
    unfold STATE_OFF, STATE_IDLE, STATE_ACTIVE, STATE_ALERT in H. lia.
  - destruct (isHazardousGas (gasLevel d)).
    + apply currentState_setState.
    + simpl in H. destruct H as [E|[E|[E|[ ]]]]; rewrite <- E; simpl;
        try apply currentState_setState; rewrite <- E; reflexivity.
Qed.

(** X15. A telemetry tick started in Idle, Active or Alert leaves the LED in
    the colour of the state it ends in: red when the gas level just read is
    hazardous (Alert), green otherwise (Active). *)
Theorem telemetry_tick_restores_led : forall inp currentTime w,
  In (currentState w) [STATE_IDLE; STATE_ACTIVE; STATE_ALERT] ->
  ledColour (trace (telemetryTick inp currentTime w))
  = if isHazardousGas (analogMQ2 inp)
    then (Some 255, Some 0, Some 0)
    else (Some 0, Some 255, Some 0).
Proof.
  intros inp currentTime w Hin.
  pose proof (telemetryTick_state inp currentTime w) as Hst.
  unfold telemetryTick, readGasLevel in *.
  set (w1 := onCurrentData (set_gasLevel (analogMQ2 inp))
               (set_lastUpdateTime currentTime w)) in *.
  assert (Hs2 : currentState (updateState (currentData w1) w1)
                = if isHazardousGas (analogMQ2 inp) then STATE_ALERT else STATE_ACTIVE).
  { apply (updateState_state_value (currentData w1) w1). exact Hin. }
  set (w2 := updateState (currentData w1) w1) in *. clearbody w2.
  set (w3 := (rgbBlue ;; delay 200) (sendDataToSerial (currentData w2) w2)) in *.
  assert (E3 : currentState w3 = currentState w2).
  { unfold w3. rewrite outputs_only_currentState by outputs.
    apply outputs_only_currentState. apply outputs_only_sendDataToSerial. }
  clearbody w3. clear Hst. rewrite E3, Hs2.
  destruct (isHazardousGas (analogMQ2 inp)); cbn [Z.eqb STATE_ALERT STATE_ACTIVE Pos.eqb].
  - unfold rgbRed. rewrite trace_setRGBColor. apply ledColour_after.
  - unfold rgbGreen. rewrite trace_setRGBColor. apply ledColour_after.
Qed.

Lemma telemetry_tick_restores_led_witness :
  ledColour (trace (telemetryTick keyPressOn 15000
                      (set_currentState STATE_IDLE initialWorld)))
  = (Some 0, Some 255, Some 0).
Proof.
  apply (telemetry_tick_restores_led keyPressOn 15000
           (set_currentState STATE_IDLE initialWorld)).
  simpl. auto.
Defined.

(** ** More of the inbound parser *)

Lemma positionalUpdate_firstn : forall tokens d,
  positionalUpdate (firstn 8 tokens) d = positionalUpdate tokens d.
Proof.
  intros tokens d.
  destruct tokens as [|t0 [|t1 [|t2 [|t3 [|t4 [|t5 [|t6 [|t7 more]]]]]]]];
    reflexivity.
Qed.

(** X16. Only the first eight tokens of an inbound line count: tokens after
    the eighth are ignored, and a line with at least eight tokens overwrites
    the whole display cache, so that nothing of the old cache is left. *)
Theorem extra_tokens_are_ignored : forall (w : World) (line rest : string),
  noLineFeed line = true ->
  serialIn w = line ++ String "010" rest ->
  let tokens := strtok_all "|" (receivedString w ++ keepAccepted line) [] in
  receivedTSData (readThingSpeakData w)
  = positionalUpdate (firstn 8 tokens) (receivedTSData w)
  /\ ((8 <= List.length tokens)%nat ->
      forall d, receivedTSData (readThingSpeakData w) = positionalUpdate tokens d).
Proof.
  intros w line rest Hnl Hin tokens.
  destruct (readThingSpeakData_line w line rest Hnl Hin) as (Hd & _).
  fold tokens in Hd. rewrite Hd, storeTokens_positional.
  split; [symmetry; apply positionalUpdate_firstn|].
  intros Hlen d.
  destruct tokens as [|t0 [|t1 [|t2 [|t3 [|t4 [|t5 [|t6 [|t7 more]]]]]]]];
    simpl in Hlen; try lia.
  reflexivity.
Qed.

Lemma extra_tokens_are_ignored_witness :
  receivedTSData
    (readThingSpeakData
       (set_serialIn ("1|2|3|4|5|6|7|8|9|10" ++ String "010" "") initialWorld))
  = {| temp := of_Z 1; humid := of_Z 2; gas := 3; dist := 4; state := 5;
       ts_pitch := of_Z 6; ts_roll := of_Z 7; ts_yaw := of_Z 8 |}.
Proof.
  rewrite (proj1 (extra_tokens_are_ignored
                    (set_serialIn ("1|2|3|4|5|6|7|8|9|10" ++ String "010" "") initialWorld)
                    "1|2|3|4|5|6|7|8|9|10" "" eq_refl eq_refl)).
  vm_compute. reflexivity.
Defined.

Lemma keepAccepted_app : forall a b,
  keepAccepted (a ++ b) = keepAccepted a ++ keepAccepted b.
Proof.
  induction a as [|c a IH]; intros b; simpl; [reflexivity|].
  destruct (accepted c); simpl; rewrite IH; reflexivity.
Qed.

Lemma append_assoc_string : forall a b c : string, (a ++ b) ++ c = a ++ (b ++ c).
Proof.
  induction a as [|x a IH]; intros b c; simpl; [reflexivity|].
  rewrite IH. reflexivity.
Qed.

Lemma noLineFeed_app : forall a b,
  noLineFeed (a ++ b) = noLineFeed a && noLineFeed b.
Proof.
  induction a as [|c a IH]; intros b; simpl; [reflexivity|].
  rewrite IH, andb_assoc. reflexivity.
Qed.

(** The receive loop on a buffer without a line feed. *)
Lemma receiveLine_partial : forall buf received,
  noLineFeed buf = true ->
  receiveLine buf received = (received ++ keepAccepted buf, false, EmptyString).
Proof.
  induction buf as [|c buf IH]; intros received Hnl.
  - simpl. rewrite append_empty_r. reflexivity.
  - simpl in Hnl. apply andb_true_iff in Hnl. destruct Hnl as [Hc Hnl].
    apply negb_true_iff in Hc.
    cbn [receiveLine keepAccepted]. rewrite Hc.
    destruct (accepted c).
    + rewrite IH by assumption. rewrite append_String_assoc. reflexivity.
    + apply IH. assumption.
Qed.

(** X17. A line that arrives in two pieces is parsed like one that arrives
    whole.  The first call, finding no line feed, parses nothing: it leaves
    the cache alone, drains the buffer and keeps the accepted characters of
    the piece; the call that later meets the line feed ends in the very
    world that one call on the whole line would have produced. *)
Theorem split_line_parses_like_whole : forall (w : World) (part1 part2 rest : string),
  newData w = false ->
  noLineFeed part1 = true -> noLineFeed part2 = true ->
  serialIn w = part1 ->
  let w1 := readThingSpeakData w in
  receivedTSData w1 = receivedTSData w
  /\ serialIn w1 = ""
  /\ receivedString w1 = receivedString w ++ keepAccepted part1
  /\ readThingSpeakData (receive (part2 ++ String "010" rest) w1)
     = readThingSpeakData (set_serialIn (part1 ++ part2 ++ String "010" rest) w).
Proof.
  intros w part1 part2 rest Hn H1 H2 Hin w1.
  assert (E1 : w1 = set_receivedString (receivedString w ++ keepAccepted part1)
                      (set_serialIn "" w)).
  { unfold w1, readThingSpeakData. rewrite Hin, receiveLine_partial by exact H1.
    cbn [newData set_newData set_receivedString set_serialIn]. rewrite Hn.
    reflexivity. }
  rewrite E1. repeat split.
  unfold readThingSpeakData, receive.
  cbn [serialIn receivedString set_receivedString set_serialIn].
  change ("" ++ (part2 ++ String "010" rest)) with (part2 ++ String "010" rest).
  rewrite receiveLine_line by exact H2.
  rewrite <- append_assoc_string.
  rewrite receiveLine_line by (rewrite noLineFeed_app, H1, H2; reflexivity).
  rewrite keepAccepted_app, <- append_assoc_string.
  destruct w; reflexivity.
Qed.

Lemma split_line_parses_like_whole_witness :
  receivedTSData
    (readThingSpeakData
       (receive ("3.5|55" ++ String "010" "")
          (readThingSpeakData (set_serialIn "2" initialWorld))))
  = receivedTSData
      (readThingSpeakData
         (set_serialIn ("2" ++ "3.5|55" ++ String "010" "") initialWorld)).
Proof.
  rewrite (proj2 (proj2 (proj2 (split_line_parses_like_whole
                                  (set_serialIn "2" initialWorld) "2" "3.5|55" ""
                                  eq_refl eq_refl eq_refl eq_refl)))).
  reflexivity.
Defined.

(** X18. What the filter drops does not matter: two lines with the same
    digits, points, minus signs and separators, in the same order, lead to
    the same world.  So a carriage return before the line feed changes
    nothing, and a line without any accepted character -- a handshake token,
    say -- leaves the display cache as it was. *)
Theorem dropped_characters_do_not_matter : forall (w : World) (line line' rest : string),
  noLineFeed line = true -> noLineFeed line' = true ->
  keepAccepted line = keepAccepted line' ->
  readThingSpeakData (set_serialIn (line ++ String "010" rest) w)
  = readThingSpeakData (set_serialIn (line' ++ String "010" rest) w)
  /\ (keepAccepted line = "" -> receivedString w = "" ->
      receivedTSData (readThingSpeakData (set_serialIn (line ++ String "010" rest) w))
      = receivedTSData w).
Proof.
  intros w line line' rest H1 H2 Hk. split.
  - unfold readThingSpeakData.
    cbn [serialIn receivedString set_serialIn].
    rewrite !receiveLine_line by assumption. rewrite Hk. reflexivity.
  - intros Hempty Hr.
    destruct (readThingSpeakData_line (set_serialIn (line ++ String "010" rest) w)
                line rest H1 eq_refl) as (Hd & _).
    rewrite Hd. cbn [receivedString receivedTSData set_serialIn].
    rewrite Hr, Hempty. reflexivity.
Qed.

Lemma dropped_characters_do_not_matter_witness :
  readThingSpeakData
    (set_serialIn (("7|8" ++ String "013" "") ++ String "010" "") initialWorld)
  = readThingSpeakData (set_serialIn ("7|8" ++ String "010" "") initialWorld)
  /\ receivedTSData
       (readThingSpeakData (set_serialIn ("CLOUD_OK" ++ String "010" "") initialWorld))
     = receivedTSData initialWorld.
Proof.
  split.
  - apply (proj1 (dropped_characters_do_not_matter initialWorld
                    ("7|8" ++ String "013" "") "7|8" "" eq_refl eq_refl eq_refl)).
  - apply (proj2 (dropped_characters_do_not_matter initialWorld
                    "CLOUD_OK" "CLOUD_OK" "" eq_refl eq_refl eq_refl));
      reflexivity.
Defined.

(** ** Sensor reads *)

Lemma readTemperature_not_nan : forall raw w,
  isnan (fst (readTemperature raw w)) = false.
Proof.
  intros raw w. unfold readTemperature.
  destruct (isnan raw) eqn:E; [reflexivity|exact E].
Qed.

Lemma readHumidity_not_nan : forall raw w,
  isnan (fst (readHumidity raw w)) = false.
Proof.
  intros raw w. unfold readHumidity.
  destruct (isnan raw) eqn:E; [reflexivity|exact E].
Qed.

(** X19. The hazard chain never sees a temperature or humidity that is not
    a number: [readTemperature] and [readHumidity] turn a failed read into
    -999, and in every reachable world both fields of the current sample are
    numbers (possibly -999, possibly infinite). *)
Theorem sample_is_never_nan : forall w : World,
  reachable w ->
  isnan (temperature (currentData w)) = false
  /\ isnan (humidity (currentData w)) = false.
Proof.
  intros w Hr. induction Hr as [|fuel inp w w' Hr IH Hstep].
  - split; reflexivity.
  - revert IH.
    refine (loop_preserves
              (fun x => isnan (temperature (currentData x)) = false
                        /\ isnan (humidity (currentData x)) = false)
              fuel inp _ _ _ _ _ _ _ _ w w' Hstep); cbv beta.
    + intros x v H. exact H.
    + intros a x Ha H. destruct (Ha x) as (c & t & ->). exact H.
    + intros s x H. exact H.
    + intros x x' E H. apply handleIRRemote_shape in E.
      destruct E as (c & t & si & b & s & p & ->). exact H.
    + intros x H. destruct (readThingSpeakData_shape x) as (si & rs & nd & ts & ->).
      exact H.
    + intros t x _.
      destruct (sensorTick_shape inp t x) as (c & tr & D & -> & _ & _ & Ht & Hh).
      cbn. rewrite Ht, Hh.
      split; [apply readTemperature_not_nan|apply readHumidity_not_nan].
    + intros t x H. destruct (telemetryTick_shape inp t x) as (c & tr & s & p & ->).
      exact H.
    + intros t x H. destruct (displayTick_shape t x) as (tr & dm & ts & -> & _).
      exact H.
Qed.

Lemma sample_is_never_nan_witness :
  exists w',
    loop 50 (Build_Inputs (Some IR_BUTTON_ON) silent "" S754_nan S754_nan 1000
               (of_Z 0) (of_Z 0) (of_Z 0) 120) initialWorld = Some w'
    /\ isnan (temperature (currentData w')) = false.
Proof.
  destruct (loop 50 (Build_Inputs (Some IR_BUTTON_ON) silent "" S754_nan S754_nan 1000
                       (of_Z 0) (of_Z 0) (of_Z 0) 120) initialWorld) as [w'|] eqn:E.
  - exists w'. split; [reflexivity|].
    apply (sample_is_never_nan w' (reachable_loop _ _ _ _ reachable_start E)).
  - vm_compute in E. discriminate.
Defined.

(** X20. [readAllSensors] fills the seven readings from the seven sensor
    values, a failed DHT read becoming -999, and marks the sample valid
    exactly when neither DHT value is missing: a temperature or humidity that
    failed to read -- or that really reads -999 -- clears the flag, an
    out-of-range distance (-1) does not. *)
Theorem readAllSensors_valid : forall (inp : Inputs) (w : World),
  let d := fst (readAllSensors inp w) in
  valid d
  = (negb (isnan (dhtTemperature inp)) && fne (dhtTemperature inp) (of_Z (-999)))
    && (negb (isnan (dhtHumidity inp)) && fne (dhtHumidity inp) (of_Z (-999)))
  /\ temperature d = fst (readTemperature (dhtTemperature inp) w)
  /\ humidity d = fst (readHumidity (dhtHumidity inp) w)
  /\ gasLevel d = analogMQ2 inp
  /\ distance d = fst (readDistance (echoDuration inp) w)
  /\ (pitch d, roll d, yaw d) = (mpuPitch inp, mpuRoll inp, mpuYaw inp).
Proof.
  intros inp w. unfold readAllSensors.
  assert (Ft : forall x, fst (readTemperature (dhtTemperature inp) x)
                         = fst (readTemperature (dhtTemperature inp) w))
    by (intros x; unfold readTemperature; destruct (isnan (dhtTemperature inp)); reflexivity).
  assert (Fh : forall x, fst (readHumidity (dhtHumidity inp) x)
                         = fst (readHumidity (dhtHumidity inp) w))
    by (intros x; unfold readHumidity; destruct (isnan (dhtHumidity inp)); reflexivity).
  assert (Fd : forall x, fst (readDistance (echoDuration inp) x)
                         = fst (readDistance (echoDuration inp) w))
    by (intros x; unfold readDistance;
        match goal with |- context [if ?b then _ else _] => destruct b end; reflexivity).
  assert (Vt : fne (fst (readTemperature (dhtTemperature inp) w)) (of_Z (-999))
               = negb (isnan (dhtTemperature inp)) && fne (dhtTemperature inp) (of_Z (-999)))
    by (unfold readTemperature; destruct (isnan (dhtTemperature inp)); reflexivity).
  assert (Vh : fne (fst (readHumidity (dhtHumidity inp) w)) (of_Z (-999))
               = negb (isnan (dhtHumidity inp)) && fne (dhtHumidity inp) (of_Z (-999)))
    by (unfold readHumidity; destruct (isnan (dhtHumidity inp)); reflexivity).
  specialize (Ft w) as _.
  destruct (readTemperature (dhtTemperature inp) w) as [t w1] eqn:Et.
  specialize (Fh w1).
  destruct (readHumidity (dhtHumidity inp) w1) as [h w2] eqn:Eh.
  specialize (Fd w2).
  destruct (readDistance (echoDuration inp) w2) as [dist w3] eqn:Ed.
  cbn [fst] in *. cbn [valid temperature humidity gasLevel distance pitch roll yaw].
  rewrite <- Vt. rewrite <- Vh, <- Fh. unfold readGasLevel.
  repeat split. exact Fd.
Qed.

(** ** The gas percentage on the display *)

(** X21. On the gas page the percentage is computed as
    [gasLevel * 100 / 1023] in 16-bit [int]: for a gas level between 0 and
    1023 the product fits, and the page shows the true rounded-down
    percentage, exactly when the level is at most 327 (31 %); from 328 on
    the product is beyond the range of [int]. *)
Theorem gas_percentage_fits_up_to_327 : forall (d : SensorData) (w : World),
  0 <= gasLevel d <= 1023 ->
  (wrap16 (gasLevel d * 100) = gasLevel d * 100 <-> gasLevel d <= 327)
  /\ (gasLevel d <= 327 ->
      trace (displaySensorData d 1 w)
      = (trace w ++
         [ LcdBacklight; LcdClear; LcdPrint "Gas:"; LcdPrint (printInt (gasLevel d));
           LcdPrint " ("; LcdPrint (printInt (gasLevel d * 100 / 1023));
           LcdPrint "%)"; LcdSetCursor 0 1; LcdPrint "Dist:";
           LcdPrint (printInt (distance d)); LcdPrint " cm" ])%list).
Proof.
  intros d w Hr.
  assert (Hw : gasLevel d <= 327 -> wrap16 (gasLevel d * 100) = gasLevel d * 100).
  { intros H. unfold wrap16. rewrite Z.mod_small by lia. lia. }
  split; [split; [|exact Hw]|].
  - intros E. unfold wrap16 in E.
    pose proof (Z.mod_pos_bound (gasLevel d * 100 + 32768) 65536 ltac:(lia)). lia.
  - intros H. unfold displaySensorData.
    change (Z.rem 1 4) with 1. cbv iota. rewrite (Hw H).
    rewrite Z.quot_div_nonneg by lia.
    norm_world. rewrite <- !app_assoc. reflexivity.
Qed.

Lemma gas_percentage_fits_up_to_327_witness :
  wrap16 (gasLevel (set_gasLevel 1023 zeroSensorData) * 100)
  <> gasLevel (set_gasLevel 1023 zeroSensorData) * 100.
Proof.
  intros E.
  apply (proj1 (gas_percentage_fits_up_to_327 (set_gasLevel 1023 zeroSensorData)
                  initialWorld ltac:(simpl; lia))) in E.
  simpl in E. lia.
Defined.

(** ** The handshake, answered *)

Lemma receive_nothing : forall w, serialIn w = "" -> receive "" w = w.
Proof. intros w H. unfold receive. rewrite H. destruct w; cbn in H |- *; rewrite H; reflexivity. Qed.

Lemma split_at_line : forall line rest,
  noLineFeed line = true ->
  split_at "010" (line ++ String "010" rest) = Some (line, rest).
Proof.
  induction line as [|c line IH]; intros rest H; simpl.
  - reflexivity.
  - simpl in H. apply andb_true_iff in H. destruct H as [Hc H].
    apply negb_true_iff in Hc. rewrite Hc, (IH rest H). reflexivity.
Qed.

(** Polls that find nothing only pass time. *)
Lemma connectLoop_silent_polls : forall k fuel arrive i c0 w,
  serialIn w = "" ->
  (forall j, (j < k)%nat -> arrive (i + j)%nat = "") ->
  0 <= clock w - c0 ->
  clock w - c0 + 100 * Z.of_nat k <= CLOUD_TIMEOUT ->
  connectLoop (k + fuel) arrive i (wrap32u c0) w
  = connectLoop fuel arrive (i + k) (wrap32u c0) (times k (delay 100) w).
Proof.
  unfold CLOUD_TIMEOUT.
  induction k as [|k IH]; intros fuel arrive i c0 w Hs Ha He Hk.
  - rewrite Nat.add_0_r. reflexivity.
  - change (S k + fuel)%nat with (S (k + fuel)).
    rewrite connectLoop_unfold. unfold millis.
    pose proof (wrap32u_elapsed c0 (clock w - c0) ltac:(lia)) as Hel.
    replace (c0 + (clock w - c0)) with (clock w) in Hel by lia. rewrite Hel.
    destruct (Z.ltb_spec (clock w - c0) CLOUD_TIMEOUT) as [L|G];
      unfold CLOUD_TIMEOUT in *; [|lia].
    cbv zeta.
    assert (Ha0 : arrive i = "") by (rewrite <- (Nat.add_0_r i); apply Ha; lia).
    rewrite Ha0, (receive_nothing w Hs).
    unfold Serial_available. rewrite Hs.
    rewrite (IH fuel arrive (S i) c0 (delay 100 w)).
    + rewrite <- Nat.add_succ_comm. reflexivity.
    + exact Hs.
    + intros j Hj. rewrite Nat.add_succ_comm. apply Ha. lia.
    + rewrite clock_delay. lia.
    + rewrite clock_delay. lia.
Qed.

Lemma times_delay_frame : forall k w,
  clock (times k (delay 100) w) = clock w + 100 * Z.of_nat k
  /\ serialIn (times k (delay 100) w) = serialIn w.
Proof.
  induction k as [|k IH]; intros w.
  - change (times 0 (delay 100) w) with w. split; [lia|reflexivity].
  - change (times (S k) (delay 100) w) with (times k (delay 100) (delay 100 w)).
    destruct (IH (delay 100 w)) as [Hc Hs]. rewrite Hc, Hs, clock_delay.
    split; [lia|reflexivity].
Qed.

(** X22. A reply that arrives in time ends the handshake at once.  If the
    line is silent for the first [k] polls ([k] at most 49, the buffer being
    empty at the start) and the text [CLOUD_OK] and a line feed arrive
    before the next poll, the handshake returns [100 * k + 2150] ms after it
    started with [cloudConnected] true; with [CLOUD_FAIL] it returns after
    [100 * k + 2000] ms with [cloudConnected] false.  In both cases what
    followed the reply on the line stays in the buffer. *)
Theorem reply_ends_handshake : forall (k fuel : nat) (arrive : nat -> string)
    (w : World) (rest : string),
  (k < 50)%nat -> (k < fuel)%nat ->
  serialIn w = "" ->
  (forall j, (j < k)%nat -> arrive j = "") ->
  (arrive k = "CLOUD_OK" ++ String "010" rest ->
   exists w',
     connectToCloud fuel arrive w = Some w'
     /\ cloudConnected w' = true
     /\ serialIn w' = rest
     /\ clock w' = clock w + 100 * Z.of_nat k + 2150)
  /\ (arrive k = "CLOUD_FAIL" ++ String "010" rest ->
      exists w',
        connectToCloud fuel arrive w = Some w'
        /\ cloudConnected w' = false
        /\ serialIn w' = rest
        /\ clock w' = clock w + 100 * Z.of_nat k + 2000).
Proof.
  intros k fuel arrive w rest Hk Hfuel Hs Ha.
  destruct (connecting_notice_frame w) as (Hc0 & _ & _ & Hs0).
  assert (Hgo : connectToCloud fuel arrive w
    = connectLoop (fuel - k) arrive k (wrap32u (clock w))
        (times k (delay 100)
           ((lcd_clear ;; lcd_print "Connecting to" ;; lcd_setCursor 0 1 ;;
             lcd_print "cloud..." ;; Serial_println "CONNECT_CLOUD") w))).
  { rewrite connectToCloud_unfold.
    replace fuel with (k + (fuel - k))%nat at 1 by lia.
    rewrite connectLoop_silent_polls.
    - reflexivity.
    - rewrite Hs0. exact Hs.
    - intros j Hj. apply Ha. exact Hj.
    - rewrite Hc0. lia.
    - rewrite Hc0. unfold CLOUD_TIMEOUT. lia. }
  rewrite Hgo. clear Hgo.
  set (w0 := (lcd_clear ;; lcd_print "Connecting to" ;; lcd_setCursor 0 1 ;;
              lcd_print "cloud..." ;; Serial_println "CONNECT_CLOUD") w) in *.
  clearbody w0.
  destruct (times_delay_frame k w0) as [Hck Hsk].
  set (wk := times k (delay 100) w0) in *. clearbody wk.
  destruct (fuel - k)%nat as [|f] eqn:Ef; [lia|].
  assert (Hel : (wrap32u (millis wk - wrap32u (clock w)) <? CLOUD_TIMEOUT) = true).
  { unfold millis.
    pose proof (wrap32u_elapsed (clock w) (clock wk - clock w) ltac:(lia)) as Hel.
    replace (clock w + (clock wk - clock w)) with (clock wk) in Hel by lia.
    rewrite Hel. apply Z.ltb_lt. unfold CLOUD_TIMEOUT. lia. }
  assert (Hpoll : forall reply,
            noLineFeed reply = true ->
            arrive k = reply ++ String "010" rest ->
            Serial_available (receive (arrive k) wk) = true
            /\ Serial_readStringUntil "010" (receive (arrive k) wk)
               = (reply, set_serialIn rest (receive (arrive k) wk))).
  { intros reply Hnl Hr. unfold Serial_available, Serial_readStringUntil, receive.
    cbn [serialIn set_serialIn]. rewrite Hsk, Hs0, Hs, Hr.
    change ("" ++ (reply ++ String "010" rest)) with (reply ++ String "010" rest).
    rewrite split_at_line by exact Hnl.
    split; [|reflexivity].
    destruct reply; reflexivity. }
  split; intros Hr; rewrite connectLoop_unfold, Hel; cbv zeta.
  - destruct (Hpoll "CLOUD_OK" eq_refl Hr) as [Hav Hrd]. rewrite Hav, Hrd.
    change (String.eqb "CLOUD_OK" "CLOUD_OK") with true. cbv iota.
    eexists. split; [reflexivity|].
    split; [reflexivity|]. split; [reflexivity|].
    change (clock wk + 150 + 2000 = clock w + 100 * Z.of_nat k + 2150). lia.
  - destruct (Hpoll "CLOUD_FAIL" eq_refl Hr) as [Hav Hrd]. rewrite Hav, Hrd.
    change (String.eqb "CLOUD_FAIL" "CLOUD_OK") with false.
    change (String.eqb "CLOUD_FAIL" "CLOUD_FAIL") with true. cbv iota.
    eexists. split; [reflexivity|].
    split; [reflexivity|]. split; [reflexivity|].
    change (clock wk + 2000 = clock w + 100 * Z.of_nat k + 2000). lia.
Qed.

Lemma reply_ends_handshake_witness :
  exists w',
    connectToCloud 50
      (fun i => match i with
                | 3%nat => "CLOUD_OK" ++ String "010" "9|"
                | _ => ""
                end) initialWorld = Some w'
    /\ cloudConnected w' = true
    /\ serialIn w' = "9|"
    /\ clock w' = 2450.
Proof.
  destruct (proj1 (reply_ends_handshake 3 50
              (fun i => match i with
                        | 3%nat => "CLOUD_OK" ++ String "010" "9|"
                        | _ => ""
                        end) initialWorld "9|"
              ltac:(lia) ltac:(lia) eq_refl
              ltac:(intros [|[|[|j]]] Hj; try reflexivity; lia)) eq_refl)
    as (w' & E & Hc & Hs & Hk).
  exists w'. repeat split; assumption.
Defined.

(** ** The telemetry line *)

Lemma serialOutput_app : forall t1 t2,
  serialOutput (t1 ++ t2)%list = serialOutput t1 ++ serialOutput t2.
Proof.
  induction t1 as [|e t1 IH]; intros t2; simpl.
  - reflexivity.
  - destruct e; try apply IH. rewrite IH, append_assoc_string. reflexivity.
Qed.

Lemma trace_delay : forall ms w, trace (delay ms w) = (trace w ++ [Delay ms])%list.
Proof. reflexivity. Qed.

Lemma trace_updateState_extends : forall d w,
  exists pre, trace (updateState d w) = (trace w ++ pre)%list.
Proof.
  intros d w.
  assert (Hset : forall s, exists pre, trace (setState s w) = (trace w ++ pre)%list).
  { intros s. destruct (Z.eq_dec s (currentState w)) as [E|Hne].
    - rewrite setState_same by exact E. exists []. rewrite app_nil_r. reflexivity.
    - destruct (setState_transition s w Hne) as (_ & _ & Ht). rewrite Ht. eauto. }
  unfold updateState.
  repeat match goal with
         | |- context [if ?b then _ else _] => destruct b
         end; try apply Hset; exists []; rewrite app_nil_r; reflexivity.
Qed.

(** X23. A telemetry tick started in Idle, Active or Alert sends, as the
    last thing it writes on the serial line, one telemetry line of eight
    comma-separated fields ended by CR LF; the line carries the gas level
    read in this very tick and the state as updated from it -- 3 when that
    level is hazardous, 2 otherwise -- together with the temperature,
    humidity, distance and attitude of the last sensor tick. *)
Theorem telemetry_tick_sends_updated_line : forall inp currentTime w,
  In (currentState w) [STATE_IDLE; STATE_ACTIVE; STATE_ALERT] ->
  exists out notice,
    trace (telemetryTick inp currentTime w) = (trace w ++ out)%list
    /\ serialOutput out
       = notice
         ++ telemetryLine (set_gasLevel (analogMQ2 inp) (currentData w))
              (if isHazardousGas (analogMQ2 inp) then STATE_ALERT else STATE_ACTIVE).
Proof.
  intros inp currentTime w Hin.
  unfold telemetryTick, readGasLevel.
  set (w1 := onCurrentData (set_gasLevel (analogMQ2 inp))
               (set_lastUpdateTime currentTime w)).
  assert (Hs2 : currentState (updateState (currentData w1) w1)
                = if isHazardousGas (analogMQ2 inp) then STATE_ALERT else STATE_ACTIVE)
    by (apply (updateState_state_value (currentData w1) w1); exact Hin).
  destruct (trace_updateState_extends (currentData w1) w1) as (pre & Hpre).
  change (trace w1) with (trace w) in Hpre.
  destruct (updateState_shape (currentData w1) w1) as (c2 & t2 & s2 & p2 & E2).
  assert (Hd2 : currentData (updateState (currentData w1) w1)
                = set_gasLevel (analogMQ2 inp) (currentData w))
    by (rewrite E2; reflexivity).
  clear E2. set (w2 := updateState (currentData w1) w1) in *. clearbody w2.
  rewrite Hd2.
  set (d := set_gasLevel (analogMQ2 inp) (currentData w)) in *.
  pose proof (trace_sendDataToSerial d w2) as Hline.
  assert (E3 : currentState ((rgbBlue ;; delay 200) (sendDataToSerial d w2))
               = currentState w2).
  { rewrite outputs_only_currentState by outputs.
    apply outputs_only_currentState. apply outputs_only_sendDataToSerial. }
  assert (Hblue : trace ((rgbBlue ;; delay 200) (sendDataToSerial d w2))
                  = (trace (sendDataToSerial d w2)
                     ++ [AnalogWrite RGB_RED 0; AnalogWrite RGB_GREEN 0;
                         AnalogWrite RGB_BLUE 255; Delay 200])%list).
  { unfold seq, rgbBlue. rewrite trace_delay, trace_setRGBColor, <- app_assoc.
    reflexivity. }
  set (w3 := (rgbBlue ;; delay 200) (sendDataToSerial d w2)) in *. clearbody w3.
  assert (Hled : exists led,
    trace (if currentState w3 =? STATE_ACTIVE then rgbGreen w3
           else if currentState w3 =? STATE_ALERT then rgbRed w3 else w3)
    = (trace w3 ++ led)%list /\ serialOutput led = "").
  { destruct (currentState w3 =? STATE_ACTIVE).
    - unfold rgbGreen. rewrite trace_setRGBColor. eexists; split; reflexivity.
    - destruct (currentState w3 =? STATE_ALERT).
      + unfold rgbRed. rewrite trace_setRGBColor. eexists; split; reflexivity.
      + exists []. rewrite app_nil_r. split; reflexivity. }
  destruct Hled as (led & Hled & Hquiet). rewrite Hled, Hblue, Hline, Hpre.
  match goal with
  | |- context [app (app (app (app (trace w) pre) ?line) ?blue) led] =>
      exists (app pre (app line (app blue led))); exists (serialOutput pre)
  end.
  split.
  - rewrite <- !app_assoc. reflexivity.
  - rewrite !serialOutput_app, Hquiet, Hs2.
    unfold telemetryLine. cbn [serialOutput].
    rewrite !append_empty_r.
    repeat rewrite append_assoc_string. reflexivity.
Qed.

Lemma telemetry_tick_sends_updated_line_witness :
  exists out notice,
    trace (telemetryTick keyPressOn 15000 (set_currentState STATE_ACTIVE initialWorld))
    = (trace (set_currentState STATE_ACTIVE initialWorld) ++ out)%list
    /\ serialOutput out
       = notice ++ telemetryLine (set_gasLevel 120 zeroSensorData) STATE_ACTIVE.
Proof.
  apply (telemetry_tick_sends_updated_line keyPressOn 15000
           (set_currentState STATE_ACTIVE initialWorld)).
  simpl. auto.
Defined.
